(** * prquic-go: the send stream and the partial-reliability frame codec

    A shallow embedding of
      - internal/wire/pr_stream_frame.go     (PR_STREAM frames),
      - the PR_ACK_NOTIFY and PR_DATAGRAM frame files of package wire,
      - the send stream of package quic      (the send-side stream engine),
      - pr_policy.go                         (the process-wide PR configuration),
    followed by the properties of the specification that concern them.

    Conventions.  Go's [int64] ([protocol.ByteCount], [protocol.StreamID]) and
    [uint64] are integers of [Z] with the wrap-around written out; a byte is an
    integer in [0, 256); a [[]byte] is a list of bytes; a [bytes.Reader] is the
    list of the bytes still unread.  A Go function that can return an error or
    abort with a run-time panic returns a [result]. *)

From Stdlib Require Import ZArith List Bool Lia.
Import ListNotations.
Open Scope Z_scope.

(* ================================================================= *)
(** ** Go run-time behaviour: errors and panics *)

Inductive panic : Type :=
| NilDereference            (* write or read through a nil pointer *)
| SliceBounds               (* slice bounds out of range *)
| VarintTooLarge            (* quicvarint: value doesn't fit into 62 bits *)
| NegativeOutstanding.      (* panic("numOutStandingFrames negative") *)

Inductive error : Type :=
| EOF                       (* io.EOF *)
| ErrUnexpectedEOF          (* io.ErrUnexpectedEOF *)
| ErrEmptyFrame             (* "attempting to write empty frame without FIN" *)
| ErrOverflowsMaxOffset     (* "PRstream data overflows maximum offset" *)
| ErrUnknownDataLength      (* "PRAckNotify error: unknown carried data length ..." *)
| ErrWriteOnClosedStream (sid : Z)        (* "write on closed stream %d" *)
| ErrCloseCanceledStream (sid : Z)        (* "close called for canceled stream %d" *)
| ErrWriteCanceled (sid code : Z)         (* "Write on stream %d canceled with error code %d" *)
| StreamError (sid code : Z)              (* &StreamError{StreamID, ErrorCode} *)
| ErrDeadline                             (* errDeadline *)
| ErrOther (tag : Z).                     (* any other error value handed in by a caller *)

Inductive result (A : Type) : Type :=
| Ok (a : A)
| Err (e : error)
| Panic (p : panic).
Arguments Ok {A} a.
Arguments Err {A} e.
Arguments Panic {A} p.

Definition bind {A B : Type} (m : result A) (k : A -> result B) : result B :=
  match m with
  | Ok a => k a
  | Err e => Err e
  | Panic p => Panic p
  end.

Notation "x <- m ;; k" := (bind m (fun x => k))
  (at level 61, m at next level, right associativity).
Notation "' pat <- m ;; k" := (bind m (fun x => match x with pat => k end))
  (at level 61, pat pattern, m at next level, right associativity).

Definition is_ok {A : Type} (m : result A) : bool :=
  match m with Ok _ => true | _ => false end.

(* ================================================================= *)
(** ** Machine integers *)

Definition byte : Type := Z.

(** [byte(x)]: conversion to [uint8] keeps the low eight bits. *)
Definition to_byte (x : Z) : byte := Z.land x 255.

(** [uint64(x)] of an [int64], and the wrap-around of [int64] arithmetic. *)
Definition uint64 (x : Z) : Z := x mod 2 ^ 64.
Definition int64 (x : Z) : Z := (x + 2 ^ 63) mod 2 ^ 64 - 2 ^ 63.

Definition add64 (a b : Z) : Z := int64 (a + b).
Definition sub64 (a b : Z) : Z := int64 (a - b).

(** The length of a slice as a [protocol.ByteCount]. *)
Definition len {A : Type} (l : list A) : Z := Z.of_nat (length l).

(** [l[:n]] and [l[n:]] for [0 <= n <= len l]. *)
Definition take {A : Type} (n : Z) (l : list A) : list A := firstn (Z.to_nat n) l.
Definition drop {A : Type} (n : Z) (l : list A) : list A := skipn (Z.to_nat n) l.

(* ================================================================= *)
(** ** Constants of package protocol *)

Module protocol.

(** Modelled from the spec: package protocol is not under src/.  The spec
    speaks of "the max packet buffer size" and of "a protocol-defined maximum"
    for the final offset; the values are those of QUIC (RFC 9000): the largest
    62-bit integer, and the packet buffer of 1452 bytes. *)
Definition MaxByteCount : Z := 2 ^ 62 - 1.
Definition MaxPacketBufferSize : Z := 1452.
Definition MinStreamFrameBufferSize : Z := 128.

End protocol.

(* ================================================================= *)
(** ** bytes.Reader and io.ReadFull *)

Definition Reader : Type := list byte.

Definition ReadByte (r : Reader) : result (byte * Reader) :=
  match r with
  | [] => Err EOF
  | b :: r' => Ok (b, r')
  end.

(** [io.ReadFull(r, buf)] with [len(buf) = n]: [EOF] when nothing could be
    read, [ErrUnexpectedEOF] when fewer than [n] bytes were there. *)
Definition ReadFull (r : Reader) (n : Z) : result (list byte * Reader) :=
  if n =? 0 then Ok ([], r)
  else if len r =? 0 then Err EOF
  else if len r <? n then Err ErrUnexpectedEOF
  else Ok (take n r, drop n r).

(* ================================================================= *)
(** ** Variable-length integers *)

Module quicvarint.

(** Modelled from the spec: package quicvarint is not under src/.  The spec
    calls the fields "varint"; this is the variable-length integer of QUIC
    (RFC 9000, section 16): the two high bits of the first byte give the
    length 1, 2, 4 or 8, the rest is the value, big-endian.  A value of more
    than 62 bits cannot be written. *)
Definition maxVarInt1 : Z := 63.
Definition maxVarInt2 : Z := 16383.
Definition maxVarInt4 : Z := 1073741823.
Definition maxVarInt8 : Z := 4611686018427387903.

Definition Len (i : Z) : result Z :=
  if i <=? maxVarInt1 then Ok 1
  else if i <=? maxVarInt2 then Ok 2
  else if i <=? maxVarInt4 then Ok 4
  else if i <=? maxVarInt8 then Ok 8
  else Panic VarintTooLarge.

Definition enc (i : Z) : result (list byte) :=
  if i <=? maxVarInt1 then Ok [to_byte i]
  else if i <=? maxVarInt2 then
    Ok [Z.lor (to_byte (Z.shiftr i 8)) 0x40; to_byte i]
  else if i <=? maxVarInt4 then
    Ok [Z.lor (to_byte (Z.shiftr i 24)) 0x80; to_byte (Z.shiftr i 16);
        to_byte (Z.shiftr i 8); to_byte i]
  else if i <=? maxVarInt8 then
    Ok [Z.lor (to_byte (Z.shiftr i 56)) 0xc0; to_byte (Z.shiftr i 48);
        to_byte (Z.shiftr i 40); to_byte (Z.shiftr i 32);
        to_byte (Z.shiftr i 24); to_byte (Z.shiftr i 16);
        to_byte (Z.shiftr i 8); to_byte i]
  else Panic VarintTooLarge.

Definition Append (b : list byte) (i : Z) : result (list byte) :=
  e <- enc i ;; Ok (b ++ e).

(** Big-endian value of [n] further bytes after the accumulator [acc]. *)
Fixpoint read_more (n : nat) (acc : Z) (r : Reader) : result (Z * Reader) :=
  match n with
  | O => Ok (acc, r)
  | S n' => '(b, r') <- ReadByte r ;; read_more n' (Z.lor (Z.shiftl acc 8) b) r'
  end.

Definition Read (r : Reader) : result (Z * Reader) :=
  '(firstByte, r1) <- ReadByte r ;;
  let l := Z.shiftl 1 (Z.shiftr (Z.land firstByte 0xc0) 6) in
  let b1 := Z.land firstByte (0xff - 0xc0) in
  read_more (Z.to_nat (l - 1)) b1 r1.

End quicvarint.

(* ================================================================= *)
(** ** Package wire: the frames *)

Module wire.

(** *** STREAM frames *)

Record StreamFrame : Type := mkStreamFrame {
  sf_StreamID : Z;
  sf_Offset : Z;
  sf_Data : list byte;
  sf_Fin : bool;
  sf_DataLenPresent : bool;
  sf_fromPool : bool
}.

(** Modelled from the spec: the pool of STREAM frames (pool.go of package
    wire) is not under src/.  The spec has the stream "synthesize a fresh
    frame" and leave "a fresh tail", its buffer "drawn from a pool sized to
    the maximum packet buffer": [GetStreamFrame()] is the frame the pool
    makes, with an empty buffer of capacity [protocol.MaxPacketBufferSize],
    no FIN and [fromPool] set, as the pool of PR_STREAM frames that is under
    src/ makes its frames.  A frame that the pool hands out a second time
    keeps the fields of its last use; the stream assigns the stream id, the
    offset, the data and [DataLenPresent] of every frame it takes, so only
    the [Fin] stored in [nextFrame] can be other than here, and
    [popNewOrRetransmittedStreamFrame] assigns [Fin] before it returns a
    frame. *)
Definition GetStreamFrame : StreamFrame :=
  mkStreamFrame 0 0 [] false false true.

Definition StreamFrame_DataLen (f : StreamFrame) : Z := len (sf_Data f).

(** Modelled from the spec: stream_frame.go of package wire is not under
    src/.  [encoded_length] is "a pure function of header presence and data
    length"; [max_data_len] "returns 0 if the header alone exceeds the budget,
    else the maximum payload fitting within budget, accounting for varint
    length-of-length self-reference (the length varint may round up by one)";
    [maybe_split]: "if the frame fits, returns (none, false); if the budget is
    below the minimum header size, returns (none, true) with the original
    frame unchanged; otherwise produces a head frame sized to fit and a tail
    frame carrying the remaining bytes at offset + head_len, with FIN cleared
    on the head and copied to the tail".  The head is the frame returned, the
    tail is what the receiver of the call becomes. *)
Definition StreamFrame_Length (f : StreamFrame) : result Z :=
  l1 <- quicvarint.Len (uint64 (sf_StreamID f)) ;;
  let length := add64 1 l1 in
  length <- (if sf_Offset f =? 0 then Ok length
             else l2 <- quicvarint.Len (uint64 (sf_Offset f)) ;; Ok (add64 length l2)) ;;
  length <- (if sf_DataLenPresent f
             then l3 <- quicvarint.Len (uint64 (StreamFrame_DataLen f)) ;; Ok (add64 length l3)
             else Ok length) ;;
  Ok (add64 length (StreamFrame_DataLen f)).

Definition StreamFrame_MaxDataLen (f : StreamFrame) (maxSize : Z) : result Z :=
  l1 <- quicvarint.Len (uint64 (sf_StreamID f)) ;;
  let headerLen := add64 1 l1 in
  headerLen <- (if sf_Offset f =? 0 then Ok headerLen
                else l2 <- quicvarint.Len (uint64 (sf_Offset f)) ;; Ok (add64 headerLen l2)) ;;
  let headerLen := if sf_DataLenPresent f then add64 headerLen 1 else headerLen in
  if headerLen >? maxSize then Ok 0
  else
    let maxDataLen := sub64 maxSize headerLen in
    if sf_DataLenPresent f then
      l <- quicvarint.Len (uint64 maxDataLen) ;;
      Ok (if negb (l =? 1) then sub64 maxDataLen 1 else maxDataLen)
    else Ok maxDataLen.

(** The result of a split: the frame split off (or nil), whether splitting
    was required, and the receiver after the call. *)
Definition StreamFrame_MaybeSplitOffFrame (f : StreamFrame) (maxSize : Z)
  : result (option StreamFrame * bool * StreamFrame) :=
  length <- StreamFrame_Length f ;;
  if maxSize >=? length then Ok (None, false, f)
  else
    n <- StreamFrame_MaxDataLen f maxSize ;;
    if n =? 0 then Ok (None, true, f)
    else
      let k := sub64 (StreamFrame_DataLen f) n in
      if (k <? 0) || (k >? protocol.MaxPacketBufferSize) then Panic SliceBounds
      else if (n <? 0) || (n >? StreamFrame_DataLen f) then Panic SliceBounds
      else
        let new := mkStreamFrame (sf_StreamID f) (sf_Offset f) (take n (sf_Data f))
                     false (sf_DataLenPresent f) (sf_fromPool f) in
        let f' := mkStreamFrame (sf_StreamID f) (add64 (sf_Offset f) n)
                     (drop n (sf_Data f)) (sf_Fin f) (sf_DataLenPresent f) true in
        Ok (Some new, true, f').

(** *** PR_STREAM frames (internal/wire/pr_stream_frame.go) *)

Record PRStreamFrame : Type := mkPRStreamFrame {
  StreamID : Z;
  Offset : Z;
  Data : list byte;
  Fin : bool;
  DataLenPresent : bool;
  PTDA : byte;
  P : bool;
  T : bool;
  D : bool;
  A : bool;
  ptdaC : Z;
  fromPool : bool
}.

(** The zero value [PRStreamFrame{}] with the given data buffer. *)
Definition zeroPRStreamFrame (data : list byte) : PRStreamFrame :=
  mkPRStreamFrame 0 0 data false false 0 false false false false 0 false.

(** [GetPRStreamFrame()]: what the pool's [New] makes. *)
Definition GetPRStreamFrame : PRStreamFrame :=
  mkPRStreamFrame 0 0 [] false false 0 false false false false 0 true.

Definition PRStreamFrame_DataLen (f : PRStreamFrame) : Z := len (Data f).

(** The [switch frame.PTDA & 0xf0] that sets one of the four policy flags. *)
Definition set_policy_flags (f : PRStreamFrame) : PRStreamFrame :=
  let sel := Z.land (PTDA f) 0xf0 in
  if sel =? 0x10 then
    mkPRStreamFrame (StreamID f) (Offset f) (Data f) (Fin f) (DataLenPresent f)
      (PTDA f) (P f) (T f) (D f) true (ptdaC f) (fromPool f)
  else if sel =? 0x20 then
    mkPRStreamFrame (StreamID f) (Offset f) (Data f) (Fin f) (DataLenPresent f)
      (PTDA f) (P f) (T f) true (A f) (ptdaC f) (fromPool f)
  else if sel =? 0x40 then
    mkPRStreamFrame (StreamID f) (Offset f) (Data f) (Fin f) (DataLenPresent f)
      (PTDA f) (P f) true (D f) (A f) (ptdaC f) (fromPool f)
  else if sel =? 0x80 then
    mkPRStreamFrame (StreamID f) (Offset f) (Data f) (Fin f) (DataLenPresent f)
      (PTDA f) true (T f) (D f) (A f) (ptdaC f) (fromPool f)
  else f.

(** The part of [parsePRStreamFrame] from [var frame *PRStreamFrame] on, with
    the value [frame] of that pointer variable as a parameter.  The first
    statement assigns to [frame.PTDA]: through a nil pointer this is a
    run-time panic, whatever [r.ReadByte()] returned. *)
Definition parsePRStreamFrame_body (frame : option PRStreamFrame)
    (r : Reader) (streamID offset dataLen : Z) (fin hasDataLen : bool)
  : result PRStreamFrame :=
  match frame with
  | None => Panic NilDereference
  | Some fr =>
    '(ptda, r) <- ReadByte r ;;
    let fr := mkPRStreamFrame (StreamID fr) (Offset fr) (Data fr) (Fin fr)
                (DataLenPresent fr) ptda (P fr) (T fr) (D fr) (A fr) (ptdaC fr)
                (fromPool fr) in
    let fr := set_policy_flags fr in
    '(c, r) <- quicvarint.Read r ;;
    (* the frame is allocated only here, and the fields read so far are lost *)
    fr <- (if dataLen <? protocol.MinStreamFrameBufferSize
           then Ok (zeroPRStreamFrame (repeat 0 (Z.to_nat dataLen)))
           else if dataLen >? protocol.MaxPacketBufferSize then Err EOF
           else Ok (mkPRStreamFrame 0 0 (repeat 0 (Z.to_nat dataLen)) false false
                      0 false false false false 0 true)) ;;
    '(data, r) <- (if negb (dataLen =? 0) then ReadFull r dataLen else Ok (Data fr, r)) ;;
    let fr := mkPRStreamFrame streamID offset data fin hasDataLen
                (PTDA fr) (P fr) (T fr) (D fr) (A fr) (ptdaC fr) (fromPool fr) in
    if add64 (Offset fr) (PRStreamFrame_DataLen fr) >? protocol.MaxByteCount
    then Err ErrOverflowsMaxOffset
    else Ok fr
  end.

Definition parsePRStreamFrame (r : Reader) : result PRStreamFrame :=
  '(typeByte, r) <- ReadByte r ;;
  let hasOffset := Z.land typeByte 4 >? 0 in
  let fin := Z.land typeByte 1 >? 0 in
  let hasDataLen := Z.land typeByte 2 >? 0 in
  '(streamID, r) <- quicvarint.Read r ;;
  '(offset, r) <- (if hasOffset then quicvarint.Read r else Ok (0, r)) ;;
  '(dataLen, r) <- (if hasDataLen then quicvarint.Read r else Ok (len r, r)) ;;
  (* var frame *PRStreamFrame *)
  parsePRStreamFrame_body None r streamID offset dataLen fin hasDataLen.

(** The type byte: [0x8] with the FIN, LEN and OFF bits toggled in. *)
Definition stream_type_byte (base : Z) (fin dataLenPresent hasOffset : bool) : byte :=
  let t := base in
  let t := if fin then Z.lxor t 1 else t in
  let t := if dataLenPresent then Z.lxor t 2 else t in
  if hasOffset then Z.lxor t 4 else t.

Definition PRStreamFrame_Append (f : PRStreamFrame) (b : list byte) : result (list byte) :=
  if (len (Data f) =? 0) && negb (Fin f) then Err ErrEmptyFrame
  else
    let hasOffset := negb (Offset f =? 0) in
    let typeByte := stream_type_byte 0x8 (Fin f) (DataLenPresent f) hasOffset in
    let b := b ++ [typeByte] in
    b <- quicvarint.Append b (uint64 (StreamID f)) ;;
    b <- (if hasOffset then quicvarint.Append b (uint64 (Offset f)) else Ok b) ;;
    b <- (if DataLenPresent f then quicvarint.Append b (uint64 (PRStreamFrame_DataLen f)) else Ok b) ;;
    let b := b ++ [PTDA f] in
    let b := b ++ [to_byte (ptdaC f)] in
    Ok (b ++ Data f).

Definition PRStreamFrame_Length (f : PRStreamFrame) : result Z :=
  l1 <- quicvarint.Len (uint64 (StreamID f)) ;;
  let length := add64 1 l1 in
  length <- (if Offset f =? 0 then Ok length
             else l2 <- quicvarint.Len (uint64 (Offset f)) ;; Ok (add64 length l2)) ;;
  length <- (if DataLenPresent f
             then l3 <- quicvarint.Len (uint64 (PRStreamFrame_DataLen f)) ;; Ok (add64 length l3)
             else Ok length) ;;
  let length := add64 length 1 in
  lc <- quicvarint.Len (uint64 (ptdaC f)) ;;
  let length := add64 length lc in
  Ok (add64 length (PRStreamFrame_DataLen f)).

Definition PRStreamFrame_MaxDataLen (f : PRStreamFrame) (maxSize : Z) : result Z :=
  l1 <- quicvarint.Len (uint64 (StreamID f)) ;;
  let headerLen := add64 1 l1 in
  headerLen <- (if Offset f =? 0 then Ok headerLen
                else l2 <- quicvarint.Len (uint64 (Offset f)) ;; Ok (add64 headerLen l2)) ;;
  let headerLen := if DataLenPresent f then add64 headerLen 1 else headerLen in
  if headerLen >? maxSize then Ok 0
  else
    let headerLen := sub64 headerLen 1 in
    lc <- quicvarint.Len (uint64 (ptdaC f)) ;;
    let headerLen := sub64 headerLen lc in
    let maxDataLen := sub64 maxSize headerLen in
    if DataLenPresent f then
      l <- quicvarint.Len (uint64 maxDataLen) ;;
      Ok (if negb (l =? 1) then sub64 maxDataLen 1 else maxDataLen)
    else Ok maxDataLen.

(** [MaybeSplitOffFrame]: the frame split off (or nil), whether splitting was
    required, and the receiver [f] after the call.  The two re-slicings
    [f.Data[:len(new.Data)-n]] (of the pool's buffer) and [new.Data[n:]] are
    the places where Go checks bounds. *)
Definition PRStreamFrame_MaybeSplitOffFrame (f : PRStreamFrame) (maxSize : Z)
  : result (option PRStreamFrame * bool * PRStreamFrame) :=
  length <- PRStreamFrame_Length f ;;
  if maxSize >=? length then Ok (None, false, f)
  else
    n <- PRStreamFrame_MaxDataLen f maxSize ;;
    if n =? 0 then Ok (None, true, f)
    else
      let new := GetPRStreamFrame in
      (* swap the data slices *)
      let newData := Data f in
      let k := sub64 (len newData) n in
      if (k <? 0) || (k >? protocol.MaxPacketBufferSize) then Panic SliceBounds
      else if (n <? 0) || (n >? len newData) then Panic SliceBounds
      else
        let new' := mkPRStreamFrame (StreamID f) (Offset f) (take n newData) false
                      (DataLenPresent f) (PTDA f) (P f) (T f) (D f) (A f) (ptdaC f)
                      (fromPool f) in
        let f' := mkPRStreamFrame (StreamID f) (add64 (Offset f) n) (drop n newData)
                      (Fin f) (DataLenPresent f) (PTDA f) (P f) (T f) (D f) (A f)
                      (ptdaC f) (fromPool new) in
        Ok (Some new', true, f').


(** *** PR_ACK_NOTIFY frames *)

Record PRAckNotifyFrame : Type := mkPRAckNotifyFrame {
  an_StreamID : Z;
  an_Offset : Z;
  an_PRDataLen : Z;
  an_Fin : bool;
  an_DataLenPresent : bool;
  an_PTDA : byte;
  an_P : bool;
  an_T : bool;
  an_D : bool;
  an_A : bool;
  an_PtdaC : Z
}.

Definition parsePRAckNotifyFrame (r : Reader) : result PRAckNotifyFrame :=
  '(typeByte, r) <- ReadByte r ;;
  let hasOffset := Z.land typeByte 4 >? 0 in
  let fin := Z.land typeByte 1 >? 0 in
  let hasDataLen := Z.land typeByte 2 >? 0 in
  '(streamID, r) <- quicvarint.Read r ;;
  '(ptda, r) <- ReadByte r ;;
  let sel := Z.land ptda 0xf0 in
  let a := sel =? 0x10 in
  let d := sel =? 0x20 in
  let t := sel =? 0x40 in
  let p := sel =? 0x80 in
  '(c, r) <- quicvarint.Read r ;;
  '(offset, r) <- (if hasOffset then quicvarint.Read r else Ok (0, r)) ;;
  '(dataLen, r) <- quicvarint.Read r ;;
  Ok (mkPRAckNotifyFrame (int64 streamID) (int64 offset) dataLen fin hasDataLen
        ptda p t d a c).

(** [PRAckNotifyFrame.Append]: type, StreamID, PTDA, PtdaC, Offset, PRDataLen. *)
Definition PRAckNotifyFrame_Append (f : PRAckNotifyFrame) (b : list byte)
  : result (list byte) :=
  let hasOffset := negb (an_Offset f =? 0) in
  let typeByte := stream_type_byte 0x58 (an_Fin f) (an_DataLenPresent f) hasOffset in
  let b := b ++ [typeByte] in
  b <- quicvarint.Append b (uint64 (an_StreamID f)) ;;
  let b := b ++ [an_PTDA f] in
  b <- quicvarint.Append b (an_PtdaC f) ;;
  b <- (if hasOffset then quicvarint.Append b (uint64 (an_Offset f)) else Ok b) ;;
  quicvarint.Append b (an_PRDataLen f).

Definition PRAckNotifyFrame_DataLen (f : PRAckNotifyFrame) : Z := int64 (an_PRDataLen f).

Definition PRAckNotifyFrame_Length (f : PRAckNotifyFrame) : result Z :=
  l1 <- quicvarint.Len (uint64 (an_StreamID f)) ;;
  let length := add64 1 l1 in
  length <- (if an_Offset f =? 0 then Ok length
             else l2 <- quicvarint.Len (uint64 (an_Offset f)) ;; Ok (add64 length l2)) ;;
  l3 <- quicvarint.Len (uint64 (PRAckNotifyFrame_DataLen f)) ;;
  let length := add64 length l3 in
  let length := add64 length 1 in
  lc <- quicvarint.Len (an_PtdaC f) ;;
  Ok (add64 length lc).

Definition PRAckNotifyFrame_MaxDataLen (f : PRAckNotifyFrame) (maxSize : Z) : result Z :=
  l1 <- quicvarint.Len (uint64 (an_StreamID f)) ;;
  let headerLen := add64 1 l1 in
  headerLen <- (if an_Offset f =? 0 then Ok headerLen
                else l2 <- quicvarint.Len (uint64 (an_Offset f)) ;; Ok (add64 headerLen l2)) ;;
  let headerLen := if an_DataLenPresent f then add64 headerLen 1 else headerLen in
  if headerLen >? maxSize then Ok 0
  else
    let headerLen := sub64 headerLen 1 in
    lc <- quicvarint.Len (an_PtdaC f) ;;
    let headerLen := sub64 headerLen lc in
    let maxDataLen := sub64 maxSize headerLen in
    if an_DataLenPresent f then
      l <- quicvarint.Len (uint64 maxDataLen) ;;
      Ok (if negb (l =? 1) then sub64 maxDataLen 1 else maxDataLen)
    else Ok maxDataLen.

(** The [Append] of the second PR_ACK_NOTIFY file of the repository: type
    byte [0x8], StreamID, Offset, the data length when [DataLenPresent], PTDA
    and one byte of [ptdaC]. *)
Definition PRAckNotifyFrame_Append_second (f : PRAckNotifyFrame) (b : list byte)
  : result (list byte) :=
  let hasOffset := negb (an_Offset f =? 0) in
  let typeByte := stream_type_byte 0x8 (an_Fin f) (an_DataLenPresent f) hasOffset in
  let b := b ++ [typeByte] in
  b <- quicvarint.Append b (uint64 (an_StreamID f)) ;;
  b <- (if hasOffset then quicvarint.Append b (uint64 (an_Offset f)) else Ok b) ;;
  b <- (if an_DataLenPresent f
        then quicvarint.Append b (uint64 (PRAckNotifyFrame_DataLen f)) else Ok b) ;;
  let b := b ++ [an_PTDA f] in
  Ok (b ++ [to_byte (an_PtdaC f)]).

(** *** PR_DATAGRAM frames *)

Record PRDatagramFrame : Type := mkPRDatagramFrame {
  dg_DataLenPresent : bool;
  dg_Data : list byte;
  dg_PTDA : byte;
  dg_P : bool;
  dg_T : bool;
  dg_D : bool;
  dg_A : bool;
  dg_ptdaC : Z
}.

Definition parsePRDatagramFrame (r : Reader) : result PRDatagramFrame :=
  '(typeByte, r) <- ReadByte r ;;
  let dataLenPresent := Z.land typeByte 1 >? 0 in
  '(length, r) <- (if dataLenPresent then
                     '(l, r) <- quicvarint.Read r ;;
                     if l >? len r then Err EOF else Ok (l, r)
                   else Ok (len r, r)) ;;
  '(ptda, r) <- ReadByte r ;;
  let sel := Z.land ptda 0xf0 in
  let a := sel =? 0x10 in
  let d := sel =? 0x20 in
  let t := sel =? 0x40 in
  let p := sel =? 0x80 in
  '(c, r) <- quicvarint.Read r ;;
  '(data, r) <- ReadFull r length ;;
  Ok (mkPRDatagramFrame dataLenPresent data ptda p t d a c).

Definition PRDatagramFrame_Append (f : PRDatagramFrame) (b : list byte)
  : result (list byte) :=
  let typeByte := if dg_DataLenPresent f then Z.lxor 0x52 1 else 0x52 in
  let b := b ++ [typeByte] in
  b <- (if dg_DataLenPresent f then quicvarint.Append b (len (dg_Data f)) else Ok b) ;;
  let b := b ++ [dg_PTDA f] in
  let b := b ++ [to_byte (dg_ptdaC f)] in
  Ok (b ++ dg_Data f).

Definition PRDatagramFrame_MaxDataLen (f : PRDatagramFrame) (maxSize : Z) : result Z :=
  let headerLen := 1 in
  let headerLen := if dg_DataLenPresent f then add64 headerLen 1 else headerLen in
  if headerLen >? maxSize then Ok 0
  else
    let maxDataLen := sub64 maxSize headerLen in
    if dg_DataLenPresent f then
      l <- quicvarint.Len (uint64 maxDataLen) ;;
      Ok (if negb (l =? 1) then sub64 maxDataLen 1 else maxDataLen)
    else Ok maxDataLen.

Definition PRDatagramFrame_Length (f : PRDatagramFrame) : result Z :=
  let length := add64 1 (len (dg_Data f)) in
  if dg_DataLenPresent f
  then l <- quicvarint.Len (uint64 (len (dg_Data f))) ;; Ok (add64 length l)
  else Ok length.

(** *** The parser of the second PR_ACK_NOTIFY file

    As in [parsePRStreamFrame], the fields are assigned through the pointer
    variable [frame] declared by [var frame *PRAckNotifyFrame], which nothing
    ever allocates; [frame] is a parameter of the part that follows the
    declaration. *)
Definition parsePRAckNotifyFrame_second_body (frame : option PRAckNotifyFrame)
    (r : Reader) (streamID offset dataLen : Z) (fin hasDataLen : bool)
  : result PRAckNotifyFrame :=
  match frame with
  | None => Panic NilDereference
  | Some fr =>
    '(ptda, r) <- ReadByte r ;;
    let sel := Z.land ptda 0xf0 in
    let a := if sel =? 0x10 then true else an_A fr in
    let d := if sel =? 0x20 then true else an_D fr in
    let t := if sel =? 0x40 then true else an_T fr in
    let p := if sel =? 0x80 then true else an_P fr in
    '(c, r) <- quicvarint.Read r ;;
    let prDataLen := if negb (dataLen =? 0) then dataLen else an_PRDataLen fr in
    let fr := mkPRAckNotifyFrame (int64 streamID) (int64 offset) prDataLen fin
                hasDataLen ptda p t d a c in
    if add64 (an_Offset fr) (int64 (an_PRDataLen fr)) >? protocol.MaxByteCount
    then Err ErrOverflowsMaxOffset
    else Ok fr
  end.

Definition parsePRAckNotifyFrame_second (r : Reader) : result PRAckNotifyFrame :=
  '(typeByte, r) <- ReadByte r ;;
  let hasOffset := Z.land typeByte 4 >? 0 in
  let fin := Z.land typeByte 1 >? 0 in
  let hasDataLen := Z.land typeByte 2 >? 0 in
  '(streamID, r) <- quicvarint.Read r ;;
  '(offset, r) <- (if hasOffset then quicvarint.Read r else Ok (0, r)) ;;
  '(dataLen, r) <- (if hasDataLen then quicvarint.Read r
                    else Err ErrUnknownDataLength) ;;
  (* var frame *PRAckNotifyFrame *)
  parsePRAckNotifyFrame_second_body None r streamID offset dataLen fin hasDataLen.

End wire.

(* ================================================================= *)
(** ** The stream flow controller *)

Module flowcontrol.

(** Modelled from the spec: package flowcontrol is not under src/.  Section
    4.2: [send_window_size] is the "remaining bytes the peer has authorized";
    [is_newly_blocked] is "true iff the window is zero at an offset for which
    no STREAM_DATA_BLOCKED has yet been emitted; returns the blocking offset";
    [add_bytes_sent] "accounts for newly sent bytes"; [update_send_window]
    "advances the window to limit (monotonic non-decreasing)". *)
Record StreamFlowController : Type := mkFC {
  bytesSent : Z;
  sendWindow : Z;
  lastBlockedAt : Z
}.

Definition SendWindowSize (c : StreamFlowController) : Z :=
  if bytesSent c >? sendWindow c then 0 else sendWindow c - bytesSent c.

Definition IsNewlyBlocked (c : StreamFlowController) : bool * Z * StreamFlowController :=
  if negb (SendWindowSize c =? 0) || (sendWindow c =? lastBlockedAt c)
  then (false, 0, c)
  else (true, sendWindow c, mkFC (bytesSent c) (sendWindow c) (sendWindow c)).

Definition AddBytesSent (c : StreamFlowController) (n : Z) : StreamFlowController :=
  mkFC (bytesSent c + n) (sendWindow c) (lastBlockedAt c).

Definition UpdateSendWindow (c : StreamFlowController) (limit : Z) : StreamFlowController :=
  if limit >? sendWindow c then mkFC (bytesSent c) limit (lastBlockedAt c) else c.

End flowcontrol.

(* ================================================================= *)
(** ** Package quic: the PR configuration (pr_policy.go) *)

Record PRConfig : Type := mkPRConfig {
  PR_ENABLED : bool;
  cfg_PTDA : byte;                         (* the package variable [PTDA] *)
  cfg_PtadC : Z                            (* the package variable [PtadC] *)
}.

(** The values the package variables are initialised with. *)
Definition pr_policy : PRConfig := mkPRConfig true 0x80 0.

(* ================================================================= *)
(** ** Package quic: the send stream *)

Module quic.

Import wire flowcontrol.

(** Control frames queued through [sender.queueControlFrame]. *)
Inductive ControlFrame : Type :=
| StreamDataBlockedFrame (streamID maximumStreamData : Z)
| ResetStreamFrame (streamID finalSize errorCode : Z).

(** Calls made on the stream sender, and the wake-up of the writer. *)
Inductive event : Type :=
| onHasStreamData (streamID : Z)
| onStreamCompleted (streamID : Z)
| queueControlFrame (f : ControlFrame)
| signalWrite
| ctxCancel.

(** What [popStreamFrame] hands to the packet packer: the frame together with
    its [OnLost] and [OnAcked] hooks.  A STREAM frame comes with
    [queueRetransmission] and [frameAcked], a PR_STREAM frame with
    [prQueueRetransmission] and [prStreamframeAcked]. *)
Inductive ackhandler_Frame : Type :=
| AHStream (f : StreamFrame)
| AHPRStream (f : PRStreamFrame).

Record sendStream : Type := mkSendStream {
  numOutstandingFrames : Z;
  retransmissionQueue : list StreamFrame;
  prAckNotifyRetransmissionQueue : list PRAckNotifyFrame;
  streamID : Z;
  writeOffset : Z;
  cancelWriteErr : option error;
  closeForShutdownErr : option error;
  closedForShutdown : bool;
  finishedWriting : bool;
  canceledWrite : bool;
  finSent : bool;
  completed : bool;
  dataForWriting : option (list byte);     (* [None] is the nil slice *)
  nextFrame : option StreamFrame;
  deadline : option Z;                     (* [None] is the zero time *)
  flowController : StreamFlowController
}.

Definition newSendStream (streamID : Z) (fc : StreamFlowController) : sendStream :=
  mkSendStream 0 [] [] streamID 0 None None false false false false false
    None None None fc.

(** Field updates. *)
Definition set_numOutstandingFrames (n : Z) (s : sendStream) : sendStream :=
  mkSendStream n (retransmissionQueue s) (prAckNotifyRetransmissionQueue s)
    (streamID s) (writeOffset s) (cancelWriteErr s) (closeForShutdownErr s)
    (closedForShutdown s) (finishedWriting s) (canceledWrite s) (finSent s)
    (completed s) (dataForWriting s) (nextFrame s) (deadline s) (flowController s).

Definition set_retransmissionQueue (q : list StreamFrame) (s : sendStream) : sendStream :=
  mkSendStream (numOutstandingFrames s) q (prAckNotifyRetransmissionQueue s)
    (streamID s) (writeOffset s) (cancelWriteErr s) (closeForShutdownErr s)
    (closedForShutdown s) (finishedWriting s) (canceledWrite s) (finSent s)
    (completed s) (dataForWriting s) (nextFrame s) (deadline s) (flowController s).

Definition set_prAckNotifyRetransmissionQueue (q : list PRAckNotifyFrame)
    (s : sendStream) : sendStream :=
  mkSendStream (numOutstandingFrames s) (retransmissionQueue s) q
    (streamID s) (writeOffset s) (cancelWriteErr s) (closeForShutdownErr s)
    (closedForShutdown s) (finishedWriting s) (canceledWrite s) (finSent s)
    (completed s) (dataForWriting s) (nextFrame s) (deadline s) (flowController s).

Definition set_writeOffset (o : Z) (s : sendStream) : sendStream :=
  mkSendStream (numOutstandingFrames s) (retransmissionQueue s)
    (prAckNotifyRetransmissionQueue s)
    (streamID s) o (cancelWriteErr s) (closeForShutdownErr s)
    (closedForShutdown s) (finishedWriting s) (canceledWrite s) (finSent s)
    (completed s) (dataForWriting s) (nextFrame s) (deadline s) (flowController s).

Definition set_canceled (e : error) (s : sendStream) : sendStream :=
  mkSendStream (numOutstandingFrames s) (retransmissionQueue s)
    (prAckNotifyRetransmissionQueue s)
    (streamID s) (writeOffset s) (Some e) (closeForShutdownErr s)
    (closedForShutdown s) (finishedWriting s) true (finSent s)
    (completed s) (dataForWriting s) (nextFrame s) (deadline s) (flowController s).

Definition set_closedForShutdown (e : option error) (s : sendStream) : sendStream :=
  mkSendStream (numOutstandingFrames s) (retransmissionQueue s)
    (prAckNotifyRetransmissionQueue s)
    (streamID s) (writeOffset s) (cancelWriteErr s) e
    true (finishedWriting s) (canceledWrite s) (finSent s)
    (completed s) (dataForWriting s) (nextFrame s) (deadline s) (flowController s).

Definition set_finishedWriting (b : bool) (s : sendStream) : sendStream :=
  mkSendStream (numOutstandingFrames s) (retransmissionQueue s)
    (prAckNotifyRetransmissionQueue s)
    (streamID s) (writeOffset s) (cancelWriteErr s) (closeForShutdownErr s)
    (closedForShutdown s) b (canceledWrite s) (finSent s)
    (completed s) (dataForWriting s) (nextFrame s) (deadline s) (flowController s).

Definition set_finSent (b : bool) (s : sendStream) : sendStream :=
  mkSendStream (numOutstandingFrames s) (retransmissionQueue s)
    (prAckNotifyRetransmissionQueue s)
    (streamID s) (writeOffset s) (cancelWriteErr s) (closeForShutdownErr s)
    (closedForShutdown s) (finishedWriting s) (canceledWrite s) b
    (completed s) (dataForWriting s) (nextFrame s) (deadline s) (flowController s).

Definition set_completed (b : bool) (s : sendStream) : sendStream :=
  mkSendStream (numOutstandingFrames s) (retransmissionQueue s)
    (prAckNotifyRetransmissionQueue s)
    (streamID s) (writeOffset s) (cancelWriteErr s) (closeForShutdownErr s)
    (closedForShutdown s) (finishedWriting s) (canceledWrite s) (finSent s)
    b (dataForWriting s) (nextFrame s) (deadline s) (flowController s).

Definition set_dataForWriting (d : option (list byte)) (s : sendStream) : sendStream :=
  mkSendStream (numOutstandingFrames s) (retransmissionQueue s)
    (prAckNotifyRetransmissionQueue s)
    (streamID s) (writeOffset s) (cancelWriteErr s) (closeForShutdownErr s)
    (closedForShutdown s) (finishedWriting s) (canceledWrite s) (finSent s)
    (completed s) d (nextFrame s) (deadline s) (flowController s).

Definition set_nextFrame (f : option StreamFrame) (s : sendStream) : sendStream :=
  mkSendStream (numOutstandingFrames s) (retransmissionQueue s)
    (prAckNotifyRetransmissionQueue s)
    (streamID s) (writeOffset s) (cancelWriteErr s) (closeForShutdownErr s)
    (closedForShutdown s) (finishedWriting s) (canceledWrite s) (finSent s)
    (completed s) (dataForWriting s) f (deadline s) (flowController s).

Definition set_deadline (t : option Z) (s : sendStream) : sendStream :=
  mkSendStream (numOutstandingFrames s) (retransmissionQueue s)
    (prAckNotifyRetransmissionQueue s)
    (streamID s) (writeOffset s) (cancelWriteErr s) (closeForShutdownErr s)
    (closedForShutdown s) (finishedWriting s) (canceledWrite s) (finSent s)
    (completed s) (dataForWriting s) (nextFrame s) t (flowController s).

Definition set_flowController (c : StreamFlowController) (s : sendStream) : sendStream :=
  mkSendStream (numOutstandingFrames s) (retransmissionQueue s)
    (prAckNotifyRetransmissionQueue s)
    (streamID s) (writeOffset s) (cancelWriteErr s) (closeForShutdownErr s)
    (closedForShutdown s) (finishedWriting s) (canceledWrite s) (finSent s)
    (completed s) (dataForWriting s) (nextFrame s) (deadline s) c.

(** [len(s.dataForWriting)]: the length of a nil slice is zero. *)
Definition dataForWriting_len (s : sendStream) : Z :=
  match dataForWriting s with None => 0 | Some d => len d end.

Definition isSome {A : Type} (o : option A) : bool :=
  match o with Some _ => true | None => false end.

(** *** Write

    [Write] blocks until the packer has taken the data.  Every section of a
    call that runs under the mutex is one step of the model: [Write] is the
    call from its entry to the first point where it returns or suspends on
    the write channel, [Write_loop] one iteration of its loop, which is also
    what runs when a suspended call is woken up.  [now] is the clock reading
    of the entry check and [now'] the one of the iteration. *)

Inductive WriteOutcome : Type :=
| Returned (n : Z) (err : option error)
| Suspended (bytesWritten : Z).

Definition deadline_passed (s : sendStream) (now : Z) : bool :=
  match deadline s with
  | None => false
  | Some t => negb (now <? t)
  end.

(** The checks at the entry of [Write], in the order of the source:
    [Some (n, err)] is an immediate return, [None] lets the call go on. *)
Definition Write_entry (s : sendStream) (now : Z) : option (Z * option error) :=
  if finishedWriting s then Some (0, Some (ErrWriteOnClosedStream (streamID s)))
  else if canceledWrite s then Some (0, cancelWriteErr s)
  else if isSome (closeForShutdownErr s) then Some (0, closeForShutdownErr s)
  else if deadline_passed s now then Some (0, Some ErrDeadline)
  else None.

Definition canBufferStreamFrame (s : sendStream) : bool :=
  let l := match nextFrame s with
           | Some f => StreamFrame_DataLen f
           | None => 0
           end in
  add64 l (dataForWriting_len s) <=? protocol.MaxPacketBufferSize.

(** One iteration of the loop of [Write] for the input [p];
    [notifiedSender] tells whether [onHasStreamData] was already called. *)
Definition Write_loop (s : sendStream) (p : list byte) (now' : Z)
    (notifiedSender : bool) : sendStream * list event * WriteOutcome :=
  let notify := if notifiedSender then [] else [onHasStreamData (streamID s)] in
  let d := match dataForWriting s with Some d => d | None => [] end in
  if canBufferStreamFrame s && (dataForWriting_len s >? 0) then
    let nf := match nextFrame s with
              | None => mkStreamFrame (streamID s) (writeOffset s) d
                          (sf_Fin GetStreamFrame) true (sf_fromPool GetStreamFrame)
              | Some f => mkStreamFrame (sf_StreamID f) (sf_Offset f)
                            (sf_Data f ++ d) (sf_Fin f) (sf_DataLenPresent f)
                            (sf_fromPool f)
              end in
    let s := set_dataForWriting None (set_nextFrame (Some nf) s) in
    (s, notify, Returned (len p) None)
  else
    let bytesWritten := len p - dataForWriting_len s in
    if deadline_passed s now' then
      (set_dataForWriting None s, [], Returned bytesWritten (Some ErrDeadline))
    else if negb (isSome (dataForWriting s)) || canceledWrite s || closedForShutdown s
    then
      (s, [],
       if bytesWritten =? len p then Returned bytesWritten None
       else if isSome (closeForShutdownErr s)
            then Returned bytesWritten (closeForShutdownErr s)
            else Returned bytesWritten (cancelWriteErr s))
    else (s, notify, Suspended bytesWritten).

Definition Write (s : sendStream) (p : list byte) (now now' : Z)
  : sendStream * list event * WriteOutcome :=
  match Write_entry s now with
  | Some (n, err) => (s, [], Returned n err)
  | None =>
    if len p =? 0 then (s, [], Returned 0 None)
    else Write_loop (set_dataForWriting (Some p) s) p now' false
  end.

(** *** Frame assembly *)

Definition getDataForWriting (s : sendStream) (f : StreamFrame) (maxBytes : Z)
  : result (StreamFrame * sendStream * list event) :=
  let d := match dataForWriting s with Some d => d | None => [] end in
  let with_data (x : list byte) :=
    mkStreamFrame (sf_StreamID f) (sf_Offset f) x (sf_Fin f) (sf_DataLenPresent f)
      (sf_fromPool f) in
  if len d <=? maxBytes then
    if len d >? protocol.MaxPacketBufferSize then Panic SliceBounds
    else Ok (with_data d, set_dataForWriting None s, [signalWrite])
  else
    if (maxBytes <? 0) || (maxBytes >? protocol.MaxPacketBufferSize) then Panic SliceBounds
    else
      let s := set_dataForWriting (Some (drop maxBytes d)) s in
      Ok (with_data (take maxBytes d), s,
          if canBufferStreamFrame s then [signalWrite] else []).

Definition popNewStreamFrameWithoutBuffer (s : sendStream) (f : StreamFrame)
    (maxBytes sendWindow : Z) : result (bool * StreamFrame * sendStream * list event) :=
  maxDataLen <- StreamFrame_MaxDataLen f maxBytes ;;
  if maxDataLen =? 0 then
    Ok (isSome (dataForWriting s) || isSome (nextFrame s) || finishedWriting s, f, s, [])
  else
    '(f, s, evs) <- getDataForWriting s f (Z.min maxDataLen sendWindow) ;;
    Ok (isSome (dataForWriting s) || isSome (nextFrame s) || finishedWriting s, f, s, evs).

Definition popNewStreamFrame (s : sendStream) (maxBytes sendWindow : Z)
  : result (option StreamFrame * bool * sendStream * list event) :=
  match nextFrame s with
  | Some nf =>
    let s := set_nextFrame None s in
    m <- StreamFrame_MaxDataLen nf maxBytes ;;
    let maxDataLen := Z.min sendWindow m in
    if StreamFrame_DataLen nf >? maxDataLen then
      let k := sub64 (StreamFrame_DataLen nf) maxDataLen in
      if (k <? 0) || (k >? protocol.MaxPacketBufferSize) then Panic SliceBounds
      else if maxDataLen <? 0 then Panic SliceBounds
      else
        let tail := mkStreamFrame (streamID s) (add64 (writeOffset s) maxDataLen)
                      (drop maxDataLen (sf_Data nf)) (sf_Fin GetStreamFrame)
                      true (sf_fromPool GetStreamFrame) in
        let head := mkStreamFrame (sf_StreamID nf) (sf_Offset nf)
                      (take maxDataLen (sf_Data nf)) (sf_Fin nf)
                      (sf_DataLenPresent nf) (sf_fromPool nf) in
        let s := set_nextFrame (Some tail) s in
        Ok (Some head, isSome (nextFrame s) || isSome (dataForWriting s), s, [])
    else
      Ok (Some nf, isSome (nextFrame s) || isSome (dataForWriting s), s,
          [signalWrite])
  | None =>
    let f := mkStreamFrame (streamID s) (writeOffset s) [] false true
               (sf_fromPool GetStreamFrame) in
    '(hasMoreData, f, s, evs) <- popNewStreamFrameWithoutBuffer s f maxBytes sendWindow ;;
    if (len (sf_Data f) =? 0) && negb (sf_Fin f)
    then Ok (None, hasMoreData, s, evs)
    else Ok (Some f, hasMoreData, s, evs)
  end.

(** [maybeGetRetransmission] is called with a non-empty queue; indexing an
    empty one is a run-time panic.  The head of the queue is a pointer: a
    split changes the frame in the queue into the tail. *)
Definition maybeGetRetransmission (s : sendStream) (maxBytes : Z)
  : result (option StreamFrame * bool * sendStream) :=
  match retransmissionQueue s with
  | [] => Panic SliceBounds
  | f :: rest =>
    '(newFrame, needsSplit, f') <- StreamFrame_MaybeSplitOffFrame f maxBytes ;;
    if needsSplit
    then Ok (newFrame, true, set_retransmissionQueue (f' :: rest) s)
    else Ok (Some f', len rest >? 0, set_retransmissionQueue rest s)
  end.

(** The new-data part of [popNewOrRetransmittedStreamFrame], after the
    retransmission queue has been looked at. *)
Definition popNewData (s : sendStream) (maxBytes : Z)
  : result (option StreamFrame * bool * sendStream * list event) :=
  if (dataForWriting_len s =? 0) && negb (isSome (nextFrame s)) then
    if finishedWriting s && negb (finSent s) then
      Ok (Some (mkStreamFrame (streamID s) (writeOffset s) [] true true false),
          false, set_finSent true s, [])
    else Ok (None, false, s, [])
  else
    let sendWindow := SendWindowSize (flowController s) in
    if sendWindow =? 0 then
      let '(isBlocked, offset, fc) := IsNewlyBlocked (flowController s) in
      let s := set_flowController fc s in
      if isBlocked then
        Ok (None, false, s,
            [queueControlFrame (StreamDataBlockedFrame (streamID s) offset)])
      else Ok (None, true, s, [])
    else
      '(f, hasMoreData, s, evs) <- popNewStreamFrame s maxBytes sendWindow ;;
      match f with
      | None => Panic NilDereference           (* f.DataLen() on a nil frame *)
      | Some f =>
        let s := if StreamFrame_DataLen f >? 0
                 then set_flowController
                        (AddBytesSent (flowController s) (StreamFrame_DataLen f))
                        (set_writeOffset (add64 (writeOffset s) (StreamFrame_DataLen f)) s)
                 else s in
        let fin := finishedWriting s && negb (isSome (dataForWriting s))
                   && negb (isSome (nextFrame s)) && negb (finSent s) in
        let f := mkStreamFrame (sf_StreamID f) (sf_Offset f) (sf_Data f) fin
                   (sf_DataLenPresent f) (sf_fromPool f) in
        let s := if fin then set_finSent true s else s in
        Ok (Some f, hasMoreData, s, evs)
      end.

Definition popNewOrRetransmittedStreamFrame (s : sendStream) (maxBytes : Z)
  : result (option StreamFrame * bool * sendStream * list event) :=
  if canceledWrite s || isSome (closeForShutdownErr s) then Ok (None, false, s, [])
  else if len (retransmissionQueue s) >? 0 then
    '(f, hasMoreRetransmissions, s') <- maybeGetRetransmission s maxBytes ;;
    if isSome f || hasMoreRetransmissions then
      match f with
      | None => Ok (None, true, s', [])
      | Some f => Ok (Some f, true, s', [])
      end
    else popNewData s' maxBytes
  else popNewData s maxBytes.

(** The conversion of a STREAM frame into a PR_STREAM frame in
    [popStreamFrame], stamped with the configured policy. *)
Definition toPRStreamFrame (cfg : PRConfig) (f : StreamFrame) : PRStreamFrame :=
  mkPRStreamFrame (sf_StreamID f) (sf_Offset f) (sf_Data f) (sf_Fin f)
    (sf_DataLenPresent f) (cfg_PTDA cfg)
    (cfg_PTDA cfg =? 0x80) (cfg_PTDA cfg =? 0x40) (cfg_PTDA cfg =? 0x20) (cfg_PTDA cfg =? 0x10)
    (cfg_PtadC cfg) false.

Definition popStreamFrame (cfg : PRConfig) (s : sendStream) (maxBytes : Z)
  : result (option ackhandler_Frame * bool * sendStream * list event) :=
  let pr_maxBytes := if PR_ENABLED cfg then sub64 maxBytes (1 + 8) else maxBytes in
  '(f, hasMoreData, s, evs) <- popNewOrRetransmittedStreamFrame s pr_maxBytes ;;
  match f with
  | None => Ok (None, hasMoreData, s, evs)
  | Some f =>
    let s := set_numOutstandingFrames (add64 (numOutstandingFrames s) 1) s in
    if PR_ENABLED cfg
    then Ok (Some (AHPRStream (toPRStreamFrame cfg f)), hasMoreData, s, evs)
    else Ok (Some (AHStream f), hasMoreData, s, evs)
  end.

Definition hasData (s : sendStream) : bool := dataForWriting_len s >? 0.

(** *** Completion, acknowledgement and loss *)

(** The completion predicate of [isNewlyCompleted]. *)
Definition completion_predicate (s : sendStream) : bool :=
  (finSent s || canceledWrite s) && (numOutstandingFrames s =? 0)
  && (len (retransmissionQueue s) =? 0).

Definition isNewlyCompleted (s : sendStream) : bool * sendStream :=
  if completion_predicate s && negb (completed s)
  then (true, set_completed true s)
  else (false, s).

(** [frameAcked] and [prStreamframeAcked] have the same body; the frame
    itself only goes back to its pool. *)
Definition frameAcked (s : sendStream) : result (sendStream * list event) :=
  if canceledWrite s then Ok (s, [])
  else
    let s := set_numOutstandingFrames (sub64 (numOutstandingFrames s) 1) s in
    if numOutstandingFrames s <? 0 then Panic NegativeOutstanding
    else
      let '(newlyCompleted, s) := isNewlyCompleted s in
      Ok (s, if newlyCompleted then [onStreamCompleted (streamID s)] else []).

Definition prStreamframeAcked (s : sendStream) : result (sendStream * list event) :=
  if canceledWrite s then Ok (s, [])
  else
    let s := set_numOutstandingFrames (sub64 (numOutstandingFrames s) 1) s in
    if numOutstandingFrames s <? 0 then Panic NegativeOutstanding
    else
      let '(newlyCompleted, s) := isNewlyCompleted s in
      Ok (s, if newlyCompleted then [onStreamCompleted (streamID s)] else []).

Definition queueRetransmission (s : sendStream) (f : StreamFrame)
  : result (sendStream * list event) :=
  let sf := mkStreamFrame (sf_StreamID f) (sf_Offset f) (sf_Data f) (sf_Fin f) true
              (sf_fromPool f) in
  if canceledWrite s then Ok (s, [])
  else
    let s := set_retransmissionQueue (retransmissionQueue s ++ [sf]) s in
    let s := set_numOutstandingFrames (sub64 (numOutstandingFrames s) 1) s in
    if numOutstandingFrames s <? 0 then Panic NegativeOutstanding
    else Ok (s, [onHasStreamData (streamID s)]).

Definition prAckNotifyQueueRetransmission (s : sendStream) (f : PRAckNotifyFrame)
  : result (sendStream * list event) :=
  let prAckNf := mkPRAckNotifyFrame (an_StreamID f) (an_Offset f) (an_PRDataLen f)
                   (an_Fin f) true (an_PTDA f) (an_P f) (an_T f) (an_D f) (an_A f)
                   (an_PtdaC f) in
  if canceledWrite s then Ok (s, [])
  else
    let s := set_prAckNotifyRetransmissionQueue
               (prAckNotifyRetransmissionQueue s ++ [prAckNf]) s in
    let s := set_numOutstandingFrames (sub64 (numOutstandingFrames s) 1) s in
    if numOutstandingFrames s <? 0 then Panic NegativeOutstanding
    else Ok (s, [onHasStreamData (streamID s)]).

(** The decision of [prQueueRetransmission]: [true] when the lost frame is
    not retransmitted.  The [switch] is on [frame.PtdaC]; its case [0x80]
    compares [PtdaC] with the draw [rnd] of [rand.Intn(10000)], its cases
    [0x40], [0x20] and [0x10] are empty. *)
Definition pr_retran_enabled (frame : PRStreamFrame) (rnd : Z) : bool :=
  if ptdaC frame =? 0x80 then
    let pC := int64 (ptdaC frame) in
    pC >? rnd
  else false.

(** The STREAM frame and the PR_ACK_NOTIFY frame built from a lost frame. *)
Definition retransmitted_frame (frame : PRStreamFrame) : StreamFrame :=
  mkStreamFrame (StreamID frame) (Offset frame) (Data frame) (Fin frame)
    (DataLenPresent frame) false.

Definition notify_frame (frame : PRStreamFrame) : PRAckNotifyFrame :=
  mkPRAckNotifyFrame (StreamID frame) (Offset frame)
    (uint64 (PRStreamFrame_DataLen frame)) (Fin frame) (DataLenPresent frame)
    (wire.PTDA frame) (P frame) (T frame) (D frame) (A frame) (ptdaC frame).

Definition prQueueRetransmission (s : sendStream) (frame : PRStreamFrame) (rnd : Z)
  : result (sendStream * list event) :=
  if negb (pr_retran_enabled frame rnd)
  then queueRetransmission s (retransmitted_frame frame)
  else prAckNotifyQueueRetransmission s (notify_frame frame).

(** *** Close, cancel, shutdown *)

Definition Close (s : sendStream) : sendStream * list event * option error :=
  if closedForShutdown s then (s, [], None)
  else if canceledWrite s then (s, [], Some (ErrCloseCanceledStream (streamID s)))
  else (set_finishedWriting true s, [ctxCancel; onHasStreamData (streamID s)], None).

Definition cancelWriteImpl (s : sendStream) (errorCode : Z) (writeErr : error)
  : sendStream * list event :=
  if canceledWrite s then (s, [])
  else
    let s := set_canceled writeErr s in
    let s := set_numOutstandingFrames 0 s in
    let s := set_retransmissionQueue [] s in
    let '(newlyCompleted, s) := isNewlyCompleted s in
    (s, [ctxCancel; signalWrite;
         queueControlFrame (ResetStreamFrame (streamID s) (writeOffset s) errorCode)]
        ++ (if newlyCompleted then [onStreamCompleted (streamID s)] else [])).

Definition CancelWrite (s : sendStream) (errorCode : Z) : sendStream * list event :=
  cancelWriteImpl s errorCode (ErrWriteCanceled (streamID s) errorCode).

Definition handleStopSendingFrame (s : sendStream) (errorCode : Z)
  : sendStream * list event :=
  cancelWriteImpl s errorCode (StreamError (streamID s) errorCode).

Definition updateSendWindow (s : sendStream) (limit : Z) : sendStream * list event :=
  let hasStreamData := isSome (dataForWriting s) || isSome (nextFrame s) in
  (set_flowController (UpdateSendWindow (flowController s) limit) s,
   if hasStreamData then [onHasStreamData (streamID s)] else []).

Definition SetWriteDeadline (s : sendStream) (t : option Z) : sendStream * list event :=
  (set_deadline t s, [signalWrite]).

Definition closeForShutdown (s : sendStream) (err : option error)
  : sendStream * list event :=
  (set_closedForShutdown err s, [ctxCancel; signalWrite]).

(** *** The stream as a transition system

    The operations by which the application, the packer and the loss detector
    act on a stream, each run under the stream's mutex.  [OpWriteWake] is a
    suspended [Write] of [p] going through its loop again.  [OpLost] carries the
    frame handed out by [popStreamFrame] (which fixes the hook that is called)
    and the value drawn by [rand.Intn(10000)]. *)
Inductive op : Type :=
| OpWrite (p : list byte) (now now' : Z)
| OpWriteWake (p : list byte) (now' : Z)
| OpPopStreamFrame (maxBytes : Z)
| OpAcked (f : ackhandler_Frame)
| OpLost (f : ackhandler_Frame) (rnd : Z)
| OpClose
| OpCancelWrite (errorCode : Z)
| OpHandleStopSending (errorCode : Z)
| OpCloseForShutdown (err : option error)
| OpUpdateSendWindow (limit : Z)
| OpSetWriteDeadline (t : option Z).

Definition step (cfg : PRConfig) (s : sendStream) (o : op)
  : result (sendStream * list event) :=
  match o with
  | OpWrite p now now' =>
    let '(s, evs, _) := Write s p now now' in Ok (s, evs)
  | OpWriteWake p now' =>
    let '(s, evs, _) := Write_loop s p now' true in Ok (s, evs)
  | OpPopStreamFrame maxBytes =>
    '(_, _, s, evs) <- popStreamFrame cfg s maxBytes ;; Ok (s, evs)
  | OpAcked (AHStream _) => frameAcked s
  | OpAcked (AHPRStream _) => prStreamframeAcked s
  | OpLost (AHStream f) _ => queueRetransmission s f
  | OpLost (AHPRStream f) rnd => prQueueRetransmission s f rnd
  | OpClose => let '(s, evs, _) := Close s in Ok (s, evs)
  | OpCancelWrite c => Ok (CancelWrite s c)
  | OpHandleStopSending c => Ok (handleStopSendingFrame s c)
  | OpCloseForShutdown e => Ok (closeForShutdown s e)
  | OpUpdateSendWindow l => Ok (updateSendWindow s l)
  | OpSetWriteDeadline t => Ok (SetWriteDeadline s t)
  end.

(** A run: the operations applied in order, with the events of all of them. *)
Fixpoint run (cfg : PRConfig) (s : sendStream) (ops : list op)
  : result (sendStream * list event) :=
  match ops with
  | [] => Ok (s, [])
  | o :: ops' =>
    '(s1, e1) <- step cfg s o ;;
    '(s2, e2) <- run cfg s1 ops' ;;
    Ok (s2, e1 ++ e2)
  end.

Definition is_completed_event (e : event) : bool :=
  match e with onStreamCompleted _ => true | _ => false end.

(** How many times [onStreamCompleted] was called. *)
Definition completions (evs : list event) : nat :=
  length (filter is_completed_event evs).

(** The operation that led from [s] to [s'] with the events [evs] left the
    [completed] flag alone and did not call [onStreamCompleted]. *)
Definition quiet (s s' : sendStream) (evs : list event) : Prop :=
  completed s' = completed s /\ filter is_completed_event evs = [].

(** What one operation may do about completion: nothing once the stream is
    completed; otherwise either nothing, or it sets [completed], in a state
    where the completion predicate holds, and calls [onStreamCompleted] once. *)
Definition completes_at_most_once (s s' : sendStream) (evs : list event) : Prop :=
  if completed s then completed s' = true /\ filter is_completed_event evs = []
  else if completed s' then
    (finSent s' || canceledWrite s') = true /\
    numOutstandingFrames s' = 0 /\
    retransmissionQueue s' = [] /\
    filter is_completed_event evs = [onStreamCompleted (streamID s')]
  else filter is_completed_event evs = [].

End quic.

(* ================================================================= *)
(** ** Frames and streams used as examples *)

Module examples.

Import wire flowcontrol quic.

(** Stream 1, offset 0, the one data byte ['a'], no FIN, the length present,
    the Probability policy with parameter [c]. *)
Definition sample_frame (c : Z) : PRStreamFrame :=
  mkPRStreamFrame 1 0 [0x61] false true 0x80 true false false false c false.

(** Five data bytes with FIN and without a length field: 9 bytes on the wire,
    4 of them header. *)
Definition five_bytes : PRStreamFrame :=
  mkPRStreamFrame 1 0 [1; 2; 3; 4; 5] true false 0x80 true false false false 0 false.

(** The frame [f] carrying the data [d] instead of its own. *)
Definition with_data (f : PRStreamFrame) (d : list byte) : PRStreamFrame :=
  mkPRStreamFrame (StreamID f) (Offset f) d (Fin f) (DataLenPresent f)
    (wire.PTDA f) (P f) (T f) (D f) (A f) (ptdaC f) (fromPool f).

(** A frame shape without data: stream 1, offset 0, no length field. *)
Definition shape : PRStreamFrame :=
  mkPRStreamFrame 1 0 [] false false 0x80 true false false false 0 false.

(** A notification for five bytes at offset 0 of stream 1. *)
Definition sample_notify : PRAckNotifyFrame :=
  mkPRAckNotifyFrame 1 0 5 false true 0x80 true false false false 10000.

(** A fresh stream 4 with a send window of 1000 bytes. *)
Definition fresh : sendStream := newSendStream 4 (mkFC 0 1000 0).

(** Scenario 5 of the specification: policy P with [ptda_c = 10000]; the
    five bytes ["xxxxx"] are written, which puts them into [nextFrame], and
    framed, which hands out [lost_frame] and leaves the stream with one
    frame in flight. *)
Definition cfg10000 : PRConfig := mkPRConfig true 0x80 10000.

Definition xxxxx : list byte := [120; 120; 120; 120; 120].

Definition written : sendStream :=
  set_nextFrame (Some (mkStreamFrame 4 0 xxxxx false true true)) fresh.

Definition lost_frame : PRStreamFrame :=
  mkPRStreamFrame 4 0 xxxxx false true 0x80 true false false false 10000 false.

Definition one_in_flight : sendStream :=
  mkSendStream 1 [] [] 4 5 None None false false false false false
    None None None (mkFC 5 1000 0).

(** The configuration under which the loss hook skips: parameter [0x80]. *)
Definition cfg128 : PRConfig := mkPRConfig true 0x80 128.

(** A STREAM frame of 100 bytes at offset 0 of stream 4. *)
Definition frameA : StreamFrame := mkStreamFrame 4 0 (repeat 65 100) false true true.

(** Stream 4 with [frameA] as the only frame waiting for retransmission. *)
Definition one_queued : sendStream := set_retransmissionQueue [frameA] fresh.

(** Stream 4 after [Close] and then [closeForShutdown] with an error. *)
Definition closed_and_shutdown : sendStream :=
  set_closedForShutdown (Some (ErrOther 1)) (set_finishedWriting true fresh).

(** Stream 4 after a local cancel with code 7, and after a shutdown only. *)
Definition canceled : sendStream := set_canceled (ErrWriteCanceled 4 7) fresh.
Definition shut_down : sendStream := set_closedForShutdown (Some (ErrOther 1)) fresh.
Definition past_deadline : sendStream := set_deadline (Some 10) fresh.

(** The frame [popStreamFrame] hands out for the STREAM frame [f]. *)
Definition handed_out (cfg : PRConfig) (f : StreamFrame) : ackhandler_Frame :=
  if PR_ENABLED cfg then AHPRStream (toPRStreamFrame cfg f) else AHStream f.

(** One more frame in flight. *)
Definition one_more_outstanding (s : sendStream) : sendStream :=
  set_numOutstandingFrames (add64 (numOutstandingFrames s) 1) s.

(** Scenario 5 continued to completion, under [cfg128]: five bytes are
    written and framed, the stream is closed and the FIN frame is framed, the
    data frame is lost and skipped, and the FIN frame is acknowledged. *)
Definition frameX : PRStreamFrame :=
  toPRStreamFrame cfg128 (mkStreamFrame 4 0 xxxxx false true true).

Definition frameFin : PRStreamFrame :=
  toPRStreamFrame cfg128 (mkStreamFrame 4 5 [] true true false).

Definition scenario : list op :=
  [OpWrite xxxxx 0 0; OpPopStreamFrame 1200; OpClose; OpPopStreamFrame 1200;
   OpLost (AHPRStream frameX) 0].

Definition final_ack : op := OpAcked (AHPRStream frameFin).

(** The notification queued for [frameX]. *)
Definition notifyX : PRAckNotifyFrame :=
  mkPRAckNotifyFrame 4 0 5 false true 0x80 true false false false 128.

(** The stream after [scenario], and after the acknowledgement that follows. *)
Definition before_ack : sendStream :=
  mkSendStream 1 [] [notifyX] 4 5 None None false true false true false
    None None None (mkFC 5 1000 0).

Definition after_ack : sendStream :=
  mkSendStream 0 [] [notifyX] 4 5 None None false true false true true
    None None None (mkFC 5 1000 0).

Definition scenario_events : list event :=
  [onHasStreamData 4; signalWrite; ctxCancel; onHasStreamData 4; onHasStreamData 4].

(** A stream whose FIN has been sent and acknowledged, with one PR_STREAM
    frame still in flight. *)
Definition last_in_flight : sendStream :=
  mkSendStream 1 [] [] 4 5 None None false true false true false
    None None None (mkFC 5 1000 0).

(** A write that is canceled while it waits.  On stream 4 with a send
    window of 100000 bytes, 1500 bytes are written: they do not fit the
    buffer of [nextFrame], so [Write] suspends; one frame is popped, which
    leaves the last 313 bytes in [dataForWriting]; then the stream is
    canceled. *)
Definition wide : sendStream := newSendStream 4 (mkFC 0 100000 0).

Definition long_input : list byte := repeat 65 1500.

Definition canceled_while_writing : list op :=
  [OpWrite long_input 0 0; OpPopStreamFrame 1200; OpCancelWrite 7].

Definition canceled_mid_write : sendStream :=
  mkSendStream 0 [] [] 4 1187 (Some (ErrWriteCanceled 4 7)) None false false true
    false true (Some (repeat 65 313)) None None (mkFC 1187 100000 0).

End examples.

(* ================================================================= *)
(** ** Well-formed frames and streams *)

Module invariants.

Import wire flowcontrol quic.

Definition is_byte (b : Z) : Prop := 0 <= b < 256.

(** A value that a varint can carry. *)
Definition varint_range (i : Z) : Prop := 0 <= i <= quicvarint.maxVarInt8.

(** The four policy flags are the ones the parsers derive from [ptda]. *)
Definition flags_agree (ptda : byte) (p t d a : bool) : Prop :=
  p = (Z.land ptda 0xf0 =? 0x80) /\ t = (Z.land ptda 0xf0 =? 0x40) /\
  d = (Z.land ptda 0xf0 =? 0x20) /\ a = (Z.land ptda 0xf0 =? 0x10).

Definition notify_wf (f : PRAckNotifyFrame) : Prop :=
  varint_range (an_StreamID f) /\ varint_range (an_Offset f) /\
  varint_range (an_PRDataLen f) /\ varint_range (an_PtdaC f) /\
  flags_agree (an_PTDA f) (an_P f) (an_T f) (an_D f) (an_A f).

(** The datagram [f] carrying the data [d] instead of its own. *)
Definition dg_with_data (f : PRDatagramFrame) (d : list byte) : PRDatagramFrame :=
  mkPRDatagramFrame (dg_DataLenPresent f) d (dg_PTDA f) (dg_P f) (dg_T f) (dg_D f)
    (dg_A f) (dg_ptdaC f).

Definition prstream_range (f : PRStreamFrame) : Prop :=
  varint_range (StreamID f) /\ varint_range (Offset f) /\
  varint_range (ptdaC f) /\ varint_range (len (Data f)).

(** The state of a stream is well formed: [writeOffset] is an [int64]; the
    pending data is nil or not empty; a buffered [nextFrame] belongs to this
    stream and starts at [writeOffset]; and once the FIN has been sent the
    stream is closed for writing and nothing is pending. *)
Definition well_formed (s : sendStream) : Prop :=
  - 2 ^ 63 <= writeOffset s < 2 ^ 63 /\
  dataForWriting s <> Some [] /\
  (forall f, nextFrame s = Some f ->
             sf_Offset f = writeOffset s /\ sf_StreamID f = streamID s) /\
  (finSent s = true ->
   finishedWriting s = true /\ dataForWriting s = None /\ nextFrame s = None).

(** [s'] is [s] but for the pending data and the buffered frame. *)
Definition same_but_pending (s s' : sendStream) : Prop :=
  s' = set_dataForWriting (dataForWriting s') (set_nextFrame (nextFrame s') s).

(** [s'] has the control state of [s]: all the fields that framing new
    data does not touch. *)
Definition same_control (s s' : sendStream) : Prop :=
  numOutstandingFrames s' = numOutstandingFrames s /\
  retransmissionQueue s' = retransmissionQueue s /\
  prAckNotifyRetransmissionQueue s' = prAckNotifyRetransmissionQueue s /\
  streamID s' = streamID s /\
  cancelWriteErr s' = cancelWriteErr s /\
  closeForShutdownErr s' = closeForShutdownErr s /\
  closedForShutdown s' = closedForShutdown s /\
  finishedWriting s' = finishedWriting s /\
  canceledWrite s' = canceledWrite s /\
  completed s' = completed s /\
  deadline s' = deadline s.

(** The number of [popStreamFrame] operations in a list. *)
Definition pops (ops : list op) : Z :=
  len (filter (fun o => match o with OpPopStreamFrame _ => true | _ => false end) ops).

(** The frame [f] handed out by [popStreamFrame], as a STREAM frame. *)
Definition as_stream (f : ackhandler_Frame) : StreamFrame :=
  match f with
  | AHStream f => f
  | AHPRStream f => mkStreamFrame (StreamID f) (Offset f) (Data f) (Fin f)
                      (DataLenPresent f) false
  end.

(** The bytes accepted from the writer and not yet framed: those buffered
    in [nextFrame], then those still in [dataForWriting]. *)
Definition pending_bytes (s : sendStream) : list byte :=
  match nextFrame s with Some f => sf_Data f | None => [] end
  ++ match dataForWriting s with Some d => d | None => [] end.

(** The data of the frame handed out, if any. *)
Definition data_of (f : option ackhandler_Frame) : list byte :=
  match f with Some f => sf_Data (as_stream f) | None => [] end.

Definition stream_data_of (f : option StreamFrame) : list byte :=
  match f with Some f => sf_Data f | None => [] end.

(** The frame [f] as it is queued for retransmission: with its length. *)
Definition with_length (f : StreamFrame) : StreamFrame :=
  mkStreamFrame (sf_StreamID f) (sf_Offset f) (sf_Data f) (sf_Fin f) true
    (sf_fromPool f).

(** The notification [f] as it is queued: with its length. *)
Definition notify_with_length (f : PRAckNotifyFrame) : PRAckNotifyFrame :=
  mkPRAckNotifyFrame (an_StreamID f) (an_Offset f) (an_PRDataLen f) (an_Fin f)
    true (an_PTDA f) (an_P f) (an_T f) (an_D f) (an_A f) (an_PtdaC f).

(** The calls that return at once on a canceled stream: those of the
    writer, the packer, the loss detector and the peer that start with a test
    of [canceledWrite]. *)
Definition ignored_when_canceled (o : op) : bool :=
  match o with
  | OpWrite _ _ _ | OpPopStreamFrame _ | OpAcked _ | OpLost _ _ | OpClose
  | OpCancelWrite _ | OpHandleStopSending _ => true
  | OpWriteWake _ _ | OpCloseForShutdown _ | OpUpdateSendWindow _
  | OpSetWriteDeadline _ => false
  end.

(** From [s] to [s'] nothing was taken back: the queue of notifications has
    only been added to, the stream is the same, and the flags that were set
    are still set. *)
Definition only_grows (s s' : sendStream) : Prop :=
  (exists l, prAckNotifyRetransmissionQueue s'
             = prAckNotifyRetransmissionQueue s ++ l) /\
  streamID s' = streamID s /\
  (canceledWrite s = true -> canceledWrite s' = true) /\
  (closedForShutdown s = true -> closedForShutdown s' = true) /\
  (finishedWriting s = true -> finishedWriting s' = true) /\
  (finSent s = true -> finSent s' = true) /\
  (completed s = true -> completed s' = true).

(** The frame [f] with the FIN flag [b]. *)
Definition refin (b : bool) (f : StreamFrame) : StreamFrame :=
  mkStreamFrame (sf_StreamID f) (sf_Offset f) (sf_Data f) b (sf_DataLenPresent f)
    (sf_fromPool f).

(** The stream [s] as it is when the frame buffered in [nextFrame] came from
    the pool with the FIN flag [b] of an earlier use. *)
Definition with_buffered_fin (b : bool) (s : sendStream) : sendStream :=
  set_nextFrame (option_map (refin b) (nextFrame s)) s.

(** Two streams that differ at most in the FIN flag stored in [nextFrame]. *)
Definition same_but_buffered_fin (s t : sendStream) : Prop :=
  with_buffered_fin false s = with_buffered_fin false t.

(** Two results agree: both are values related by [R], or the same error,
    or the same panic. *)
Definition agree {A : Type} (R : A -> A -> Prop) (x y : result A) : Prop :=
  match x, y with
  | Ok a, Ok b => R a b
  | Err e, Err e' => e = e'
  | Panic p, Panic p' => p = p'
  | _, _ => False
  end.

(** A run in which the pool hands out used frames: after each operation the
    frame buffered in [nextFrame], if there is one, has the FIN flag that
    comes with the operation. *)
Fixpoint run_recycling (cfg : PRConfig) (s : sendStream) (ops : list (op * bool))
  : result (sendStream * list event) :=
  match ops with
  | [] => Ok (s, [])
  | (o, b) :: ops' =>
    '(s1, e1) <- step cfg s o ;;
    '(s2, e2) <- run_recycling cfg (with_buffered_fin b s1) ops' ;;
    Ok (s2, e1 ++ e2)
  end.

(** The same calls on the sender, and states that differ at most in the
    FIN flag stored in [nextFrame]. *)
Definition same_run (x y : sendStream * list event) : Prop :=
  snd x = snd y /\ same_but_buffered_fin (fst x) (fst y).

(** The same frame handed out with the same flag and the same calls on the
    sender, and states that differ at most in the stored FIN flag. *)
Definition same_pop
    (x y : option ackhandler_Frame * bool * sendStream * list event) : Prop :=
  fst (fst (fst x)) = fst (fst (fst y)) /\
  snd (fst (fst x)) = snd (fst (fst y)) /\
  snd x = snd y /\
  same_but_buffered_fin (snd (fst x)) (snd (fst y)).

End invariants.

(* ================================================================= *)
(** * Properties *)

(** ** The result monad *)

Lemma bind_Ok_inv {A B : Type} (m : result A) (k : A -> result B) (b : B) :
  bind m k = Ok b -> exists a, m = Ok a /\ k a = Ok b.
Proof.
  destruct m as [a | e | p]; simpl; intros H; try discriminate.
  exists a; split; [reflexivity | exact H].
Qed.

Lemma Ok_inj {A : Type} (a b : A) : Ok a = Ok b -> a = b.
Proof. intros H. congruence. Qed.

Lemma bind_never_ok {A B : Type} (m : result A) (k : A -> result B) :
  (forall a, is_ok (k a) = false) -> is_ok (bind m k) = false.
Proof.
  intros Hk. destruct m as [a | e | p]; simpl; [apply Hk | reflexivity | reflexivity].
Qed.

(** ** Machine integers *)

Lemma int64_small (x : Z) : - 2 ^ 63 <= x < 2 ^ 63 -> int64 x = x.
Proof.
  intros H. unfold int64.
  rewrite Z.mod_small by lia. lia.
Qed.

Lemma add64_small (a b : Z) : - 2 ^ 63 <= a + b < 2 ^ 63 -> add64 a b = a + b.
Proof. apply int64_small. Qed.

Lemma sub64_small (a b : Z) : - 2 ^ 63 <= a - b < 2 ^ 63 -> sub64 a b = a - b.
Proof. apply int64_small. Qed.

Lemma uint64_small (x : Z) : 0 <= x < 2 ^ 64 -> uint64 x = x.
Proof.
  intros H. unfold uint64. apply Z.mod_small. exact H.
Qed.

Lemma len_nonneg {A : Type} (l : list A) : 0 <= len l.
Proof. unfold len. lia. Qed.

Lemma len_app {A : Type} (l1 l2 : list A) : len (l1 ++ l2) = len l1 + len l2.
Proof. unfold len. rewrite length_app. lia. Qed.

Lemma take_drop {A : Type} (n : Z) (l : list A) : take n l ++ drop n l = l.
Proof. unfold take, drop. apply firstn_skipn. Qed.

Lemma len_take {A : Type} (n : Z) (l : list A) :
  0 <= n <= len l -> len (take n l) = n.
Proof.
  unfold len, take. intros H. rewrite length_firstn. lia.
Qed.

(** ** The PR_STREAM decoder *)

Section Decoder.

Import wire examples.

Lemma parsePRStreamFrame_body_nil (r : Reader) (sid off dl : Z) (fin hdl : bool) :
  parsePRStreamFrame_body None r sid off dl fin hdl = Panic NilDereference.
Proof. reflexivity. Qed.

Lemma parsePRStreamFrame_not_ok (r : Reader) : is_ok (parsePRStreamFrame r) = false.
Proof.
  unfold parsePRStreamFrame.
  apply bind_never_ok; intros [typeByte r1].
  apply bind_never_ok; intros [streamID r2].
  apply bind_never_ok; intros [offset r3].
  apply bind_never_ok; intros [dataLen r4].
  reflexivity.
Qed.

(** C3.  The PR_STREAM decoder never returns a frame.  Whenever the type
    byte, the stream id, the offset and the length could be read it assigns
    [frame.PTDA] through the nil pointer [frame] and panics -- here on the
    encoding of a one-byte frame with type byte [0x4a] -- and the frame is
    allocated only afterwards. *)
Theorem parsePRStreamFrame_nil_dereference :
  (forall r : Reader, is_ok (parsePRStreamFrame r) = false) /\
  (forall r sid off dl fin hdl,
      parsePRStreamFrame_body None r sid off dl fin hdl = Panic NilDereference) /\
  parsePRStreamFrame [0x4a; 1; 1; 0x80; 5; 0x61] = Panic NilDereference.
Proof.
  split; [exact parsePRStreamFrame_not_ok | split].
  - exact parsePRStreamFrame_body_nil.
  - reflexivity.
Qed.

(** C2.  Decoding does not invert encoding.  Decoding the encoding of a
    PR_STREAM frame never gives a frame: the decoder panics (and the encoder
    writes the type byte of a STREAM frame, [0x08 .. 0x0f]).  [Append] writes
    [ptdaC] as its low byte, so that 10000 goes out as the single byte
    [0x10]; and a PR_DATAGRAM frame with [ptdaC = 10000] comes back with
    [ptdaC = 16]. *)
Theorem PR_frames_do_not_round_trip :
  (forall f : PRStreamFrame,
      is_ok (b <- PRStreamFrame_Append f [] ;; parsePRStreamFrame b) = false) /\
  PRStreamFrame_Append (sample_frame 5) [] = Ok [0x0a; 1; 1; 0x80; 5; 0x61] /\
  parsePRStreamFrame [0x0a; 1; 1; 0x80; 5; 0x61] = Panic NilDereference /\
  PRStreamFrame_Append (sample_frame 10000) [] = Ok [0x0a; 1; 1; 0x80; 0x10; 0x61] /\
  quicvarint.enc 10000 = Ok [0x67; 0x10] /\
  PRDatagramFrame_Append
    (mkPRDatagramFrame true [0x61] 0x80 true false false false 10000) []
  = Ok [0x53; 1; 0x80; 0x10; 0x61] /\
  parsePRDatagramFrame [0x53; 1; 0x80; 0x10; 0x61]
  = Ok (mkPRDatagramFrame true [0x61] 0x80 true false false false 16).
Proof.
  split; [| repeat split; reflexivity].
  intros f. apply bind_never_ok. intros b. apply parsePRStreamFrame_not_ok.
Qed.

End Decoder.

(** ** Frame sizes *)

Section Sizes.

Import wire examples.

Lemma Len_range (i : Z) :
  0 <= i <= quicvarint.maxVarInt8 ->
  exists l, quicvarint.Len i = Ok l /\ 1 <= l <= 8.
Proof.
  intros H. unfold quicvarint.Len.
  destruct (i <=? quicvarint.maxVarInt1); [exists 1; split; [reflexivity | lia] |].
  destruct (i <=? quicvarint.maxVarInt2); [exists 2; split; [reflexivity | lia] |].
  destruct (i <=? quicvarint.maxVarInt4); [exists 4; split; [reflexivity | lia] |].
  destruct (i <=? quicvarint.maxVarInt8) eqn:E; [exists 8; split; [reflexivity | lia] |].
  apply Z.leb_gt in E. lia.
Qed.

Lemma Len_uint64_range (i : Z) :
  0 <= i <= quicvarint.maxVarInt8 ->
  exists l, quicvarint.Len (uint64 i) = Ok l /\ 1 <= l <= 8.
Proof.
  intros H. rewrite uint64_small.
  - apply Len_range. exact H.
  - unfold quicvarint.maxVarInt8 in H. lia.
Qed.

Ltac small64 :=
  repeat match goal with
         | |- context [add64 ?x ?y] => rewrite (add64_small x y) by lia
         | |- context [sub64 ?x ?y] => rewrite (sub64_small x y) by lia
         | H : context [add64 ?x ?y] |- _ => rewrite (add64_small x y) in H by lia
         | H : context [sub64 ?x ?y] |- _ => rewrite (sub64_small x y) in H by lia
         end.

(** C4.  [MaxDataLen] takes the PR overhead off the header length, that is,
    adds it to the room for data: whenever it returns a length [n] other than
    0, a frame of this shape with [n] data bytes is longer than the budget. *)
Theorem PRStreamFrame_MaxDataLen_exceeds_budget
    (f : PRStreamFrame) (b n : Z) (d : list byte) :
  0 <= StreamID f <= quicvarint.maxVarInt8 ->
  0 <= Offset f <= quicvarint.maxVarInt8 ->
  0 <= ptdaC f <= quicvarint.maxVarInt8 ->
  0 <= b <= 2 ^ 61 ->
  PRStreamFrame_MaxDataLen f b = Ok n ->
  n <> 0 ->
  len d = n ->
  exists l, PRStreamFrame_Length (with_data f d) = Ok l /\ b < l.
Proof.
  intros Hs Ho Hc Hb Hm Hn Hd.
  unfold PRStreamFrame_MaxDataLen in Hm. unfold PRStreamFrame_Length.
  unfold PRStreamFrame_DataLen. cbn [with_data StreamID Offset Data DataLenPresent ptdaC].
  assert (Hmax : quicvarint.maxVarInt8 = 2 ^ 62 - 1) by reflexivity.
  pose proof (len_nonneg d) as Hd0.
  destruct (Len_uint64_range _ Hs) as (l1 & E1 & Hl1). rewrite E1 in *. clear E1.
  destruct (Len_uint64_range _ Hc) as (lc & Ec & Hlc). rewrite Ec in *. clear Ec.
  cbn [bind] in Hm |- *.
  destruct (Offset f =? 0).
  - cbn [bind] in Hm |- *. destruct (DataLenPresent f); cbn [bind] in Hm |- *.
    + small64.
      destruct (Z.gtb_spec (1 + l1 + 1) b); [apply Ok_inj in Hm; congruence |].
      assert (Hr : 0 <= b - (1 + l1 + 1 - 1 - lc) <= quicvarint.maxVarInt8) by lia.
      destruct (Len_uint64_range _ Hr) as (lm & E & Hlm). rewrite E in Hm. clear E.
      cbn [bind] in Hm. apply Ok_inj in Hm. subst n.
      assert (Hn' : 0 <= len d <= quicvarint.maxVarInt8).
      { rewrite Hd. destruct (negb (lm =? 1)); small64; lia. }
      destruct (Len_uint64_range _ Hn') as (l3 & -> & Hl3). cbn [bind].
      eexists; split; [reflexivity |].
      rewrite Hd in *. destruct (negb (lm =? 1)); small64; lia.
    + small64.
      destruct (Z.gtb_spec (1 + l1) b); [apply Ok_inj in Hm; congruence |].
      apply Ok_inj in Hm. subst n.
      eexists; split; [reflexivity |].
      rewrite Hd in *. small64. lia.
  - destruct (Len_uint64_range _ Ho) as (l2 & E2 & Hl2). rewrite E2 in *. clear E2.
    cbn [bind] in Hm |- *. destruct (DataLenPresent f); cbn [bind] in Hm |- *.
    + small64.
      destruct (Z.gtb_spec (1 + l1 + l2 + 1) b); [apply Ok_inj in Hm; congruence |].
      assert (Hr : 0 <= b - (1 + l1 + l2 + 1 - 1 - lc) <= quicvarint.maxVarInt8) by lia.
      destruct (Len_uint64_range _ Hr) as (lm & E & Hlm). rewrite E in Hm. clear E.
      cbn [bind] in Hm. apply Ok_inj in Hm. subst n.
      assert (Hn' : 0 <= len d <= quicvarint.maxVarInt8).
      { rewrite Hd. destruct (negb (lm =? 1)); small64; lia. }
      destruct (Len_uint64_range _ Hn') as (l3 & -> & Hl3). cbn [bind].
      eexists; split; [reflexivity |].
      rewrite Hd in *. destruct (negb (lm =? 1)); small64; lia.
    + small64.
      destruct (Z.gtb_spec (1 + l1 + l2) b); [apply Ok_inj in Hm; congruence |].
      apply Ok_inj in Hm. subst n.
      eexists; split; [reflexivity |].
      rewrite Hd in *. small64. lia.
Qed.

Lemma PRStreamFrame_MaxDataLen_exceeds_budget_witness :
  exists l, PRStreamFrame_Length (with_data shape (repeat 0 10)) = Ok l /\ 10 < l.
Proof.
  apply (PRStreamFrame_MaxDataLen_exceeds_budget shape 10 10 (repeat 0 10)).
  - vm_compute. split; discriminate.
  - vm_compute. split; discriminate.
  - vm_compute. split; discriminate.
  - vm_compute. split; discriminate.
  - reflexivity.
  - discriminate.
  - reflexivity.
Defined.

End Sizes.

(** ** Splitting and the layout of PR_ACK_NOTIFY *)

Section Layout.

Import wire examples.

(** X10.  What [MaybeSplitOffFrame] returns when it does split: the frame
    returned is the head, the receiver becomes the tail; the head keeps the
    offset and loses FIN, the tail starts where the head ends and keeps FIN,
    the data is cut in two, and both carry the PR fields. *)
Lemma PRStreamFrame_split_identity (f : PRStreamFrame) (b : Z)
    (head tail : PRStreamFrame) :
  PRStreamFrame_MaybeSplitOffFrame f b = Ok (Some head, true, tail) ->
  Offset head = Offset f /\
  Offset tail = add64 (Offset f) (PRStreamFrame_DataLen head) /\
  Data head ++ Data tail = Data f /\
  Fin tail = Fin f /\ Fin head = false /\
  wire.PTDA head = wire.PTDA f /\ wire.PTDA tail = wire.PTDA f /\
  ptdaC head = ptdaC f /\ ptdaC tail = ptdaC f.
Proof.
  unfold PRStreamFrame_MaybeSplitOffFrame. intros H.
  apply bind_Ok_inv in H. destruct H as (length & _ & H).
  destruct (b >=? length); [discriminate |].
  apply bind_Ok_inv in H. destruct H as (n & _ & H).
  destruct (n =? 0); [discriminate |].
  destruct ((sub64 (len (Data f)) n <? 0)
            || (sub64 (len (Data f)) n >? protocol.MaxPacketBufferSize));
    [discriminate |].
  destruct (n <? 0) eqn:En; [discriminate |].
  destruct (n >? len (Data f)) eqn:El; [discriminate |].
  simpl in H. apply Ok_inj in H.
  assert (Hh : head = mkPRStreamFrame (StreamID f) (Offset f) (take n (Data f)) false
                        (DataLenPresent f) (wire.PTDA f) (P f) (T f) (D f) (A f)
                        (ptdaC f) (fromPool f)) by congruence.
  assert (Ht : tail = mkPRStreamFrame (StreamID f) (add64 (Offset f) n)
                        (drop n (Data f)) (Fin f) (DataLenPresent f) (wire.PTDA f)
                        (P f) (T f) (D f) (A f) (ptdaC f) true) by congruence.
  subst head tail. unfold PRStreamFrame_DataLen. cbn [Offset Data Fin wire.PTDA ptdaC].
  rewrite len_take by lia.
  repeat split; try reflexivity. apply take_drop.
Qed.

(** C7.  The split identity fails for PR_STREAM frames: [MaybeSplitOffFrame]
    cuts at [MaxDataLen], which can be more than the frame has.  The frame
    [five_bytes] is 9 bytes long with a header of 4; for the budget 8 the cut
    is at 8 of 5 data bytes and re-slicing panics. *)
Theorem PRStreamFrame_MaybeSplitOffFrame_out_of_range :
  PRStreamFrame_Length five_bytes = Ok 9 /\
  PRStreamFrame_Length (with_data five_bytes []) = Ok 4 /\
  PRStreamFrame_MaxDataLen five_bytes 8 = Ok 8 /\
  PRStreamFrame_MaybeSplitOffFrame five_bytes 8 = Panic SliceBounds.
Proof. repeat split; reflexivity. Qed.

Lemma enc_ok (i : Z) :
  0 <= i <= quicvarint.maxVarInt8 -> exists e, quicvarint.enc i = Ok e.
Proof.
  intros H. unfold quicvarint.enc.
  destruct (i <=? quicvarint.maxVarInt1); [eexists; reflexivity |].
  destruct (i <=? quicvarint.maxVarInt2); [eexists; reflexivity |].
  destruct (i <=? quicvarint.maxVarInt4); [eexists; reflexivity |].
  destruct (i <=? quicvarint.maxVarInt8) eqn:E; [eexists; reflexivity |].
  apply Z.leb_gt in E. lia.
Qed.

Lemma stream_type_byte_range (fin dlp off : bool) :
  0x58 <= stream_type_byte 0x58 fin dlp off <= 0x5f.
Proof. destruct fin, dlp, off; vm_compute; split; discriminate. Qed.

Lemma uint64_varint (i : Z) : 0 <= i <= quicvarint.maxVarInt8 -> uint64 i = i.
Proof.
  intros H. apply uint64_small. unfold quicvarint.maxVarInt8 in H. lia.
Qed.

(** The [Append] of the first PR_ACK_NOTIFY file writes the type byte [0x58]
    with the FIN, LEN and OFF bits toggled in -- a byte in [0x58 .. 0x5f] --
    and then the stream id, the PTDA byte, [PtdaC] as a varint, the offset
    when it is not zero, and [PRDataLen] as a varint. *)
Lemma PRAckNotifyFrame_Append_layout (f : PRAckNotifyFrame) (b : list byte) :
  0 <= an_StreamID f <= quicvarint.maxVarInt8 ->
  0 <= an_PtdaC f <= quicvarint.maxVarInt8 ->
  0 <= an_Offset f <= quicvarint.maxVarInt8 ->
  0 <= an_PRDataLen f <= quicvarint.maxVarInt8 ->
  exists t sid c off dl,
    t = stream_type_byte 0x58 (an_Fin f) (an_DataLenPresent f)
          (negb (an_Offset f =? 0)) /\
    0x58 <= t <= 0x5f /\
    quicvarint.enc (an_StreamID f) = Ok sid /\
    quicvarint.enc (an_PtdaC f) = Ok c /\
    (if an_Offset f =? 0 then off = [] else quicvarint.enc (an_Offset f) = Ok off) /\
    quicvarint.enc (an_PRDataLen f) = Ok dl /\
    PRAckNotifyFrame_Append f b
    = Ok (b ++ [t] ++ sid ++ [an_PTDA f] ++ c ++ off ++ dl).
Proof.
  intros Hs Hc Ho Hd.
  destruct (enc_ok _ Hs) as (sid & Es).
  destruct (enc_ok _ Hc) as (c & Ec).
  destruct (enc_ok _ Hd) as (dl & Ed).
  unfold PRAckNotifyFrame_Append, quicvarint.Append.
  rewrite (uint64_varint _ Hs), (uint64_varint _ Ho), Es.
  cbn [bind]. rewrite Ec. cbn [bind].
  destruct (an_Offset f =? 0) eqn:E0; cbn [negb bind].
  - exists (stream_type_byte 0x58 (an_Fin f) (an_DataLenPresent f) false), sid, c, [], dl.
    rewrite Ed. cbn [bind].
    repeat split; try assumption; try apply stream_type_byte_range.
    apply f_equal. repeat rewrite <- app_assoc. reflexivity.
  - destruct (enc_ok _ Ho) as (off & Eo).
    exists (stream_type_byte 0x58 (an_Fin f) (an_DataLenPresent f) true), sid, c, off, dl.
    rewrite Eo. cbn [bind]. rewrite Ed. cbn [bind].
    repeat split; try assumption; try apply stream_type_byte_range.
    apply f_equal. repeat rewrite <- app_assoc. reflexivity.
Qed.

Lemma stream_type_byte_range_0x8 (fin dlp off : bool) :
  0x08 <= stream_type_byte 0x8 fin dlp off <= 0x0f.
Proof. destruct fin, dlp, off; vm_compute; split; discriminate. Qed.

(** C9, against the code.  Neither [Append] of a PR_ACK_NOTIFY frame writes
    the type byte [0x50].  The [Append] of the first file writes [0x58] with
    the FIN, LEN and OFF bits toggled in, a byte in [0x58 .. 0x5f], and then
    the fields in the order of the claim: stream id, PTDA, [PtdaC] as a
    varint, the offset when it is not zero, [PRDataLen] as a varint.  The
    [Append] of the second file writes the type byte of a STREAM frame, a
    byte in [0x08 .. 0x0f], and then the fields in another order: stream id,
    the offset when it is not zero, the length when [DataLenPresent], PTDA,
    and one byte of [ptdaC]. *)
Theorem PRAckNotifyFrame_Append_never_0x50 (f : PRAckNotifyFrame) (b : list byte) :
  0 <= an_StreamID f <= quicvarint.maxVarInt8 ->
  0 <= an_PtdaC f <= quicvarint.maxVarInt8 ->
  0 <= an_Offset f <= quicvarint.maxVarInt8 ->
  0 <= an_PRDataLen f <= quicvarint.maxVarInt8 ->
  exists t t2 sid c off dl,
    t = stream_type_byte 0x58 (an_Fin f) (an_DataLenPresent f)
          (negb (an_Offset f =? 0)) /\
    t2 = stream_type_byte 0x8 (an_Fin f) (an_DataLenPresent f)
           (negb (an_Offset f =? 0)) /\
    0x58 <= t <= 0x5f /\ 0x08 <= t2 <= 0x0f /\
    quicvarint.enc (an_StreamID f) = Ok sid /\
    quicvarint.enc (an_PtdaC f) = Ok c /\
    (if an_Offset f =? 0 then off = [] else quicvarint.enc (an_Offset f) = Ok off) /\
    quicvarint.enc (an_PRDataLen f) = Ok dl /\
    PRAckNotifyFrame_Append f b
    = Ok (b ++ [t] ++ sid ++ [an_PTDA f] ++ c ++ off ++ dl) /\
    PRAckNotifyFrame_Append_second f b
    = Ok (b ++ [t2] ++ sid ++ off ++ (if an_DataLenPresent f then dl else [])
            ++ [an_PTDA f] ++ [to_byte (an_PtdaC f)]).
Proof.
  intros Hs Hc Ho Hd.
  destruct (PRAckNotifyFrame_Append_layout f b Hs Hc Ho Hd)
    as (t & sid & c & off & dl & Et & Ht & Es & Ec & Eo & Ed & E1).
  exists t, (stream_type_byte 0x8 (an_Fin f) (an_DataLenPresent f)
               (negb (an_Offset f =? 0))), sid, c, off, dl.
  split; [exact Et |]. split; [reflexivity |]. split; [exact Ht |].
  split; [apply stream_type_byte_range_0x8 |].
  split; [exact Es |]. split; [exact Ec |]. split; [exact Eo |].
  split; [exact Ed |]. split; [exact E1 |].
  assert (El : uint64 (PRAckNotifyFrame_DataLen f) = an_PRDataLen f).
  { unfold PRAckNotifyFrame_DataLen. unfold quicvarint.maxVarInt8 in Hd.
    rewrite int64_small by lia. apply uint64_small. lia. }
  unfold PRAckNotifyFrame_Append_second, quicvarint.Append.
  rewrite (uint64_varint _ Hs), (uint64_varint _ Ho), El, Es.
  cbn [bind].
  destruct (an_Offset f =? 0); cbn [negb bind].
  - subst off.
    destruct (an_DataLenPresent f); [rewrite Ed |]; cbn [bind];
      apply f_equal; repeat rewrite <- app_assoc; reflexivity.
  - rewrite Eo. cbn [bind].
    destruct (an_DataLenPresent f); [rewrite Ed |]; cbn [bind];
      apply f_equal; repeat rewrite <- app_assoc; reflexivity.
Qed.

End Layout.

Section LayoutExamples.

Import wire examples.

Lemma PRAckNotifyFrame_Append_never_0x50_witness :
  exists t t2 sid c off dl,
    t = stream_type_byte 0x58 false true false /\
    t2 = stream_type_byte 0x8 false true false /\
    0x58 <= t <= 0x5f /\ 0x08 <= t2 <= 0x0f /\
    quicvarint.enc 1 = Ok sid /\
    quicvarint.enc 10000 = Ok c /\
    off = [] /\
    quicvarint.enc 5 = Ok dl /\
    PRAckNotifyFrame_Append sample_notify []
    = Ok ([] ++ [t] ++ sid ++ [0x80] ++ c ++ off ++ dl) /\
    PRAckNotifyFrame_Append_second sample_notify []
    = Ok ([] ++ [t2] ++ sid ++ off ++ dl ++ [0x80] ++ [to_byte 10000]).
Proof.
  apply (PRAckNotifyFrame_Append_never_0x50 sample_notify []);
    vm_compute; split; discriminate.
Defined.

(** The encoding of [sample_notify] begins with [0x5a], not with [0x50]. *)
Lemma PRAckNotifyFrame_type_byte_not_0x50 :
  PRAckNotifyFrame_Append sample_notify [] = Ok [0x5a; 1; 0x80; 0x67; 0x10; 5] /\
  ~ (exists rest, PRAckNotifyFrame_Append sample_notify [] = Ok (0x50 :: rest)).
Proof.
  split; [reflexivity |].
  intros [rest H]. vm_compute in H. discriminate.
Qed.

(** The second [Append] of the repository puts the offset and the length
    before the PR fields, under a STREAM type byte. *)
Example PRAckNotifyFrame_Append_second_layout :
  PRAckNotifyFrame_Append_second sample_notify [] = Ok [0x0a; 1; 5; 0x80; 0x10].
Proof. reflexivity. Qed.

End LayoutExamples.

(** ** The send stream *)

Section SendStream.

Import wire flowcontrol quic examples.

(** *** Errors of Write *)

(** C5, as the code has it.  At the entry of [Write] the sticky conditions
    are looked at in the order: closed by the producer, canceled, closed for
    shutdown, deadline passed; the first that holds gives the error. *)
Theorem Write_entry_precedence (s : sendStream) (p : list byte) (now now' : Z) :
  (finishedWriting s = true ->
   Write s p now now'
   = (s, [], Returned 0 (Some (ErrWriteOnClosedStream (streamID s))))) /\
  (finishedWriting s = false -> canceledWrite s = true ->
   Write s p now now' = (s, [], Returned 0 (cancelWriteErr s))) /\
  (finishedWriting s = false -> canceledWrite s = false ->
   forall e, closeForShutdownErr s = Some e ->
   Write s p now now' = (s, [], Returned 0 (Some e))) /\
  (finishedWriting s = false -> canceledWrite s = false ->
   closeForShutdownErr s = None -> deadline_passed s now = true ->
   Write s p now now' = (s, [], Returned 0 (Some ErrDeadline))).
Proof.
  unfold Write, Write_entry.
  repeat split.
  - intros ->. reflexivity.
  - intros -> ->. reflexivity.
  - intros -> -> e ->. reflexivity.
  - intros -> -> -> ->. reflexivity.
Qed.

Lemma Write_entry_precedence_witness :
  Write closed_and_shutdown [1] 0 0
  = (closed_and_shutdown, [], Returned 0 (Some (ErrWriteOnClosedStream 4))) /\
  Write canceled [1] 0 0 = (canceled, [], Returned 0 (Some (ErrWriteCanceled 4 7))) /\
  Write shut_down [1] 0 0 = (shut_down, [], Returned 0 (Some (ErrOther 1))) /\
  Write past_deadline [1] 10 10 = (past_deadline, [], Returned 0 (Some ErrDeadline)).
Proof.
  destruct (Write_entry_precedence closed_and_shutdown [1] 0 0) as (H1 & _).
  destruct (Write_entry_precedence canceled [1] 0 0) as (_ & H2 & _).
  destruct (Write_entry_precedence shut_down [1] 0 0) as (_ & _ & H3 & _).
  destruct (Write_entry_precedence past_deadline [1] 10 10) as (_ & _ & _ & H4).
  split; [apply H1; reflexivity |].
  split; [apply H2; reflexivity |].
  split; [apply (H3 eq_refl eq_refl (ErrOther 1)); reflexivity |].
  apply H4; reflexivity.
Defined.

(** A stream that was closed by the producer and then shut down is reached by
    [Close] followed by [closeForShutdown]; a [Write] on it fails with the
    write-on-closed-stream error, not with the shutdown error. *)
Lemma Write_closed_before_shutdown :
  run pr_policy fresh [OpClose; OpCloseForShutdown (Some (ErrOther 1))]
  = Ok (closed_and_shutdown,
        [ctxCancel; onHasStreamData 4; ctxCancel; signalWrite]) /\
  closedForShutdown closed_and_shutdown = true /\
  closeForShutdownErr closed_and_shutdown = Some (ErrOther 1) /\
  finishedWriting closed_and_shutdown = true /\
  Write closed_and_shutdown [1] 0 0
  = (closed_and_shutdown, [], Returned 0 (Some (ErrWriteOnClosedStream 4))) /\
  Write closed_and_shutdown [1] 0 0
  <> (closed_and_shutdown, [], Returned 0 (closeForShutdownErr closed_and_shutdown)).
Proof.
  repeat split; try reflexivity.
  vm_compute. discriminate.
Qed.

(** *** The loss hook of PR_STREAM frames *)

(** C1.  The loss hook decides on [PtdaC] alone: it skips retransmission only
    for a frame whose parameter is [0x80] (and then when the draw is below
    128), whatever the policy byte.  The lost frame of scenario 5, policy P
    with parameter 10000, is retransmitted for the draw 0 although
    [10000 > 0]: no PR_ACK_NOTIFY is queued. *)
Theorem prQueueRetransmission_switches_on_PtdaC :
  (forall frame rnd,
      pr_retran_enabled frame rnd = (ptdaC frame =? 0x80) && (0x80 >? rnd)) /\
  run cfg10000 fresh [OpWrite xxxxx 0 0] = Ok (written, [onHasStreamData 4]) /\
  popStreamFrame cfg10000 written 1200
  = Ok (Some (AHPRStream lost_frame), false, one_in_flight, [signalWrite]) /\
  wire.PTDA lost_frame = 0x80 /\ ptdaC lost_frame = 10000 /\
  prQueueRetransmission one_in_flight lost_frame 0
  = Ok (set_numOutstandingFrames 0
          (set_retransmissionQueue [mkStreamFrame 4 0 xxxxx false true false]
             one_in_flight),
        [onHasStreamData 4]) /\
  (forall rnd, exists s',
      prQueueRetransmission one_in_flight lost_frame rnd = Ok (s', [onHasStreamData 4])
      /\ prAckNotifyRetransmissionQueue s' = []
      /\ len (retransmissionQueue s') = 1).
Proof.
  split; [| repeat (split; [reflexivity |])].
  - intros frame rnd. unfold pr_retran_enabled.
    destruct (ptdaC frame =? 0x80) eqn:E; [| reflexivity].
    apply Z.eqb_eq in E. rewrite E. reflexivity.
  - intros rnd. eexists. split; [reflexivity | split; reflexivity].
Qed.

(** The skip path as it runs under [cfg128], for a draw below 128. *)
Example prQueueRetransmission_skip :
  prQueueRetransmission last_in_flight frameX 127
  = Ok (set_numOutstandingFrames 0
          (set_prAckNotifyRetransmissionQueue [notifyX] last_in_flight),
        [onHasStreamData 4]) /\
  prQueueRetransmission last_in_flight frameX 128
  = Ok (set_numOutstandingFrames 0
          (set_retransmissionQueue [mkStreamFrame 4 0 xxxxx false true false]
             last_in_flight),
        [onHasStreamData 4]).
Proof. split; reflexivity. Qed.

(** *** Retransmissions first *)

(** A frame that needs no split comes back unchanged. *)
Lemma StreamFrame_MaybeSplitOffFrame_no_split (f f' : StreamFrame) (b : Z)
    (nf : option StreamFrame) :
  StreamFrame_MaybeSplitOffFrame f b = Ok (nf, false, f') -> nf = None /\ f' = f.
Proof.
  unfold StreamFrame_MaybeSplitOffFrame. intros H.
  apply bind_Ok_inv in H. destruct H as (length & _ & H).
  destruct (b >=? length).
  - apply Ok_inj in H. split; congruence.
  - apply bind_Ok_inv in H. destruct H as (n & _ & H).
    destruct (n =? 0); [discriminate |].
    destruct ((sub64 (StreamFrame_DataLen f) n <? 0)
              || (sub64 (StreamFrame_DataLen f) n >? protocol.MaxPacketBufferSize));
      [discriminate |].
    destruct ((n <? 0) || (n >? StreamFrame_DataLen f)); discriminate.
Qed.

(** C8, as the code has it.  On a stream that is neither canceled nor shut
    down and has the frame [f] at the head of its retransmission queue,
    [popStreamFrame] looks at no new data and emits nothing: it splits [f]
    against the budget (less the PR overhead of 9 bytes when PR is enabled).
    When a split is required the head slice -- or no frame, if not even one
    byte fits -- is returned and the tail stays at the front of the queue;
    otherwise [f] is popped.  In all these cases the flag returned is
    [true], whether or not the queue is empty afterwards. *)
Theorem popStreamFrame_retransmission_first
    (cfg : PRConfig) (s : sendStream) (b : Z) (f : StreamFrame)
    (rest : list StreamFrame) :
  canceledWrite s = false ->
  closeForShutdownErr s = None ->
  retransmissionQueue s = f :: rest ->
  popStreamFrame cfg s b =
    ('(newFrame, needsSplit, f') <-
        StreamFrame_MaybeSplitOffFrame f
          (if PR_ENABLED cfg then sub64 b (1 + 8) else b) ;;
     if needsSplit then
       match newFrame with
       | Some head =>
         Ok (Some (handed_out cfg head), true,
             one_more_outstanding (set_retransmissionQueue (f' :: rest) s), [])
       | None => Ok (None, true, set_retransmissionQueue (f' :: rest) s, [])
       end
     else
       Ok (Some (handed_out cfg f), true,
           one_more_outstanding (set_retransmissionQueue rest s), [])).
Proof.
  intros Hc Hs Hq.
  unfold popStreamFrame, popNewOrRetransmittedStreamFrame, maybeGetRetransmission.
  rewrite Hc, Hs, Hq. cbn [isSome orb].
  replace (len (f :: rest) >? 0) with true
    by (symmetry; apply Z.gtb_lt; unfold len; simpl length; lia).
  destruct (StreamFrame_MaybeSplitOffFrame f (if PR_ENABLED cfg then sub64 b (1 + 8) else b))
    as [[[newFrame needsSplit] f'] | e | p] eqn:E; cbn [bind]; try reflexivity.
  destruct needsSplit.
  - cbn [bind]. rewrite orb_true_r.
    destruct newFrame as [head |]; cbn [bind]; [| reflexivity].
    unfold handed_out, one_more_outstanding. destruct (PR_ENABLED cfg); reflexivity.
  - destruct (StreamFrame_MaybeSplitOffFrame_no_split _ _ _ _ E) as [-> ->].
    cbn [bind isSome orb].
    unfold handed_out, one_more_outstanding. destruct (PR_ENABLED cfg); reflexivity.
Qed.

Lemma popStreamFrame_retransmission_first_witness :
  popStreamFrame pr_policy one_queued 1200
  = Ok (Some (handed_out pr_policy frameA), true,
        one_more_outstanding (set_retransmissionQueue [] one_queued), []).
Proof.
  rewrite (popStreamFrame_retransmission_first pr_policy one_queued 1200 frameA []);
    reflexivity.
Defined.

(** With one frame in the queue that fits the budget, the frame is popped,
    the queue is empty afterwards, and the flag returned is [true]. *)
Lemma popStreamFrame_has_more_with_empty_queue :
  match popStreamFrame pr_policy one_queued 1200 with
  | Ok (Some _, hasMore, s', _) =>
    hasMore = true /\ retransmissionQueue s' = [] /\
    hasMore <> (len (retransmissionQueue s') >? 0)
  | _ => False
  end.
Proof. vm_compute. repeat split; discriminate. Qed.

(** *** Completion *)

Ltac split_if H :=
  match type of H with
  | context [if ?c then _ else _] => destruct c eqn:?
  end.

Lemma quiet_refl (s : sendStream) : quiet s s [].
Proof. split; reflexivity. Qed.

Lemma getDataForWriting_quiet (s s' : sendStream) (f f' : StreamFrame) (m : Z)
    (evs : list event) :
  getDataForWriting s f m = Ok (f', s', evs) -> quiet s s' evs.
Proof.
  unfold getDataForWriting. intros H.
  repeat split_if H; try discriminate; apply Ok_inj in H;
    injection H as _ <- <-; split; reflexivity.
Qed.

Lemma popNewStreamFrameWithoutBuffer_quiet (s s' : sendStream) (f f' : StreamFrame)
    (m w : Z) (more : bool) (evs : list event) :
  popNewStreamFrameWithoutBuffer s f m w = Ok (more, f', s', evs) -> quiet s s' evs.
Proof.
  unfold popNewStreamFrameWithoutBuffer. intros H.
  apply bind_Ok_inv in H. destruct H as (maxDataLen & _ & H).
  destruct (maxDataLen =? 0).
  - apply Ok_inj in H. injection H as _ _ <- <-. apply quiet_refl.
  - apply bind_Ok_inv in H. destruct H as ([[f1 s1] e1] & Hg & H).
    apply Ok_inj in H. injection H as _ _ <- <-.
    exact (getDataForWriting_quiet _ _ _ _ _ _ Hg).
Qed.

Lemma popNewStreamFrame_quiet (s s' : sendStream) (m w : Z)
    (f : option StreamFrame) (more : bool) (evs : list event) :
  popNewStreamFrame s m w = Ok (f, more, s', evs) -> quiet s s' evs.
Proof.
  unfold popNewStreamFrame. intros H.
  destruct (nextFrame s) as [nf |].
  - apply bind_Ok_inv in H. destruct H as (mdl & _ & H).
    repeat split_if H; try discriminate; apply Ok_inj in H;
      injection H as _ _ <- <-; split; reflexivity.
  - apply bind_Ok_inv in H. destruct H as ([[[more1 f1] s1] e1] & Hp & H).
    apply popNewStreamFrameWithoutBuffer_quiet in Hp.
    split_if H; apply Ok_inj in H; injection H as _ _ <- <-; exact Hp.
Qed.

Lemma maybeGetRetransmission_completed (s s' : sendStream) (m : Z)
    (f : option StreamFrame) (more : bool) :
  maybeGetRetransmission s m = Ok (f, more, s') -> completed s' = completed s.
Proof.
  unfold maybeGetRetransmission. intros H.
  destruct (retransmissionQueue s) as [| f0 rest]; [discriminate |].
  apply bind_Ok_inv in H. destruct H as ([[nf ns] f1] & _ & H).
  destruct ns; apply Ok_inj in H; injection H as _ _ <-; reflexivity.
Qed.

Lemma popNewData_quiet (s s' : sendStream) (m : Z)
    (f : option StreamFrame) (more : bool) (evs : list event) :
  popNewData s m = Ok (f, more, s', evs) -> quiet s s' evs.
Proof.
  unfold popNewData. intros H.
  destruct ((dataForWriting_len s =? 0) && negb (isSome (nextFrame s))).
  - split_if H; apply Ok_inj in H; injection H as _ _ <- <-; split; reflexivity.
  - destruct (SendWindowSize (flowController s) =? 0).
    + destruct (IsNewlyBlocked (flowController s)) as [[isBlocked offset] fc].
      destruct isBlocked; apply Ok_inj in H; injection H as _ _ <- <-;
        split; reflexivity.
    + apply bind_Ok_inv in H. destruct H as ([[[f1 more1] s1] e1] & Hp & H).
      apply popNewStreamFrame_quiet in Hp. destruct Hp as [Hc He].
      destruct f1 as [f1 |]; [| discriminate].
      apply Ok_inj in H. injection H as _ _ <- <-.
      split; [| exact He].
      rewrite <- Hc.
      destruct (StreamFrame_DataLen f1 >? 0);
        match goal with
        | |- completed (if ?c then _ else _) = _ => destruct c; reflexivity
        end.
Qed.

Lemma popNewOrRetransmittedStreamFrame_quiet (s s' : sendStream) (m : Z)
    (f : option StreamFrame) (more : bool) (evs : list event) :
  popNewOrRetransmittedStreamFrame s m = Ok (f, more, s', evs) -> quiet s s' evs.
Proof.
  unfold popNewOrRetransmittedStreamFrame. intros H.
  destruct (canceledWrite s || isSome (closeForShutdownErr s)).
  - apply Ok_inj in H. injection H as _ _ <- <-. apply quiet_refl.
  - destruct (len (retransmissionQueue s) >? 0).
    + apply bind_Ok_inv in H. destruct H as ([[f1 more1] s1] & Hm & H).
      apply maybeGetRetransmission_completed in Hm.
      destruct (isSome f1 || more1).
      * destruct f1; apply Ok_inj in H; injection H as _ _ <- <-;
          split; [exact Hm | reflexivity | exact Hm | reflexivity].
      * apply popNewData_quiet in H. destruct H as [Hc He].
        split; [congruence | exact He].
    + exact (popNewData_quiet _ _ _ _ _ _ H).
Qed.

Lemma popStreamFrame_quiet (cfg : PRConfig) (s s' : sendStream) (m : Z)
    (f : option ackhandler_Frame) (more : bool) (evs : list event) :
  popStreamFrame cfg s m = Ok (f, more, s', evs) -> quiet s s' evs.
Proof.
  unfold popStreamFrame. intros H.
  apply bind_Ok_inv in H. destruct H as ([[[f1 more1] s1] e1] & Hp & H).
  apply popNewOrRetransmittedStreamFrame_quiet in Hp. destruct Hp as [Hc He].
  destruct f1 as [f1 |].
  - destruct (PR_ENABLED cfg); apply Ok_inj in H; injection H as _ _ <- <-;
      split; assumption.
  - apply Ok_inj in H. injection H as _ _ <- <-. split; assumption.
Qed.

Lemma Write_loop_quiet (s s' : sendStream) (p : list byte) (now' : Z)
    (notified : bool) (evs : list event) (out : WriteOutcome) :
  Write_loop s p now' notified = (s', evs, out) -> quiet s s' evs.
Proof.
  unfold Write_loop. intros H.
  repeat split_if H; injection H as <- <- _; split; try reflexivity;
    destruct notified; reflexivity.
Qed.

Lemma Write_quiet (s s' : sendStream) (p : list byte) (now now' : Z)
    (evs : list event) (out : WriteOutcome) :
  Write s p now now' = (s', evs, out) -> quiet s s' evs.
Proof.
  unfold Write. intros H.
  destruct (Write_entry s now) as [[n err] |].
  - injection H as <- <- _. apply quiet_refl.
  - destruct (len p =? 0).
    + injection H as <- <- _. apply quiet_refl.
    + apply Write_loop_quiet in H. exact H.
Qed.

Lemma queueRetransmission_quiet (s s' : sendStream) (f : StreamFrame)
    (evs : list event) :
  queueRetransmission s f = Ok (s', evs) -> quiet s s' evs.
Proof.
  unfold queueRetransmission. intros H.
  repeat split_if H; try discriminate; apply Ok_inj in H; injection H as <- <-;
    split; reflexivity.
Qed.

Lemma prAckNotifyQueueRetransmission_quiet (s s' : sendStream)
    (f : PRAckNotifyFrame) (evs : list event) :
  prAckNotifyQueueRetransmission s f = Ok (s', evs) -> quiet s s' evs.
Proof.
  unfold prAckNotifyQueueRetransmission. intros H.
  repeat split_if H; try discriminate; apply Ok_inj in H; injection H as <- <-;
    split; reflexivity.
Qed.

Lemma prQueueRetransmission_quiet (s s' : sendStream) (f : PRStreamFrame) (rnd : Z)
    (evs : list event) :
  prQueueRetransmission s f rnd = Ok (s', evs) -> quiet s s' evs.
Proof.
  unfold prQueueRetransmission. intros H.
  destruct (negb (pr_retran_enabled f rnd)).
  - exact (queueRetransmission_quiet _ _ _ _ H).
  - exact (prAckNotifyQueueRetransmission_quiet _ _ _ _ H).
Qed.

Lemma quiet_completes_at_most_once (s s' : sendStream) (evs : list event) :
  quiet s s' evs -> completes_at_most_once s s' evs.
Proof.
  intros [Hc He]. unfold completes_at_most_once. rewrite Hc.
  destruct (completed s); [split; [reflexivity | exact He] | exact He].
Qed.

(** [isNewlyCompleted] reports a completion exactly when it sets the flag,
    which it does only from [false] and under the completion predicate. *)
Lemma isNewlyCompleted_spec (s s' : sendStream) (newly : bool) :
  isNewlyCompleted s = (newly, s') ->
  completes_at_most_once s s'
    (if newly then [onStreamCompleted (streamID s')] else []).
Proof.
  unfold isNewlyCompleted, completes_at_most_once, completion_predicate.
  destruct (completed s) eqn:Ec.
  - rewrite andb_false_r. intros H. injection H as <- <-.
    split; [exact Ec | reflexivity].
  - rewrite andb_true_r.
    destruct ((finSent s || canceledWrite s) && (numOutstandingFrames s =? 0)
              && (len (retransmissionQueue s) =? 0)) eqn:Ep;
      intros H; injection H as <- <-.
    + cbn [completed set_completed finSent canceledWrite numOutstandingFrames
           retransmissionQueue streamID filter is_completed_event].
      apply andb_true_iff in Ep. destruct Ep as [Ep Hq].
      apply andb_true_iff in Ep. destruct Ep as [Hf Hn].
      apply Z.eqb_eq in Hn. apply Z.eqb_eq in Hq.
      repeat split; try assumption.
      destruct (retransmissionQueue s); [reflexivity |].
      unfold len in Hq. simpl in Hq. lia.
    + rewrite Ec. reflexivity.
Qed.

Lemma completes_set_outstanding (s0 s s' : sendStream) (evs : list event) :
  completed s0 = completed s ->
  completes_at_most_once s s' evs -> completes_at_most_once s0 s' evs.
Proof.
  unfold completes_at_most_once. intros ->. exact (fun H => H).
Qed.

Lemma frameAcked_completes (s s' : sendStream) (evs : list event) :
  frameAcked s = Ok (s', evs) -> completes_at_most_once s s' evs.
Proof.
  unfold frameAcked. intros H.
  destruct (canceledWrite s).
  - apply Ok_inj in H. injection H as <- <-.
    apply quiet_completes_at_most_once, quiet_refl.
  - split_if H; [discriminate |].
    destruct (isNewlyCompleted
                (set_numOutstandingFrames (sub64 (numOutstandingFrames s) 1) s))
      as [newly s1] eqn:En.
    apply Ok_inj in H. injection H as <- <-.
    apply isNewlyCompleted_spec in En.
    exact (completes_set_outstanding s _ _ _ eq_refl En).
Qed.

Lemma prStreamframeAcked_completes (s s' : sendStream) (evs : list event) :
  prStreamframeAcked s = Ok (s', evs) -> completes_at_most_once s s' evs.
Proof. exact (frameAcked_completes s s' evs). Qed.

Lemma cancelWriteImpl_completes (s s' : sendStream) (code : Z) (e : error)
    (evs : list event) :
  cancelWriteImpl s code e = (s', evs) -> completes_at_most_once s s' evs.
Proof.
  unfold cancelWriteImpl. intros H.
  destruct (canceledWrite s).
  - injection H as <- <-. apply quiet_completes_at_most_once, quiet_refl.
  - destruct (isNewlyCompleted
                (set_retransmissionQueue []
                   (set_numOutstandingFrames 0 (set_canceled e s))))
      as [newly s1] eqn:En.
    injection H as <- <-.
    apply isNewlyCompleted_spec in En.
    apply (completes_set_outstanding s) in En; [| reflexivity].
    unfold completes_at_most_once in *. cbn [app filter is_completed_event].
    exact En.
Qed.

Lemma step_completes (cfg : PRConfig) (s s' : sendStream) (o : op)
    (evs : list event) :
  step cfg s o = Ok (s', evs) -> completes_at_most_once s s' evs.
Proof.
  destruct o as [p now now' | p now' | m | f | f rnd | | c | c | e | l | t];
    simpl; intros H.
  - destruct (Write s p now now') as [[s1 e1] out] eqn:E.
    apply Ok_inj in H. injection H as <- <-.
    exact (quiet_completes_at_most_once _ _ _ (Write_quiet _ _ _ _ _ _ _ E)).
  - destruct (Write_loop s p now' true) as [[s1 e1] out] eqn:E.
    apply Ok_inj in H. injection H as <- <-.
    exact (quiet_completes_at_most_once _ _ _ (Write_loop_quiet _ _ _ _ _ _ _ E)).
  - apply bind_Ok_inv in H. destruct H as ([[[f1 more1] s1] e1] & Hp & H).
    apply Ok_inj in H. injection H as <- <-.
    exact (quiet_completes_at_most_once _ _ _ (popStreamFrame_quiet _ _ _ _ _ _ _ Hp)).
  - destruct f; [exact (frameAcked_completes _ _ _ H)
                | exact (prStreamframeAcked_completes _ _ _ H)].
  - destruct f.
    + exact (quiet_completes_at_most_once _ _ _ (queueRetransmission_quiet _ _ _ _ H)).
    + exact (quiet_completes_at_most_once _ _ _
               (prQueueRetransmission_quiet _ _ _ _ _ H)).
  - unfold Close in H. repeat split_if H; apply Ok_inj in H; injection H as <- <-;
      apply quiet_completes_at_most_once; split; reflexivity.
  - apply Ok_inj in H. exact (cancelWriteImpl_completes _ _ _ _ _ H).
  - apply Ok_inj in H. exact (cancelWriteImpl_completes _ _ _ _ _ H).
  - apply Ok_inj in H. injection H as <- <-.
    apply quiet_completes_at_most_once; split; reflexivity.
  - apply Ok_inj in H. injection H as <- <-.
    apply quiet_completes_at_most_once; split; [reflexivity |].
    destruct (isSome (dataForWriting s) || isSome (nextFrame s)); reflexivity.
  - apply Ok_inj in H. injection H as <- <-.
    apply quiet_completes_at_most_once; split; reflexivity.
Qed.

Lemma completes_count (s s' : sendStream) (evs : list event) :
  completes_at_most_once s s' evs ->
  (completions evs + (if completed s then 1 else 0)
   = if completed s' then 1 else 0)%nat.
Proof.
  unfold completes_at_most_once, completions.
  destruct (completed s).
  - intros [-> ->]. reflexivity.
  - destruct (completed s').
    + intros (_ & _ & _ & ->). reflexivity.
    + intros ->. reflexivity.
Qed.

Lemma completions_app (e1 e2 : list event) :
  completions (e1 ++ e2) = (completions e1 + completions e2)%nat.
Proof. unfold completions. rewrite filter_app, length_app. reflexivity. Qed.

Lemma run_completions (cfg : PRConfig) (ops : list op) :
  forall (s0 s : sendStream) (evs : list event),
    run cfg s0 ops = Ok (s, evs) ->
    (completions evs + (if completed s0 then 1 else 0)
     = if completed s then 1 else 0)%nat.
Proof.
  induction ops as [| o ops IH]; intros s0 s evs H; simpl in H.
  - apply Ok_inj in H. injection H as <- <-. reflexivity.
  - apply bind_Ok_inv in H. destruct H as ([s1 e1] & Hs & H).
    apply bind_Ok_inv in H. destruct H as ([s2 e2] & Hr & H).
    apply Ok_inj in H. injection H as <- <-.
    apply step_completes, completes_count in Hs.
    apply IH in Hr. rewrite completions_app. lia.
Qed.

(** C6.  In every state [s] reached from a new stream, [onStreamCompleted]
    has been called once if [completed] is set and never otherwise; and every
    operation that returns from [s] either leaves the flag and makes no such
    call, or -- only if the flag was not set -- sets it in a state where
    [finSent] or [canceledWrite] holds, no frame is outstanding and the
    retransmission queue is empty, and makes the call exactly once.  So the
    call is made at most once over the whole run. *)
Theorem completed_at_most_once
    (cfg : PRConfig) (sid : Z) (fc : StreamFlowController) (ops : list op)
    (s : sendStream) (evs : list event) (o : op) (s' : sendStream)
    (evs' : list event) :
  run cfg (newSendStream sid fc) ops = Ok (s, evs) ->
  step cfg s o = Ok (s', evs') ->
  completions evs = (if completed s then 1 else 0)%nat /\
  completes_at_most_once s s' evs' /\
  (completions (evs ++ evs') <= 1)%nat.
Proof.
  intros Hr Hs.
  pose proof (run_completions _ _ _ _ _ Hr) as Hc. cbn [completed newSendStream] in Hc.
  pose proof (step_completes _ _ _ _ _ Hs) as Ho.
  pose proof (completes_count _ _ _ Ho) as Hn.
  rewrite completions_app.
  split; [lia | split; [exact Ho |]].
  destruct (completed s), (completed s'); lia.
Qed.

Lemma completed_at_most_once_witness :
  completions scenario_events = 0%nat /\
  completes_at_most_once before_ack after_ack [onStreamCompleted 4] /\
  (completions (scenario_events ++ [onStreamCompleted 4]) <= 1)%nat.
Proof.
  apply (completed_at_most_once cfg128 4 (mkFC 0 1000 0) scenario before_ack
           scenario_events final_ack after_ack [onStreamCompleted 4]);
    reflexivity.
Defined.

(** *** The notification queue and completion *)

(** C10.  The queue of PR_ACK_NOTIFY frames plays no part in completion: the
    completion predicate does not depend on it; a stream is reported
    completed while a notification still waits in it; the skip path takes a
    frame off the outstanding count without setting [completed] or calling
    [onStreamCompleted], even when the predicate holds afterwards; and a
    cancel empties the retransmission queue but not this one. *)
Theorem pr_notify_queue_does_not_gate_completion :
  (forall s q,
      completion_predicate (set_prAckNotifyRetransmissionQueue q s)
      = completion_predicate s /\
      fst (isNewlyCompleted (set_prAckNotifyRetransmissionQueue q s))
      = fst (isNewlyCompleted s)) /\
  (run cfg128 fresh (scenario ++ [final_ack])
   = Ok (after_ack, scenario_events ++ [onStreamCompleted 4]) /\
   completed after_ack = true /\
   prAckNotifyRetransmissionQueue after_ack = [notifyX]) /\
  (forall s f s' evs,
      prAckNotifyQueueRetransmission s f = Ok (s', evs) ->
      quiet s s' evs /\
      (canceledWrite s = false ->
       numOutstandingFrames s' = sub64 (numOutstandingFrames s) 1 /\
       len (prAckNotifyRetransmissionQueue s')
       = len (prAckNotifyRetransmissionQueue s) + 1)) /\
  (exists s',
      step cfg128 last_in_flight (OpLost (AHPRStream frameX) 0)
      = Ok (s', [onHasStreamData 4]) /\
      completion_predicate s' = true /\ completed s' = false) /\
  (forall s code e,
      prAckNotifyRetransmissionQueue (fst (cancelWriteImpl s code e))
      = prAckNotifyRetransmissionQueue s /\
      (canceledWrite s = false ->
       retransmissionQueue (fst (cancelWriteImpl s code e)) = [])).
Proof.
  split; [| split; [| split; [| split]]].
  - intros s q. split; [reflexivity |].
    unfold isNewlyCompleted.
    change (completion_predicate (set_prAckNotifyRetransmissionQueue q s))
      with (completion_predicate s).
    change (completed (set_prAckNotifyRetransmissionQueue q s)) with (completed s).
    destruct (completion_predicate s && negb (completed s)); reflexivity.
  - repeat split; reflexivity.
  - intros s f s' evs H. split.
    + exact (prAckNotifyQueueRetransmission_quiet _ _ _ _ H).
    + intros Hc. unfold prAckNotifyQueueRetransmission in H. rewrite Hc in H.
      split_if H; [discriminate |].
      apply Ok_inj in H. injection H as <- _.
      cbn [numOutstandingFrames prAckNotifyRetransmissionQueue
           set_numOutstandingFrames set_prAckNotifyRetransmissionQueue].
      split; [reflexivity |]. rewrite len_app. reflexivity.
  - eexists. repeat split; reflexivity.
  - intros s code e. unfold cancelWriteImpl.
    destruct (canceledWrite s) eqn:Ec.
    + split; [reflexivity | discriminate].
    + unfold isNewlyCompleted.
      match goal with
      | |- context [if ?c then (true, _) else _] => destruct c
      end; split; reflexivity.
Qed.

Lemma pr_notify_queue_does_not_gate_completion_witness :
  quiet last_in_flight
    (set_numOutstandingFrames 0
       (set_prAckNotifyRetransmissionQueue [notifyX] last_in_flight))
    [onHasStreamData 4] /\
  retransmissionQueue (fst (cancelWriteImpl one_queued 7 (ErrWriteCanceled 4 7))) = [].
Proof.
  destruct pr_notify_queue_does_not_gate_completion as (_ & _ & H3 & _ & H5).
  split.
  - apply (H3 last_in_flight notifyX). reflexivity.
  - apply (H5 one_queued 7 (ErrWriteCanceled 4 7)). reflexivity.
Defined.

End SendStream.

(* ================================================================= *)
(** * Further properties of the frame codec *)

Section Varints.

Import invariants.

Lemma testbit_small (b n m : Z) : 0 <= b < 2 ^ n -> n <= m -> Z.testbit b m = false.
Proof.
  intros Hb Hm.
  destruct (Z.eq_dec b 0) as [-> | Hz]; [apply Z.bits_0 |].
  apply Z.bits_above_log2; [lia |].
  assert (Z.log2 b < n); [| lia].
  apply Z.log2_lt_pow2; lia.
Qed.

Lemma land_mul_pow2_small (a b n : Z) :
  0 <= n -> 0 <= b < 2 ^ n -> Z.land (a * 2 ^ n) b = 0.
Proof.
  intros Hn Hb.
  apply Z.bits_inj'. intros m Hm. rewrite Z.land_spec, Z.bits_0.
  destruct (Z.ltb_spec m n).
  - rewrite Z.mul_pow2_bits_low by lia. reflexivity.
  - rewrite (testbit_small b n m) by lia. apply andb_false_r.
Qed.

Lemma lor_mul_pow2_add (a b n : Z) :
  0 <= n -> 0 <= b < 2 ^ n -> Z.lor (a * 2 ^ n) b = a * 2 ^ n + b.
Proof.
  intros Hn Hb.
  pose proof (land_mul_pow2_small a b n Hn Hb) as H0.
  rewrite <- Z.lxor_lor by exact H0.
  symmetry. apply Z.add_nocarry_lxor. exact H0.
Qed.

Lemma to_byte_mod (x : Z) : to_byte x = x mod 256.
Proof. unfold to_byte. change 255 with (Z.ones 8). apply Z.land_ones. lia. Qed.

Lemma to_byte_is_byte (x : Z) : is_byte (to_byte x).
Proof. unfold is_byte. rewrite to_byte_mod. apply Z.mod_pos_bound. lia. Qed.

(** One step of [read_more] on the bytes of [i]: the accumulator holds the
    bits of [i] above [k + 8] and takes in the byte at [k]. *)
Lemma read_step (i k : Z) :
  0 <= i -> 0 <= k ->
  Z.lor (Z.shiftl (Z.shiftr i (k + 8)) 8) (to_byte (Z.shiftr i k)) = Z.shiftr i k.
Proof.
  intros Hi Hk.
  rewrite to_byte_mod, Z.shiftl_mul_pow2 by lia.
  rewrite lor_mul_pow2_add by (try lia; apply Z.mod_pos_bound; lia).
  rewrite !Z.shiftr_div_pow2 by lia.
  rewrite Z.pow_add_r by lia.
  rewrite <- Z.div_div by lia.
  change (2 ^ 8) with 256.
  pose proof (Z.div_mod (i / 2 ^ k) 256 ltac:(lia)). lia.
Qed.

Lemma read_step0 (i : Z) :
  0 <= i -> Z.lor (Z.shiftl (Z.shiftr i 8) 8) (to_byte i) = i.
Proof.
  intros Hi. pose proof (read_step i 0 Hi ltac:(lia)) as H.
  rewrite Z.shiftr_0_r in H. exact H.
Qed.

(** The first byte [t * 64 + hi] of a varint gives back its two parts. *)
Lemma first_byte (hi t : Z) :
  0 <= hi < 64 -> 0 <= t < 4 ->
  Z.shiftr (Z.land (t * 64 + hi) 0xc0) 6 = t /\
  Z.land (t * 64 + hi) (0xff - 0xc0) = hi.
Proof.
  intros Hh Ht. split.
  - rewrite Z.shiftr_land.
    change (Z.shiftr 0xc0 6) with (Z.ones 2).
    rewrite Z.land_ones, Z.shiftr_div_pow2 by lia.
    change (2 ^ 6) with 64. change (2 ^ 2) with 4.
    Z.div_mod_to_equations. lia.
  - change (0xff - 0xc0) with (Z.ones 6).
    rewrite Z.land_ones by lia. change (2 ^ 6) with 64.
    Z.div_mod_to_equations. lia.
Qed.

Lemma lor_tag (hi t : Z) :
  0 <= hi < 64 -> Z.lor hi (t * 64) = t * 64 + hi.
Proof.
  intros Hh. rewrite Z.lor_comm.
  change 64 with (2 ^ 6). apply lor_mul_pow2_add; lia.
Qed.

Lemma shiftr_small (i k : Z) (b : Z) :
  0 <= k -> 0 <= i < b * 2 ^ k -> 0 <= Z.shiftr i k < b.
Proof.
  intros Hk Hi. rewrite Z.shiftr_div_pow2 by lia.
  assert (0 < 2 ^ k) by (apply Z.pow_pos_nonneg; lia).
  split; [apply Z.div_pos; lia | apply Z.div_lt_upper_bound; lia].
Qed.

Lemma to_byte_small (x : Z) : 0 <= x < 256 -> to_byte x = x.
Proof. intros H. rewrite to_byte_mod. apply Z.mod_small. exact H. Qed.

(** Reading back what [enc] wrote. *)
Lemma Read_enc (i : Z) (e rest : list byte) :
  varint_range i -> quicvarint.enc i = Ok e ->
  quicvarint.Read (e ++ rest) = Ok (i, rest).
Proof.
  unfold varint_range, quicvarint.enc. intros Hi He.
  destruct (Z.leb_spec i quicvarint.maxVarInt1) as [H1 | H1].
  { apply Ok_inj in He. subst e.
    unfold quicvarint.maxVarInt1 in H1.
    rewrite to_byte_small by lia.
    unfold quicvarint.Read. cbn [app ReadByte bind].
    destruct (first_byte i 0 ltac:(lia) ltac:(lia)) as [Ha Hb].
    change (0 * 64 + i) with i in Ha, Hb. rewrite Ha, Hb. reflexivity. }
  destruct (Z.leb_spec i quicvarint.maxVarInt2) as [H2 | H2].
  { apply Ok_inj in He. subst e.
    unfold quicvarint.maxVarInt1, quicvarint.maxVarInt2 in *.
    pose proof (shiftr_small i 8 64 ltac:(lia) ltac:(lia)) as Hs.
    rewrite (to_byte_small (Z.shiftr i 8)) by lia.
    change 0x40 with (1 * 64). rewrite lor_tag by lia.
    unfold quicvarint.Read. cbn [app ReadByte bind].
    destruct (first_byte (Z.shiftr i 8) 1 ltac:(lia) ltac:(lia)) as [Ha Hb].
    rewrite Ha, Hb.
    change (Z.to_nat (Z.shiftl 1 1 - 1)) with 1%nat.
    cbn [quicvarint.read_more ReadByte bind].
    rewrite (read_step0 i) by lia. reflexivity. }
  destruct (Z.leb_spec i quicvarint.maxVarInt4) as [H4 | H4].
  { apply Ok_inj in He. subst e.
    unfold quicvarint.maxVarInt1, quicvarint.maxVarInt2, quicvarint.maxVarInt4 in *.
    pose proof (shiftr_small i 24 64 ltac:(lia) ltac:(lia)) as Hs.
    rewrite (to_byte_small (Z.shiftr i 24)) by lia.
    change 0x80 with (2 * 64). rewrite lor_tag by lia.
    unfold quicvarint.Read. cbn [app ReadByte bind].
    destruct (first_byte (Z.shiftr i 24) 2 ltac:(lia) ltac:(lia)) as [Ha Hb].
    rewrite Ha, Hb.
    change (Z.to_nat (Z.shiftl 1 2 - 1)) with 3%nat.
    cbn [quicvarint.read_more ReadByte bind].
    change (Z.shiftr i 24) with (Z.shiftr i (16 + 8)).
    rewrite (read_step i 16) by lia.
    change (Z.shiftr i 16) with (Z.shiftr i (8 + 8)).
    rewrite (read_step i 8) by lia.
    rewrite (read_step0 i) by lia. reflexivity. }
  destruct (Z.leb_spec i quicvarint.maxVarInt8) as [H8 | H8]; [| lia].
  apply Ok_inj in He. subst e.
  unfold quicvarint.maxVarInt1, quicvarint.maxVarInt2, quicvarint.maxVarInt4,
    quicvarint.maxVarInt8 in *.
  pose proof (shiftr_small i 56 64 ltac:(lia) ltac:(lia)) as Hs.
  rewrite (to_byte_small (Z.shiftr i 56)) by lia.
  change 0xc0 with (3 * 64) at 1. rewrite lor_tag by lia.
  unfold quicvarint.Read. cbn [app ReadByte bind].
  destruct (first_byte (Z.shiftr i 56) 3 ltac:(lia) ltac:(lia)) as [Ha Hb].
  rewrite Ha, Hb.
  change (Z.to_nat (Z.shiftl 1 3 - 1)) with 7%nat.
  cbn [quicvarint.read_more ReadByte bind].
  change (Z.shiftr i 56) with (Z.shiftr i (48 + 8)).
  rewrite (read_step i 48) by lia.
  change (Z.shiftr i 48) with (Z.shiftr i (40 + 8)).
  rewrite (read_step i 40) by lia.
  change (Z.shiftr i 40) with (Z.shiftr i (32 + 8)).
  rewrite (read_step i 32) by lia.
  change (Z.shiftr i 32) with (Z.shiftr i (24 + 8)).
  rewrite (read_step i 24) by lia.
  change (Z.shiftr i 24) with (Z.shiftr i (16 + 8)).
  rewrite (read_step i 16) by lia.
  change (Z.shiftr i 16) with (Z.shiftr i (8 + 8)).
  rewrite (read_step i 8) by lia.
  rewrite (read_step0 i) by lia. reflexivity.
Qed.

Lemma len_enc (i : Z) (e : list byte) :
  quicvarint.enc i = Ok e -> quicvarint.Len i = Ok (len e).
Proof.
  unfold quicvarint.enc, quicvarint.Len.
  destruct (i <=? quicvarint.maxVarInt1); [intros H; apply Ok_inj in H; subst e; reflexivity |].
  destruct (i <=? quicvarint.maxVarInt2); [intros H; apply Ok_inj in H; subst e; reflexivity |].
  destruct (i <=? quicvarint.maxVarInt4); [intros H; apply Ok_inj in H; subst e; reflexivity |].
  destruct (i <=? quicvarint.maxVarInt8); [intros H; apply Ok_inj in H; subst e; reflexivity |].
  discriminate.
Qed.

Lemma enc_total (i : Z) :
  varint_range i -> exists e, quicvarint.enc i = Ok e /\ quicvarint.Len i = Ok (len e)
                              /\ 1 <= len e <= 8.
Proof.
  intros H. destruct (enc_ok i H) as (e & He). exists e.
  pose proof (len_enc i e He) as Hl.
  destruct (Len_range i H) as (l & Hl' & Hr).
  split; [exact He | split; [exact Hl |]].
  rewrite Hl in Hl'. apply Ok_inj in Hl'. lia.
Qed.

Lemma Append_enc (b e : list byte) (i : Z) :
  quicvarint.enc i = Ok e -> quicvarint.Append b i = Ok (b ++ e).
Proof. unfold quicvarint.Append. intros ->. reflexivity. Qed.

(** Reading never panics, fails only at the end of the input, and takes
    [l - 1] bytes after the first, where [l] is the length the first byte
    announces. *)
Lemma read_more_result (n : nat) :
  forall (acc : Z) (r : Reader),
    quicvarint.read_more n acc r = Err EOF \/
    exists v r', quicvarint.read_more n acc r = Ok (v, r') /\
                 length r = (n + length r')%nat.
Proof.
  induction n as [| n IH]; intros acc r; cbn [quicvarint.read_more].
  - right. exists acc, r. split; reflexivity.
  - destruct r as [| b r]; cbn [ReadByte bind]; [left; reflexivity |].
    destruct (IH (Z.lor (Z.shiftl acc 8) b) r) as [-> | (v & r' & -> & Hl)].
    + left. reflexivity.
    + right. exists v, r'. split; [reflexivity |]. simpl. lia.
Qed.

Lemma Read_result (r : Reader) :
  quicvarint.Read r = Err EOF \/
  exists fb r0 v r',
    r = fb :: r0 /\ quicvarint.Read r = Ok (v, r') /\
    length r0 = (Z.to_nat (Z.shiftl 1 (Z.shiftr (Z.land fb 0xc0) 6) - 1)
                 + length r')%nat.
Proof.
  unfold quicvarint.Read. destruct r as [| fb r0]; cbn [ReadByte bind].
  - left. reflexivity.
  - destruct (read_more_result
                (Z.to_nat (Z.shiftl 1 (Z.shiftr (Z.land fb 0xc0) 6) - 1))
                (Z.land fb (0xff - 0xc0)) r0) as [-> | (v & r' & -> & Hl)].
    + left. reflexivity.
    + right. exists fb, r0, v, r'. repeat split. exact Hl.
Qed.

Lemma Read_shorter (r r' : Reader) (v : Z) :
  quicvarint.Read r = Ok (v, r') -> len r' < len r.
Proof.
  intros H. destruct (Read_result r) as [E | (fb & r0 & v0 & r1 & -> & E & Hl)].
  - rewrite E in H. discriminate.
  - rewrite E in H. apply Ok_inj in H. injection H as _ <-.
    unfold len. simpl length. lia.
Qed.

End Varints.

Ltac no_wrap :=
  repeat match goal with
         | |- context [add64 ?x ?y] => rewrite (add64_small x y) by lia
         | |- context [sub64 ?x ?y] => rewrite (sub64_small x y) by lia
         | H : context [add64 ?x ?y] |- _ => rewrite (add64_small x y) in H by lia
         | H : context [sub64 ?x ?y] |- _ => rewrite (sub64_small x y) in H by lia
         end.

Section NotifyCodec.

Import wire invariants.

Lemma type_byte_flags (base : Z) (fin dlp off : bool) :
  base = 0x58 \/ base = 0x8 ->
  (Z.land (stream_type_byte base fin dlp off) 4 >? 0) = off /\
  (Z.land (stream_type_byte base fin dlp off) 1 >? 0) = fin /\
  (Z.land (stream_type_byte base fin dlp off) 2 >? 0) = dlp.
Proof.
  intros [-> | ->]; destruct fin, dlp, off; repeat split; reflexivity.
Qed.

Lemma varint_int64 (i : Z) : varint_range i -> int64 i = i.
Proof.
  unfold varint_range, quicvarint.maxVarInt8. intros H.
  apply int64_small. lia.
Qed.

(** X1.  Decoding inverts encoding for PR_ACK_NOTIFY: for a frame whose
    numbers fit a varint and whose policy flags are those of its PTDA byte,
    [parsePRAckNotifyFrame] returns the frame from the bytes [Append] wrote,
    whatever follows them. *)
Theorem PRAckNotifyFrame_round_trip (f : PRAckNotifyFrame) (rest : list byte) :
  notify_wf f ->
  exists out,
    PRAckNotifyFrame_Append f [] = Ok out /\
    parsePRAckNotifyFrame (out ++ rest) = Ok f.
Proof.
  destruct f as [sid off dl fin dlp ptda p t d a c].
  unfold notify_wf, flags_agree. cbn [an_StreamID an_Offset an_PRDataLen an_Fin
    an_DataLenPresent an_PTDA an_P an_T an_D an_A an_PtdaC].
  intros (Hs & Ho & Hd & Hc & Hp & Ht & Hdd & Ha).
  destruct (enc_ok _ Hs) as (es & Es).
  destruct (enc_ok _ Hc) as (ec & Ec).
  destruct (enc_ok _ Hd) as (ed & Ed).
  destruct (enc_ok _ Ho) as (eo & Eo).
  destruct (type_byte_flags 0x58 fin dlp (negb (off =? 0)) (or_introl eq_refl))
    as (Tf & Tfin & Tdlp).
  exists ([stream_type_byte 0x58 fin dlp (negb (off =? 0))] ++ es ++ [ptda] ++ ec
          ++ (if off =? 0 then [] else eo) ++ ed).
  split.
  - unfold PRAckNotifyFrame_Append.
    cbn [an_StreamID an_Offset an_PRDataLen an_Fin an_DataLenPresent an_PTDA an_PtdaC].
    rewrite (uint64_varint _ Hs), (uint64_varint _ Ho).
    rewrite (Append_enc _ es _ Es). cbn [bind].
    rewrite (Append_enc _ ec _ Ec). cbn [bind].
    destruct (off =? 0); cbn [negb bind].
    + rewrite (Append_enc _ ed _ Ed). apply f_equal.
      repeat rewrite <- app_assoc. reflexivity.
    + rewrite (Append_enc _ eo _ Eo). cbn [bind].
      rewrite (Append_enc _ ed _ Ed). apply f_equal.
      repeat rewrite <- app_assoc. reflexivity.
  - unfold parsePRAckNotifyFrame.
    repeat rewrite <- app_assoc. cbn [app ReadByte bind].
    rewrite Tf, Tfin, Tdlp.
    rewrite (Read_enc sid es _ Hs Es). cbn [bind app ReadByte].
    rewrite (Read_enc c ec _ Hc Ec). cbn [bind].
    rewrite (varint_int64 _ Hs).
    destruct (off =? 0) eqn:E0; cbn [negb bind app].
    + apply Z.eqb_eq in E0. subst off.
      rewrite (Read_enc dl ed _ Hd Ed). cbn [bind].
      rewrite <- Hp, <- Ht, <- Hdd, <- Ha. reflexivity.
    + rewrite (Read_enc off eo _ Ho Eo). cbn [bind].
      rewrite (Read_enc dl ed _ Hd Ed). cbn [bind].
      rewrite (varint_int64 _ Ho).
      rewrite <- Hp, <- Ht, <- Hdd, <- Ha. reflexivity.
Qed.

Lemma PRAckNotifyFrame_round_trip_witness :
  exists out,
    PRAckNotifyFrame_Append examples.sample_notify [] = Ok out /\
    parsePRAckNotifyFrame (out ++ [0x01]) = Ok examples.sample_notify.
Proof.
  apply (PRAckNotifyFrame_round_trip examples.sample_notify [0x01]).
  unfold notify_wf, varint_range, flags_agree. vm_compute.
  repeat split; discriminate.
Defined.

(** X2.  The PR_ACK_NOTIFY parser never panics, and the only error it
    returns is [io.EOF], on an input that ends before the frame does. *)
Theorem parsePRAckNotifyFrame_total (r : Reader) :
  parsePRAckNotifyFrame r = Err EOF \/ exists f, parsePRAckNotifyFrame r = Ok f.
Proof.
  unfold parsePRAckNotifyFrame.
  destruct r as [| typeByte r]; cbn [ReadByte bind]; [left; reflexivity |].
  destruct (Read_result r) as [-> | (fb1 & r1 & sid & r2 & _ & -> & _)];
    cbn [bind]; [left; reflexivity |].
  destruct r2 as [| ptda r2]; cbn [ReadByte bind]; [left; reflexivity |].
  destruct (Read_result r2) as [-> | (fb2 & r3 & c & r4 & _ & -> & _)];
    cbn [bind]; [left; reflexivity |].
  destruct (Z.land typeByte 4 >? 0); cbn [bind].
  - destruct (Read_result r4) as [-> | (fb3 & r5 & off & r6 & _ & -> & _)];
      cbn [bind]; [left; reflexivity |].
    destruct (Read_result r6) as [-> | (fb4 & r7 & dl & r8 & _ & -> & _)];
      cbn [bind]; [left; reflexivity |].
    right. eexists. reflexivity.
  - destruct (Read_result r4) as [-> | (fb4 & r7 & dl & r8 & _ & -> & _)];
      cbn [bind]; [left; reflexivity |].
    right. eexists. reflexivity.
Qed.

(** X3.  [Length] of a PR_ACK_NOTIFY frame is the number of bytes [Append]
    writes for it. *)
Theorem PRAckNotifyFrame_Length_is_written (f : PRAckNotifyFrame) (b : list byte) :
  varint_range (an_StreamID f) -> varint_range (an_Offset f) ->
  varint_range (an_PRDataLen f) -> varint_range (an_PtdaC f) ->
  exists out l,
    PRAckNotifyFrame_Append f b = Ok out /\
    PRAckNotifyFrame_Length f = Ok l /\
    len out = len b + l.
Proof.
  intros Hs Ho Hd Hc.
  destruct (enc_total _ Hs) as (es & Es & Ls & Rs).
  destruct (enc_total _ Hc) as (ec & Ec & Lc & Rc).
  destruct (enc_total _ Hd) as (ed & Ed & Ld & Rd).
  destruct (enc_total _ Ho) as (eo & Eo & Lo & Ro).
  unfold PRAckNotifyFrame_Append, PRAckNotifyFrame_Length, PRAckNotifyFrame_DataLen.
  rewrite (uint64_varint _ Hs), (uint64_varint _ Ho), (varint_int64 _ Hd),
    (uint64_varint _ Hd).
  rewrite (Append_enc _ es _ Es), Ls. cbn [bind].
  rewrite (Append_enc _ ec _ Ec). cbn [bind].
  destruct (an_Offset f =? 0); cbn [negb bind].
  - rewrite (Append_enc _ ed _ Ed), Ld, Lc. cbn [bind].
    eexists. eexists. split; [reflexivity | split; [reflexivity |]].
    rewrite !len_app. unfold len at 2 4. simpl length. no_wrap. lia.
  - rewrite (Append_enc _ eo _ Eo), Lo. cbn [bind].
    rewrite (Append_enc _ ed _ Ed), Ld, Lc. cbn [bind].
    eexists. eexists. split; [reflexivity | split; [reflexivity |]].
    rewrite !len_app. unfold len at 2 4. simpl length. no_wrap. lia.
Qed.

Lemma PRAckNotifyFrame_Length_is_written_witness :
  exists out l,
    PRAckNotifyFrame_Append examples.sample_notify [] = Ok out /\
    PRAckNotifyFrame_Length examples.sample_notify = Ok l /\
    len out = len (@nil byte) + l.
Proof.
  apply (PRAckNotifyFrame_Length_is_written examples.sample_notify []);
    unfold varint_range; vm_compute; split; discriminate.
Defined.

(** X4.  The parser of the second PR_ACK_NOTIFY file never returns a frame:
    without the length bit it fails, and with it it either runs out of input
    or panics on the nil [frame]. *)
Theorem parsePRAckNotifyFrame_second_never_ok (r : Reader) :
  is_ok (parsePRAckNotifyFrame_second r) = false /\
  (forall typeByte r', r = typeByte :: r' -> Z.land typeByte 2 = 0 ->
     parsePRAckNotifyFrame_second r = Err EOF \/
     parsePRAckNotifyFrame_second r = Err ErrUnknownDataLength).
Proof.
  split.
  - unfold parsePRAckNotifyFrame_second.
    apply bind_never_ok; intros [typeByte r1].
    apply bind_never_ok; intros [streamID r2].
    apply bind_never_ok; intros [offset r3].
    apply bind_never_ok; intros [dataLen r4].
    reflexivity.
  - intros typeByte r' -> H2. unfold parsePRAckNotifyFrame_second.
    cbn [ReadByte bind]. rewrite H2. cbn [Z.gtb Z.compare].
    destruct (Read_result r') as [-> | (fb1 & r1 & sid & r2 & _ & -> & _)];
      cbn [bind]; [left; reflexivity |].
    destruct (Z.land typeByte 4 >? 0); cbn [bind]; [| right; reflexivity].
    destruct (Read_result r2) as [-> | (fb3 & r5 & off & r6 & _ & -> & _)];
      cbn [bind]; [left; reflexivity | right; reflexivity].
Qed.

Lemma parsePRAckNotifyFrame_second_never_ok_witness :
  parsePRAckNotifyFrame_second [0x08; 1] = Err EOF \/
  parsePRAckNotifyFrame_second [0x08; 1] = Err ErrUnknownDataLength.
Proof.
  apply (proj2 (parsePRAckNotifyFrame_second_never_ok [0x08; 1]) 0x08 [1]);
    reflexivity.
Defined.

End NotifyCodec.

Section StreamAndDatagramCodec.

Import wire invariants.

Lemma len_one {A : Type} (x : A) : len [x] = 1.
Proof. reflexivity. Qed.

(** X5.  A PR_STREAM frame without data and without FIN is not written.
    Any other frame whose numbers fit a varint is written, in
    [Length - varint_len(ptdaC) + 1] bytes: [Length] counts [ptdaC] as a
    varint, [Append] writes one byte of it. *)
Theorem PRStreamFrame_Append_written (f : PRStreamFrame) (b : list byte) :
  prstream_range f ->
  (Data f = [] -> Fin f = false -> PRStreamFrame_Append f b = Err ErrEmptyFrame) /\
  (Data f <> [] \/ Fin f = true ->
   exists out l lc,
     PRStreamFrame_Append f b = Ok out /\
     PRStreamFrame_Length f = Ok l /\
     quicvarint.Len (ptdaC f) = Ok lc /\
     len out = len b + l - lc + 1).
Proof.
  intros (Hs & Ho & Hc & Hd). split.
  - intros Hd0 Hf. unfold PRStreamFrame_Append. rewrite Hd0, Hf. reflexivity.
  - intros Hne.
    destruct (enc_total _ Hs) as (es & Es & Ls & Rs).
    destruct (enc_total _ Hc) as (ec & Ec & Lc & Rc).
    destruct (enc_total _ Hd) as (ed & Ed & Ld & Rd).
    destruct (enc_total _ Ho) as (eo & Eo & Lo & Ro).
    unfold PRStreamFrame_Append, PRStreamFrame_Length, PRStreamFrame_DataLen.
    replace ((len (Data f) =? 0) && negb (Fin f)) with false.
    2:{ symmetry. destruct Hne as [Hne | ->]; [| apply andb_false_r].
        destruct (Data f); [congruence |]. reflexivity. }
    rewrite (uint64_varint _ Hs), (uint64_varint _ Ho), (uint64_varint _ Hd),
      (uint64_varint _ Hc).
    rewrite (Append_enc _ es _ Es), Ls, Lc. cbn [bind].
    unfold varint_range, quicvarint.maxVarInt8 in Hd.
    destruct (Offset f =? 0); cbn [negb bind].
    + destruct (DataLenPresent f); cbn [bind].
      * rewrite (Append_enc _ ed _ Ed), Ld. cbn [bind].
        do 3 eexists. repeat (split; [reflexivity |]).
        rewrite !len_app, !len_one. no_wrap. lia.
      * do 3 eexists. repeat (split; [reflexivity |]).
        rewrite !len_app, !len_one. no_wrap. lia.
    + rewrite (Append_enc _ eo _ Eo), Lo. cbn [bind].
      destruct (DataLenPresent f); cbn [bind].
      * rewrite (Append_enc _ ed _ Ed), Ld. cbn [bind].
        do 3 eexists. repeat (split; [reflexivity |]).
        rewrite !len_app, !len_one. no_wrap. lia.
      * do 3 eexists. repeat (split; [reflexivity |]).
        rewrite !len_app, !len_one. no_wrap. lia.
Qed.


Lemma PRStreamFrame_Append_written_witness :
  PRStreamFrame_Append (examples.with_data (examples.sample_frame 10000) []) []
  = Err ErrEmptyFrame /\
  exists out l lc,
    PRStreamFrame_Append (examples.sample_frame 10000) [] = Ok out /\
    PRStreamFrame_Length (examples.sample_frame 10000) = Ok l /\
    quicvarint.Len 10000 = Ok lc /\
    len out = len (@nil byte) + l - lc + 1.
Proof.
  split.
  - apply (PRStreamFrame_Append_written
             (examples.with_data (examples.sample_frame 10000) []) []);
      [unfold prstream_range, varint_range; vm_compute; repeat split; discriminate
      | reflexivity | reflexivity].
  - apply (PRStreamFrame_Append_written (examples.sample_frame 10000) []);
      [unfold prstream_range, varint_range; vm_compute; repeat split; discriminate
      | left; discriminate].
Defined.

(** X6.  [Length] of a PR_DATAGRAM frame leaves out the PTDA byte and the
    [ptdaC] byte: [Append] writes two bytes more than [Length] says. *)
Theorem PRDatagramFrame_Length_two_short (f : PRDatagramFrame) (b : list byte) :
  varint_range (len (dg_Data f)) ->
  exists out l,
    PRDatagramFrame_Append f b = Ok out /\
    PRDatagramFrame_Length f = Ok l /\
    len out = len b + l + 2.
Proof.
  intros Hd.
  destruct (enc_total _ Hd) as (ed & Ed & Ld & Rd).
  unfold PRDatagramFrame_Append, PRDatagramFrame_Length.
  rewrite (uint64_varint _ Hd).
  unfold varint_range, quicvarint.maxVarInt8 in Hd.
  destruct (dg_DataLenPresent f); cbn [bind].
  - rewrite (Append_enc _ ed _ Ed), Ld. cbn [bind].
    do 2 eexists. repeat (split; [reflexivity |]).
    rewrite !len_app, !len_one. no_wrap. lia.
  - do 2 eexists. repeat (split; [reflexivity |]).
    rewrite !len_app, !len_one. no_wrap. lia.
Qed.

Lemma PRDatagramFrame_Length_two_short_witness :
  exists out l,
    PRDatagramFrame_Append
      (mkPRDatagramFrame true [0x61] 0x80 true false false false 5) [] = Ok out /\
    PRDatagramFrame_Length
      (mkPRDatagramFrame true [0x61] 0x80 true false false false 5) = Ok l /\
    len out = len (@nil byte) + l + 2.
Proof.
  apply (PRDatagramFrame_Length_two_short
           (mkPRDatagramFrame true [0x61] 0x80 true false false false 5) []).
  unfold varint_range. vm_compute. split; discriminate.
Defined.

(** X7.  A PR_DATAGRAM frame written without a length field cannot be read
    back: the parser takes the PTDA and [ptdaC] bytes for part of the data
    and then finds the input too short. *)
Theorem PRDatagramFrame_without_length_unreadable (f : PRDatagramFrame) :
  dg_DataLenPresent f = false ->
  exists out,
    PRDatagramFrame_Append f [] = Ok out /\
    (parsePRDatagramFrame out = Err EOF \/
     parsePRDatagramFrame out = Err ErrUnexpectedEOF).
Proof.
  intros Hl. unfold PRDatagramFrame_Append. rewrite Hl. cbn [bind app].
  eexists. split; [reflexivity |].
  unfold parsePRDatagramFrame. cbn [ReadByte bind].
  change (Z.land 82 1 >? 0) with false. cbn [bind ReadByte].
  destruct (Read_result (to_byte (dg_ptdaC f) :: dg_Data f))
    as [-> | (fb & r0 & v & r' & Hr & -> & Hlen)]; cbn [bind]; [left; reflexivity |].
  injection Hr as _ <-.
  unfold ReadFull.
  assert (Hr' : len r' <= len (dg_Data f)) by (unfold len; lia).
  pose proof (len_nonneg r') as Hr0.
  assert (Hn : len (dg_PTDA f :: to_byte (dg_ptdaC f) :: dg_Data f)
               = len (dg_Data f) + 2) by (unfold len; simpl length; lia).
  rewrite Hn.
  destruct (Z.eqb_spec (len (dg_Data f) + 2) 0) as [E | _]; [lia |].
  destruct (Z.eqb_spec (len r') 0) as [_ | _]; cbn [bind]; [left; reflexivity |].
  destruct (Z.ltb_spec (len r') (len (dg_Data f) + 2)) as [_ | E]; [| lia].
  right. reflexivity.
Qed.

Lemma PRDatagramFrame_without_length_unreadable_witness :
  exists out,
    PRDatagramFrame_Append
      (mkPRDatagramFrame false [0x61] 0x80 true false false false 5) [] = Ok out /\
    (parsePRDatagramFrame out = Err EOF \/
     parsePRDatagramFrame out = Err ErrUnexpectedEOF).
Proof.
  apply (PRDatagramFrame_without_length_unreadable
           (mkPRDatagramFrame false [0x61] 0x80 true false false false 5)).
  reflexivity.
Defined.


Lemma Read_one_byte (fb : byte) (r : list byte) :
  0 <= fb < 64 -> quicvarint.Read (fb :: r) = Ok (fb, r).
Proof.
  intros H. unfold quicvarint.Read. cbn [ReadByte bind].
  destruct (first_byte fb 0 H ltac:(lia)) as [Ha Hb].
  change (0 * 64 + fb) with fb in Ha, Hb. rewrite Ha, Hb. reflexivity.
Qed.

Lemma Read_more_bytes (fb : byte) (v : Z) (r r' : list byte) :
  64 <= fb < 256 -> quicvarint.Read (fb :: r) = Ok (v, r') -> len r' < len r.
Proof.
  intros H E.
  destruct (Read_result (fb :: r)) as [E' | (fb0 & r0 & v0 & r1 & Hr & E' & Hl)];
    rewrite E' in E; [discriminate |].
  apply Ok_inj in E. injection E as _ <-. injection Hr as <- <-.
  assert (Hfb : fb = fb / 64 * 64 + fb mod 64) by (Z.div_mod_to_equations; lia).
  assert (Ht : 1 <= fb / 64 < 4) by (Z.div_mod_to_equations; lia).
  assert (Hh : 0 <= fb mod 64 < 64) by (apply Z.mod_pos_bound; lia).
  destruct (first_byte (fb mod 64) (fb / 64) Hh ltac:(lia)) as [Ha _].
  rewrite <- Hfb in Ha. rewrite Ha in Hl.
  assert (Hk : (1 <= Z.to_nat (Z.shiftl 1 (fb / 64) - 1))%nat).
  { assert (Hc : fb / 64 = 1 \/ fb / 64 = 2 \/ fb / 64 = 3) by lia.
    destruct Hc as [-> | [-> | ->]]; vm_compute; lia. }
  unfold len. lia.
Qed.

Lemma ReadFull_all (d : list byte) : ReadFull d (len d) = Ok (d, []).
Proof.
  unfold ReadFull.
  destruct (Z.eqb_spec (len d) 0) as [E | E].
  - destruct d; [reflexivity | unfold len in E; simpl in E; lia].
  - rewrite Z.ltb_irrefl. unfold take, drop, len. rewrite Nat2Z.id.
    rewrite firstn_all, skipn_all. reflexivity.
Qed.

(** X8.  A PR_DATAGRAM frame written with a length field is read back as it
    was exactly when its [ptdaC] is at most 63, the largest value whose
    varint is the single byte [Append] writes, and its flags [P], [T], [D]
    and [A] are the ones its PTDA byte stands for: the parser sets the flags
    from PTDA.  (The length of the data fits a varint and [ptdaC], a
    [uint64], is not negative.) *)
Theorem PRDatagramFrame_round_trip_iff (f : PRDatagramFrame) :
  varint_range (len (dg_Data f)) -> 0 <= dg_ptdaC f ->
  dg_DataLenPresent f = true ->
  exists out,
    PRDatagramFrame_Append f [] = Ok out /\
    (parsePRDatagramFrame out = Ok f <->
     dg_ptdaC f <= 63 /\
     flags_agree (dg_PTDA f) (dg_P f) (dg_T f) (dg_D f) (dg_A f)).
Proof.
  destruct f as [dlp data ptda p t d a c].
  unfold flags_agree.
  cbn [dg_DataLenPresent dg_Data dg_PTDA dg_P dg_T dg_D dg_A dg_ptdaC].
  intros Hd Hc0 ->.
  destruct (enc_ok _ Hd) as (el & El).
  unfold PRDatagramFrame_Append.
  cbn [dg_DataLenPresent dg_Data dg_PTDA dg_ptdaC].
  rewrite (Append_enc _ el _ El). cbn [bind].
  eexists. split; [reflexivity |].
  unfold parsePRDatagramFrame.
  repeat rewrite <- app_assoc. cbn [app ReadByte bind].
  change (Z.land (Z.lxor 82 1) 1 >? 0) with true. cbn [bind].
  rewrite (Read_enc _ el _ Hd El). cbn [bind].
  assert (Hn : len (ptda :: to_byte c :: data) = len data + 2)
    by (unfold len; simpl length; lia).
  rewrite Hn.
  destruct (Z.gtb_spec (len data) (len data + 2)) as [E | _]; [lia |].
  cbn [bind ReadByte].
  destruct (Z.le_gt_cases c 63) as [Hc | Hc].
  - rewrite (to_byte_small c) by lia.
    rewrite (Read_one_byte c data) by lia. cbn [bind].
    rewrite ReadFull_all. cbn [bind].
    split.
    + intros H. apply Ok_inj in H.
      pose proof (f_equal dg_P H) as Hp. pose proof (f_equal dg_T H) as Ht.
      pose proof (f_equal dg_D H) as Hdd. pose proof (f_equal dg_A H) as Ha.
      cbn [dg_P dg_T dg_D dg_A] in Hp, Ht, Hdd, Ha.
      split; [exact Hc |]. repeat split; symmetry; assumption.
    + intros (_ & Hp & Ht & Hdd & Ha).
      rewrite <- Hp, <- Ht, <- Hdd, <- Ha. reflexivity.
  - split; [| intros [Hle _]; lia]. intros H. exfalso.
    pose proof (to_byte_is_byte c) as Hb. unfold is_byte in Hb.
    destruct (Z.lt_ge_cases (to_byte c) 64) as [Hs | Hs].
    + rewrite (Read_one_byte (to_byte c) data) in H by lia. cbn [bind] in H.
      rewrite ReadFull_all in H. cbn [bind] in H.
      apply Ok_inj in H. apply (f_equal dg_ptdaC) in H. cbn [dg_ptdaC] in H.
      rewrite H in Hs. lia.
    + destruct (quicvarint.Read (to_byte c :: data)) as [[v r'] | e | pn] eqn:E;
        cbn [bind] in H; try discriminate.
      apply Read_more_bytes in E; [| lia].
      pose proof (len_nonneg r') as Hr0.
      unfold ReadFull in H.
      destruct (Z.eqb_spec (len data) 0) as [E0 | _]; [lia |].
      destruct (Z.eqb_spec (len r') 0) as [_ | _]; [discriminate |].
      destruct (Z.ltb_spec (len r') (len data)) as [_ | E1]; [discriminate | lia].
Qed.

Lemma PRDatagramFrame_round_trip_iff_witness :
  exists out,
    PRDatagramFrame_Append
      (mkPRDatagramFrame true [0x61] 0x80 false false false false 63) [] = Ok out /\
    (parsePRDatagramFrame out
     = Ok (mkPRDatagramFrame true [0x61] 0x80 false false false false 63)
     <-> 63 <= 63 /\ flags_agree 0x80 false false false false).
Proof.
  apply (PRDatagramFrame_round_trip_iff
           (mkPRDatagramFrame true [0x61] 0x80 false false false false 63)).
  - unfold varint_range. vm_compute. split; discriminate.
  - vm_compute. discriminate.
  - reflexivity.
Defined.

(** X9.  For a budget up to 16383 bytes that holds the header,
    [PRDatagramFrame.MaxDataLen] gives a data length with which [Length] is
    the budget or one byte less. *)
Theorem PRDatagramFrame_MaxDataLen_tight
    (f : PRDatagramFrame) (b n : Z) (d : list byte) :
  (if dg_DataLenPresent f then 2 else 1) <= b <= 16383 ->
  PRDatagramFrame_MaxDataLen f b = Ok n ->
  len d = n ->
  exists l, PRDatagramFrame_Length (dg_with_data f d) = Ok l /\ b - 1 <= l <= b.
Proof.
  intros Hb Hm Hd.
  unfold PRDatagramFrame_MaxDataLen in Hm. unfold PRDatagramFrame_Length.
  cbn [dg_with_data dg_DataLenPresent dg_Data].
  pose proof (len_nonneg d) as Hd0.
  destruct (dg_DataLenPresent f).
  - no_wrap. change (1 + 1) with 2 in Hm.
    destruct (Z.gtb_spec 2 b) as [E | _]; [lia |].
    assert (Hr : varint_range (b - 2))
      by (unfold varint_range, quicvarint.maxVarInt8; lia).
    rewrite (uint64_varint _ Hr) in Hm.
    unfold quicvarint.Len in Hm.
    unfold quicvarint.maxVarInt1, quicvarint.maxVarInt2 in Hm.
    destruct (Z.leb_spec (b - 2) 63) as [E1 | E1]; cbn [bind] in Hm.
    + change (negb (1 =? 1)) with false in Hm. apply Ok_inj in Hm. subst n.
      rewrite uint64_small by lia.
      unfold quicvarint.Len, quicvarint.maxVarInt1.
      destruct (Z.leb_spec (len d) 63) as [_ | E2]; [| lia]. cbn [bind].
      eexists. split; [reflexivity |]. no_wrap. lia.
    + destruct (Z.leb_spec (b - 2) 16383) as [_ | E2]; [| lia]. cbn [bind] in Hm.
      change (negb (2 =? 1)) with true in Hm. no_wrap.
      apply Ok_inj in Hm. subst n.
      rewrite uint64_small by lia.
      unfold quicvarint.Len, quicvarint.maxVarInt1, quicvarint.maxVarInt2.
      destruct (Z.leb_spec (len d) 63) as [E3 | E3]; cbn [bind].
      * eexists. split; [reflexivity |]. no_wrap. lia.
      * destruct (Z.leb_spec (len d) 16383) as [_ | E4]; [| lia]. cbn [bind].
        eexists. split; [reflexivity |]. no_wrap. lia.
  - destruct (Z.gtb_spec 1 b) as [E | _]; [lia |]. no_wrap.
    apply Ok_inj in Hm. subst n.
    eexists. split; [reflexivity |]. no_wrap. lia.
Qed.

Lemma PRDatagramFrame_MaxDataLen_tight_witness :
  exists l,
    PRDatagramFrame_Length
      (dg_with_data (mkPRDatagramFrame true [] 0x80 true false false false 5)
         (repeat 0 63)) = Ok l /\ 66 - 1 <= l <= 66.
Proof.
  apply (PRDatagramFrame_MaxDataLen_tight
           (mkPRDatagramFrame true [] 0x80 true false false false 5) 66 63
           (repeat 0 63)).
  - simpl. lia.
  - reflexivity.
  - reflexivity.
Defined.

Lemma PRStreamFrame_split_identity_witness :
  exists head tail,
    PRStreamFrame_MaybeSplitOffFrame examples.five_bytes 3 = Ok (Some head, true, tail) /\
    Offset head = 0 /\ Offset tail = add64 0 (PRStreamFrame_DataLen head) /\
    Data head ++ Data tail = [1; 2; 3; 4; 5] /\
    Fin tail = true /\ Fin head = false /\
    wire.PTDA head = 0x80 /\ wire.PTDA tail = 0x80 /\
    ptdaC head = 0 /\ ptdaC tail = 0.
Proof.
  eexists. eexists. split; [reflexivity |].
  apply (PRStreamFrame_split_identity examples.five_bytes 3). reflexivity.
Defined.

End StreamAndDatagramCodec.

(* ================================================================= *)
(** * Further properties of the send stream *)

Ltac split_cond H :=
  match type of H with
  | context [if ?c then _ else _] => destruct c eqn:?
  end.

Section Framing.

Import wire flowcontrol quic invariants.

Lemma int64_range (x : Z) : - 2 ^ 63 <= int64 x < 2 ^ 63.
Proof.
  unfold int64. pose proof (Z.mod_pos_bound (x + 2 ^ 63) (2 ^ 64) ltac:(lia)). lia.
Qed.

Lemma len_drop {A : Type} (n : Z) (l : list A) :
  0 <= n -> len (drop n l) = Z.max 0 (len l - n).
Proof. intros H. unfold len, drop. rewrite length_skipn. lia. Qed.

Lemma len_zero_nil {A : Type} (l : list A) : len l = 0 -> l = [].
Proof. destruct l; [reflexivity | unfold len; simpl; lia]. Qed.

Lemma same_but_pending_refl (s : sendStream) : same_but_pending s s.
Proof. unfold same_but_pending. destruct s. reflexivity. Qed.

Lemma same_but_pending_data (s : sendStream) (x : option (list byte)) :
  same_but_pending s (set_dataForWriting x s).
Proof. unfold same_but_pending. destruct s. reflexivity. Qed.

Lemma same_but_pending_both (s : sendStream) (x : option (list byte))
    (y : option StreamFrame) :
  same_but_pending s (set_dataForWriting x (set_nextFrame y s)).
Proof. unfold same_but_pending. destruct s. reflexivity. Qed.

Lemma same_but_pending_next (s : sendStream) (y : option StreamFrame) :
  same_but_pending s (set_nextFrame y s).
Proof. unfold same_but_pending. destruct s. reflexivity. Qed.

Lemma same_but_pending_trans (s1 s2 s3 : sendStream) :
  same_but_pending s1 s2 -> same_but_pending s2 s3 -> same_but_pending s1 s3.
Proof.
  unfold same_but_pending. intros H1 H2. rewrite H2. rewrite H1 at 1.
  destruct s1. reflexivity.
Qed.

(** [getDataForWriting] moves at most [m] bytes of the pending data into the
    frame and leaves the rest pending. *)
Lemma getDataForWriting_spec (s s' : sendStream) (f f' : StreamFrame) (m : Z)
    (evs : list event) :
  getDataForWriting s f m = Ok (f', s', evs) ->
  same_but_pending s s' /\ nextFrame s' = nextFrame s /\
  dataForWriting s' <> Some [] /\
  sf_Offset f' = sf_Offset f /\ sf_StreamID f' = sf_StreamID f /\
  sf_Fin f' = sf_Fin f /\
  StreamFrame_DataLen f' <= Z.max 0 m /\
  sf_Data f' ++ match dataForWriting s' with Some d => d | None => [] end
  = match dataForWriting s with Some d => d | None => [] end.
Proof.
  unfold getDataForWriting. intros H.
  set (d := match dataForWriting s with Some d => d | None => [] end) in *.
  destruct (Z.leb_spec (len d) m) as [Hl | Hl].
  - split_cond H; [discriminate |].
    apply Ok_inj in H. injection H as <- <- _.
    cbn [dataForWriting nextFrame set_dataForWriting sf_Offset sf_StreamID sf_Fin sf_Data].
    unfold StreamFrame_DataLen. cbn [sf_Data].
    repeat split;
      first [apply same_but_pending_data | apply app_nil_r | discriminate | lia].
  - split_cond H; [discriminate |].
    apply orb_false_iff in Heqb. destruct Heqb as [Hm0 _].
    apply Z.ltb_ge in Hm0.
    apply Ok_inj in H. injection H as <- <- _.
    cbn [dataForWriting nextFrame set_dataForWriting sf_Offset sf_StreamID sf_Fin sf_Data].
    unfold StreamFrame_DataLen. cbn [sf_Data].
    assert (Hne : Some (drop m d) <> Some []).
    { intros E. injection E as E.
      apply (f_equal len) in E. rewrite len_drop in E by lia.
      unfold len in E at 2. simpl in E. lia. }
    repeat split;
      first [apply same_but_pending_data | apply take_drop | exact Hne
            | rewrite len_take by lia; lia].
Qed.

Lemma popNewStreamFrameWithoutBuffer_spec (s s' : sendStream) (f f' : StreamFrame)
    (m w : Z) (more : bool) (evs : list event) :
  popNewStreamFrameWithoutBuffer s f m w = Ok (more, f', s', evs) ->
  dataForWriting s <> Some [] ->
  sf_Data f = [] ->
  same_but_pending s s' /\ nextFrame s' = nextFrame s /\
  dataForWriting s' <> Some [] /\
  sf_Offset f' = sf_Offset f /\ sf_StreamID f' = sf_StreamID f /\
  sf_Fin f' = sf_Fin f /\
  StreamFrame_DataLen f' <= Z.max 0 w.
Proof.
  unfold popNewStreamFrameWithoutBuffer. intros H Hk Hd.
  apply bind_Ok_inv in H. destruct H as (maxDataLen & _ & H).
  destruct (maxDataLen =? 0).
  - apply Ok_inj in H. injection H as _ <- <- _.
    unfold StreamFrame_DataLen. rewrite Hd.
    repeat split; try assumption; try (apply same_but_pending_refl).
    unfold len. simpl. lia.
  - apply bind_Ok_inv in H. destruct H as ([[f1 s1] e1] & Hg & H).
    apply Ok_inj in H. injection H as _ <- <- _.
    apply getDataForWriting_spec in Hg.
    destruct Hg as (Ha & Hb & Hc & Ho & Hi & Hf & Hl & _).
    repeat split; try assumption. lia.
Qed.


(** [popNewStreamFrame] on a well-formed stream: the frame starts at
    [writeOffset] and carries at most [w] bytes, and what stays buffered
    starts where the frame ends. *)
Lemma popNewStreamFrame_spec (s s' : sendStream) (m w : Z)
    (f : option StreamFrame) (more : bool) (evs : list event) :
  well_formed s ->
  popNewStreamFrame s m w = Ok (f, more, s', evs) ->
  same_but_pending s s' /\
  dataForWriting s' <> Some [] /\
  match f with
  | Some fr =>
    sf_Offset fr = writeOffset s /\ sf_StreamID fr = streamID s /\
    StreamFrame_DataLen fr <= Z.max 0 w /\
    (forall t, nextFrame s' = Some t ->
               sf_Offset t = add64 (writeOffset s) (StreamFrame_DataLen fr) /\
               sf_StreamID t = streamID s)
  | None => nextFrame s' = None
  end.
Proof.
  intros (Hw & Hk & Hn & _) H. unfold popNewStreamFrame in H.
  destruct (nextFrame s) as [nf |] eqn:En.
  - destruct (Hn nf eq_refl) as [Ho Hi].
    apply bind_Ok_inv in H. destruct H as (mdl & _ & H).
    destruct (Z.gtb_spec (StreamFrame_DataLen nf) (Z.min w mdl)) as [Hs | Hs].
    + split_cond H; [discriminate |].
      destruct (Z.ltb_spec (Z.min w mdl) 0) as [| H0]; [discriminate |].
      apply Ok_inj in H. injection H as <- _ <- _.
      unfold StreamFrame_DataLen in *.
      cbn [dataForWriting nextFrame set_nextFrame sf_Offset sf_StreamID sf_Data
           writeOffset streamID].
      split; [apply same_but_pending_trans with (set_nextFrame None s);
              apply same_but_pending_next |].
      split; [exact Hk |].
      rewrite len_take by lia.
      repeat split; try assumption; try lia;
        match goal with
        | E : Some _ = Some _ |- _ => injection E as <-; reflexivity
        end.
    + apply Ok_inj in H. injection H as <- _ <- _.
      cbn [dataForWriting nextFrame set_nextFrame].
      split; [apply same_but_pending_next |].
      split; [exact Hk |].
      repeat split; try assumption; try lia; discriminate.
  - apply bind_Ok_inv in H. destruct H as ([[[more1 f1] s1] e1] & Hp & H).
    apply popNewStreamFrameWithoutBuffer_spec in Hp; [| exact Hk | reflexivity].
    destruct Hp as (Ha & Hb & Hc & Ho & Hi & Hf & Hl).
    cbn [sf_Offset sf_StreamID sf_Fin] in Ho, Hi, Hf.
    rewrite En in Hb.
    split_cond H; apply Ok_inj in H; injection H as <- _ <- _.
    + repeat split; assumption.
    + repeat split; try assumption;
        match goal with
        | E : nextFrame _ = Some _ |- _ => rewrite Hb in E; discriminate
        end.
Qed.


Lemma same_but_pending_fields (s s' : sendStream) :
  same_but_pending s s' ->
  same_control s s' /\ writeOffset s' = writeOffset s /\
  finSent s' = finSent s /\ flowController s' = flowController s.
Proof.
  unfold same_but_pending, same_control. intros H.
  repeat split; rewrite H; reflexivity.
Qed.

Lemma same_control_refl (s : sendStream) : same_control s s.
Proof. unfold same_control. repeat split. Qed.

Lemma pending_none (s : sendStream) :
  dataForWriting s <> Some [] -> dataForWriting_len s = 0 -> dataForWriting s = None.
Proof.
  unfold dataForWriting_len. destruct (dataForWriting s) as [d |]; [| reflexivity].
  intros Hk Hl. apply len_zero_nil in Hl. subst d. congruence.
Qed.

Lemma isSome_false {A : Type} (o : option A) : isSome o = false -> o = None.
Proof. destruct o; [discriminate | reflexivity]. Qed.

Lemma add64_zero (x : Z) : - 2 ^ 63 <= x < 2 ^ 63 -> add64 x 0 = x.
Proof. intros H. unfold add64. rewrite Z.add_0_r. apply int64_small. exact H. Qed.

(** Framing new data on a well-formed stream. *)
Lemma popNewData_spec (s s' : sendStream) (m : Z)
    (f : option StreamFrame) (more : bool) (evs : list event) :
  well_formed s ->
  popNewData s m = Ok (f, more, s', evs) ->
  well_formed s' /\ same_control s s' /\
  match f with
  | Some fr =>
    finSent s = false /\
    sf_Offset fr = writeOffset s /\ sf_StreamID fr = streamID s /\
    writeOffset s' = add64 (writeOffset s) (StreamFrame_DataLen fr) /\
    StreamFrame_DataLen fr <= SendWindowSize (flowController s) /\
    finSent s' = sf_Fin fr
  | None => writeOffset s' = writeOffset s /\ finSent s' = finSent s
  end.
Proof.
  intros Hwf H. pose proof Hwf as (Hw & Hk & Hn & Hj).
  unfold popNewData in H.
  destruct ((dataForWriting_len s =? 0) && negb (isSome (nextFrame s))) eqn:Ec.
  - apply andb_true_iff in Ec. destruct Ec as [Ed En].
    apply Z.eqb_eq in Ed. apply negb_true_iff, isSome_false in En.
    pose proof (pending_none s Hk Ed) as Ed'.
    destruct (finishedWriting s && negb (finSent s)) eqn:Ef.
    + apply andb_true_iff in Ef. destruct Ef as [Ef1 Ef2].
      apply negb_true_iff in Ef2.
      apply Ok_inj in H. injection H as <- _ <- _.
      unfold StreamFrame_DataLen.
      cbn [sf_Offset sf_StreamID sf_Data sf_Fin writeOffset finSent set_finSent].
      split; [| split; [unfold same_control; repeat split; reflexivity |]].
      * unfold well_formed.
        cbn [writeOffset dataForWriting nextFrame finSent finishedWriting
             streamID set_finSent].
        repeat split; try assumption; try lia;
          match goal with
          | E : nextFrame s = Some _ |- _ => destruct (Hn _ E); assumption
          end.
      * change (len (@nil byte)) with 0. rewrite add64_zero by exact Hw.
        repeat split; try assumption.
        unfold SendWindowSize.
        destruct (Z.gtb_spec (bytesSent (flowController s))
                    (sendWindow (flowController s))); lia.
    + apply Ok_inj in H. injection H as <- _ <- _.
      split; [exact Hwf | split; [apply same_control_refl | split; reflexivity]].
  - assert (Hfs : finSent s = false).
    { destruct (finSent s) eqn:E; [| reflexivity].
      destruct (Hj eq_refl) as (_ & Hd & Hx).
      unfold dataForWriting_len in Ec. rewrite Hd, Hx in Ec. discriminate. }
    destruct (Z.eqb_spec (SendWindowSize (flowController s)) 0) as [Ew | Ew].
    + destruct (IsNewlyBlocked (flowController s)) as [[isBlocked offset] fc].
      destruct isBlocked; apply Ok_inj in H; injection H as <- _ <- _;
        (split; [exact Hwf | split; [unfold same_control; repeat split; reflexivity
                                    | split; reflexivity]]).
    + apply bind_Ok_inv in H. destruct H as ([[[f1 more1] s1] e1] & Hp & H).
      apply (popNewStreamFrame_spec _ _ _ _ _ _ _ Hwf) in Hp.
      destruct Hp as (Hsb & Hk1 & Hf1).
      destruct f1 as [fr |]; [| discriminate].
      destruct Hf1 as (Ho & Hi & Hl & Ht).
      apply same_but_pending_fields in Hsb.
      destruct Hsb as (Hsc & Hwo & Hfin & Hfc).
      pose proof Hsc as (C1 & C2 & C3 & C4 & C5 & C6 & C7 & C8 & C9 & C10 & C11).
      apply Ok_inj in H. injection H as <- _ <- _.
      cbn [sf_Offset sf_StreamID sf_Fin sf_Data].
      assert (Hlen : 0 <= StreamFrame_DataLen fr) by apply len_nonneg.
      assert (Hsw : 0 <= SendWindowSize (flowController s)).
      { unfold SendWindowSize.
        destruct (Z.gtb_spec (bytesSent (flowController s))
                    (sendWindow (flowController s))); lia. }
      change (StreamFrame_DataLen
                (mkStreamFrame (sf_StreamID fr) (sf_Offset fr) (sf_Data fr)
                   (finishedWriting
                      (if StreamFrame_DataLen fr >? 0
                       then set_flowController
                              (AddBytesSent (flowController s1) (StreamFrame_DataLen fr))
                              (set_writeOffset
                                 (add64 (writeOffset s1) (StreamFrame_DataLen fr)) s1)
                       else s1)
                    && negb (isSome (dataForWriting
                      (if StreamFrame_DataLen fr >? 0
                       then set_flowController
                              (AddBytesSent (flowController s1) (StreamFrame_DataLen fr))
                              (set_writeOffset
                                 (add64 (writeOffset s1) (StreamFrame_DataLen fr)) s1)
                       else s1)))
                    && negb (isSome (nextFrame
                      (if StreamFrame_DataLen fr >? 0
                       then set_flowController
                              (AddBytesSent (flowController s1) (StreamFrame_DataLen fr))
                              (set_writeOffset
                                 (add64 (writeOffset s1) (StreamFrame_DataLen fr)) s1)
                       else s1)))
                    && negb (finSent
                      (if StreamFrame_DataLen fr >? 0
                       then set_flowController
                              (AddBytesSent (flowController s1) (StreamFrame_DataLen fr))
                              (set_writeOffset
                                 (add64 (writeOffset s1) (StreamFrame_DataLen fr)) s1)
                       else s1)))
                   (sf_DataLenPresent fr) (sf_fromPool fr)))
        with (StreamFrame_DataLen fr).
      destruct (Z.gtb_spec (StreamFrame_DataLen fr) 0) as [Hpos | Hpos];
        cbn [finishedWriting dataForWriting nextFrame finSent set_flowController
             set_writeOffset];
        rewrite Hfin, Hfs, C8; cbn [negb]; rewrite andb_true_r;
        destruct (finishedWriting s && negb (isSome (dataForWriting s1))
                  && negb (isSome (nextFrame s1))) eqn:Efin.
      all: unfold well_formed, same_control;
        cbn [writeOffset dataForWriting nextFrame finSent finishedWriting streamID
             numOutstandingFrames retransmissionQueue prAckNotifyRetransmissionQueue
             cancelWriteErr closeForShutdownErr closedForShutdown canceledWrite
             completed deadline set_finSent set_flowController set_writeOffset].
      all: try (apply andb_true_iff in Efin; destruct Efin as [Efin En1];
                apply andb_true_iff in Efin; destruct Efin as [Ef1 Ed1];
                apply negb_true_iff, isSome_false in En1;
                apply negb_true_iff, isSome_false in Ed1).
      all: assert (Hz : StreamFrame_DataLen fr <= 0 ->
                        add64 (writeOffset s) (StreamFrame_DataLen fr) = writeOffset s)
          by (intros Hz0; replace (StreamFrame_DataLen fr) with 0 by lia;
              apply add64_zero; exact Hw).
      all: rewrite ?Hwo, ?Hfin, ?Hfc, ?C1, ?C2, ?C3, ?C4, ?C5, ?C6, ?C7, ?C8, ?C9,
             ?C10, ?C11.
      all: repeat split; try assumption; try reflexivity; try congruence;
        try apply int64_range; try lia;
        try (rewrite Hz by lia; reflexivity);
        try discriminate;
        try match goal with
            | E : nextFrame _ = Some _ |- _ =>
              destruct (Ht _ E) as [Hg1 Hg2];
              first [assumption | rewrite Hz in Hg1 by lia; assumption]
            end.
Qed.


(** [well_formed] looks only at the offset, the pending data, the buffered
    frame, the stream id and the two FIN flags. *)
Lemma well_formed_same (s s' : sendStream) :
  writeOffset s' = writeOffset s -> dataForWriting s' = dataForWriting s ->
  nextFrame s' = nextFrame s -> streamID s' = streamID s ->
  finSent s' = finSent s ->
  (finishedWriting s = true -> finishedWriting s' = true) ->
  well_formed s -> well_formed s'.
Proof.
  unfold well_formed. intros -> -> -> -> -> Hf (Hw & Hk & Hn & Hj).
  repeat split; try assumption; try lia;
    try (match goal with E : nextFrame s = Some _ |- _ => destruct (Hn _ E); assumption end);
    try (match goal with E : finSent s = true |- _ => destruct (Hj E) as (? & ? & ?); auto end).
Qed.

Ltac same_as s :=
  apply (well_formed_same s); try reflexivity; try (intros ?; assumption); try assumption.

Lemma Write_loop_well_formed (s s' : sendStream) (p : list byte) (now' : Z)
    (n : bool) (evs : list event) (out : WriteOutcome) :
  well_formed s -> Write_loop s p now' n = (s', evs, out) ->
  well_formed s' /\ same_control s s' /\ writeOffset s' = writeOffset s /\
  finSent s' = finSent s.
Proof.
  intros Hwf H. pose proof Hwf as (Hw & Hk & Hn & Hj).
  unfold Write_loop in H.
  destruct (canBufferStreamFrame s && (dataForWriting_len s >? 0)) eqn:Ec.
  - apply andb_true_iff in Ec. destruct Ec as [_ Ec]. apply Z.gtb_lt in Ec.
    assert (Hfs : finSent s = false).
    { destruct (finSent s) eqn:E; [| reflexivity].
      destruct (Hj eq_refl) as (_ & Hd & _).
      unfold dataForWriting_len in Ec. rewrite Hd in Ec. lia. }
    injection H as <- _ _.
    split; [| split; [unfold same_control; repeat split; reflexivity
                     | split; reflexivity]].
    unfold well_formed.
    cbn [writeOffset dataForWriting nextFrame finSent finishedWriting streamID
         set_dataForWriting set_nextFrame].
    rewrite Hfs.
    repeat split; try assumption; try lia; try discriminate;
      match goal with
      | E : Some _ = Some _ |- _ => injection E as <-
      end;
      destruct (nextFrame s) as [nf |] eqn:En; try reflexivity;
      destruct (Hn nf eq_refl); assumption.
  - repeat split_cond H; injection H as <- _ _;
      (split; [| split; [unfold same_control; repeat split; reflexivity
                        | split; reflexivity]]);
      try exact Hwf.
    unfold well_formed.
    cbn [writeOffset dataForWriting nextFrame finSent finishedWriting streamID
         set_dataForWriting].
    repeat split; try assumption; try lia; try discriminate;
      try (match goal with E : nextFrame s = Some _ |- _ => destruct (Hn _ E); assumption end);
      try (match goal with E : finSent s = true |- _ => destruct (Hj E) as (? & ? & ?); auto end).
Qed.

Lemma Write_well_formed (s s' : sendStream) (p : list byte) (now now' : Z)
    (evs : list event) (out : WriteOutcome) :
  well_formed s -> Write s p now now' = (s', evs, out) ->
  well_formed s' /\ same_control s s' /\ writeOffset s' = writeOffset s /\
  finSent s' = finSent s.
Proof.
  intros Hwf H. pose proof Hwf as (Hw & Hk & Hn & Hj).
  unfold Write in H.
  destruct (Write_entry s now) as [[n err] |] eqn:Ee.
  - injection H as <- _ _.
    split; [exact Hwf | split; [apply same_control_refl | split; reflexivity]].
  - destruct (Z.eqb_spec (len p) 0) as [E0 | E0].
    + injection H as <- _ _.
      split; [exact Hwf | split; [apply same_control_refl | split; reflexivity]].
    + assert (Hfw : finishedWriting s = false).
      { unfold Write_entry in Ee. destruct (finishedWriting s); [discriminate | reflexivity]. }
      assert (Hfs : finSent s = false).
      { destruct (finSent s) eqn:E; [| reflexivity].
        destruct (Hj eq_refl) as (Hx & _). congruence. }
      apply Write_loop_well_formed in H.
      * destruct H as (H1 & H2 & H3 & H4).
        split; [exact H1 | split; [exact H2 | split; [exact H3 | exact H4]]].
      * unfold well_formed.
        cbn [writeOffset dataForWriting nextFrame finSent finishedWriting streamID
             set_dataForWriting].
        rewrite Hfs.
        repeat split; try assumption; try lia; try discriminate;
          try (match goal with E : nextFrame s = Some _ |- _ => destruct (Hn _ E); assumption end).
        intros E. injection E as ->. apply E0. reflexivity.
Qed.

Lemma maybeGetRetransmission_spec (s s' : sendStream) (m : Z)
    (f : option StreamFrame) (more : bool) :
  maybeGetRetransmission s m = Ok (f, more, s') ->
  s' = set_retransmissionQueue (retransmissionQueue s') s /\
  isSome f || more = true.
Proof.
  unfold maybeGetRetransmission. intros H.
  destruct (retransmissionQueue s) as [| f0 rest]; [discriminate |].
  apply bind_Ok_inv in H. destruct H as ([[nf ns] f1] & _ & H).
  destruct ns; apply Ok_inj in H; injection H as <- <- <-;
    (split; [destruct s; reflexivity |]).
  - apply orb_true_r.
  - reflexivity.
Qed.

(** What a call of [popNewOrRetransmittedStreamFrame] does to a well-formed
    stream, and what it says about a frame of new data. *)
Lemma popNewOrRetransmittedStreamFrame_spec (s s' : sendStream) (m : Z)
    (f : option StreamFrame) (more : bool) (evs : list event) :
  well_formed s ->
  popNewOrRetransmittedStreamFrame s m = Ok (f, more, s', evs) ->
  well_formed s' /\
  numOutstandingFrames s' = numOutstandingFrames s /\
  streamID s' = streamID s /\
  (retransmissionQueue s <> [] ->
   writeOffset s' = writeOffset s /\ finSent s' = finSent s) /\
  (retransmissionQueue s = [] ->
   match f with
   | Some fr =>
     canceledWrite s = false /\ finSent s = false /\
     sf_Offset fr = writeOffset s /\ sf_StreamID fr = streamID s /\
     writeOffset s' = add64 (writeOffset s) (StreamFrame_DataLen fr) /\
     StreamFrame_DataLen fr <= SendWindowSize (flowController s) /\
     finSent s' = sf_Fin fr
   | None => writeOffset s' = writeOffset s /\ finSent s' = finSent s
   end).
Proof.
  intros Hwf H. unfold popNewOrRetransmittedStreamFrame in H.
  destruct (canceledWrite s || isSome (closeForShutdownErr s)) eqn:Ec.
  - apply Ok_inj in H. injection H as <- _ <- _.
    split; [exact Hwf |]. repeat split; reflexivity.
  - apply orb_false_iff in Ec. destruct Ec as [Ec _].
    destruct (Z.gtb_spec (len (retransmissionQueue s)) 0) as [Hq | Hq].
    + assert (Hne : retransmissionQueue s <> []).
      { intros E. rewrite E in Hq. unfold len in Hq. simpl in Hq. lia. }
      apply bind_Ok_inv in H. destruct H as ([[f1 more1] s1] & Hm & H).
      apply maybeGetRetransmission_spec in Hm. destruct Hm as [Hs1 Hret].
      assert (Hwf1 : well_formed s1) by (rewrite Hs1; same_as s).
      rewrite Hret in H.
      destruct f1; apply Ok_inj in H; injection H as _ _ <- _;
        (split; [exact Hwf1 |]);
        (split; [rewrite Hs1; reflexivity |]);
        (split; [rewrite Hs1; reflexivity |]);
        (split; [intros _; split; rewrite Hs1; reflexivity | intros E; contradiction]).
    + assert (Hq0 : retransmissionQueue s = []).
      { apply len_zero_nil. pose proof (len_nonneg (retransmissionQueue s)). lia. }
      apply (popNewData_spec _ _ _ _ _ _ Hwf) in H.
      destruct H as (Hwf' & Hsc & Hf).
      destruct Hsc as (C1 & _ & _ & C4 & _).
      split; [exact Hwf' |]. split; [exact C1 |]. split; [exact C4 |].
      split; [intros E; contradiction |].
      intros _. destruct f as [fr |].
      * destruct Hf as (F1 & F2 & F3 & F4 & F5 & F6). repeat split; assumption.
      * exact Hf.
Qed.


Lemma popStreamFrame_spec (cfg : PRConfig) (s s' : sendStream) (b : Z)
    (f : option ackhandler_Frame) (more : bool) (evs : list event) :
  well_formed s ->
  popStreamFrame cfg s b = Ok (f, more, s', evs) ->
  well_formed s' /\
  streamID s' = streamID s /\
  numOutstandingFrames s'
  = match f with
    | Some _ => add64 (numOutstandingFrames s) 1
    | None => numOutstandingFrames s
    end /\
  (retransmissionQueue s <> [] ->
   writeOffset s' = writeOffset s /\ finSent s' = finSent s) /\
  (retransmissionQueue s = [] ->
   match f with
   | Some fr =>
     canceledWrite s = false /\ finSent s = false /\
     sf_Offset (as_stream fr) = writeOffset s /\
     sf_StreamID (as_stream fr) = streamID s /\
     writeOffset s' = add64 (writeOffset s) (StreamFrame_DataLen (as_stream fr)) /\
     StreamFrame_DataLen (as_stream fr) <= SendWindowSize (flowController s) /\
     finSent s' = sf_Fin (as_stream fr)
   | None => writeOffset s' = writeOffset s /\ finSent s' = finSent s
   end).
Proof.
  intros Hwf H. unfold popStreamFrame in H.
  apply bind_Ok_inv in H. destruct H as ([[[f1 more1] s1] e1] & Hp & H).
  apply (popNewOrRetransmittedStreamFrame_spec _ _ _ _ _ _ Hwf) in Hp.
  destruct Hp as (Hwf1 & Hn1 & Hi1 & Hr1 & He1).
  destruct f1 as [fr |].
  - assert (Hwf' : well_formed
                     (set_numOutstandingFrames (add64 (numOutstandingFrames s1) 1) s1))
      by (same_as s1).
    destruct (PR_ENABLED cfg); apply Ok_inj in H; injection H as <- _ <- _;
      cbn [as_stream toPRStreamFrame StreamID Offset Data Fin DataLenPresent
           sf_Offset sf_StreamID sf_Fin sf_Data numOutstandingFrames streamID
           writeOffset finSent set_numOutstandingFrames];
      unfold StreamFrame_DataLen in *; cbn [sf_Data];
      (split; [exact Hwf' |]); (split; [exact Hi1 |]);
      (split; [rewrite Hn1; reflexivity |]);
      (split; [exact Hr1 | exact He1]).
  - apply Ok_inj in H. injection H as <- _ <- _.
    split; [exact Hwf1 |]. split; [exact Hi1 |]. split; [exact Hn1 |].
    split; [exact Hr1 | exact He1].
Qed.

Lemma isNewlyCompleted_state (s : sendStream) :
  snd (isNewlyCompleted s) = s \/ snd (isNewlyCompleted s) = set_completed true s.
Proof.
  unfold isNewlyCompleted.
  destruct (completion_predicate s && negb (completed s)); [right | left]; reflexivity.
Qed.

(** Every operation keeps the stream well formed and its id, and changes
    the count of frames in flight by one at most, never below zero. *)
Lemma step_invariant (cfg : PRConfig) (s s' : sendStream) (o : op)
    (evs : list event) (k : Z) :
  well_formed s -> 0 <= numOutstandingFrames s <= k -> k + pops [o] < 2 ^ 63 ->
  step cfg s o = Ok (s', evs) ->
  well_formed s' /\ streamID s' = streamID s /\
  0 <= numOutstandingFrames s' <= k + pops [o].
Proof.
  intros Hwf Hn Hk H.
  destruct o as [p now now' | p now' | m | f | f rnd | | c | c | e | l | t];
    cbn [step] in H; unfold pops in *; cbn [filter] in *;
    unfold len in Hk; simpl length in Hk.
  - destruct (Write s p now now') as [[s1 e1] out] eqn:E.
    apply Ok_inj in H. injection H as <- _.
    apply (Write_well_formed _ _ _ _ _ _ _ Hwf) in E.
    destruct E as (W & (C1 & _ & _ & C4 & _) & _).
    split; [exact W | split; [exact C4 |]]. rewrite C1. unfold len. simpl. lia.
  - destruct (Write_loop s p now' true) as [[s1 e1] out] eqn:E.
    apply Ok_inj in H. injection H as <- _.
    apply (Write_loop_well_formed _ _ _ _ _ _ _ Hwf) in E.
    destruct E as (W & (C1 & _ & _ & C4 & _) & _).
    split; [exact W | split; [exact C4 |]]. rewrite C1. unfold len. simpl. lia.
  - apply bind_Ok_inv in H. destruct H as ([[[f1 more1] s1] e1] & Hp & H).
    apply Ok_inj in H. injection H as <- _.
    apply (popStreamFrame_spec _ _ _ _ _ _ _ Hwf) in Hp.
    destruct Hp as (W & Hi & Hc & _).
    split; [exact W | split; [exact Hi |]]. rewrite Hc.
    change (len [OpPopStreamFrame m]) with 1.
    destruct f1; [rewrite add64_small by lia |]; lia.
  - assert (Ha : frameAcked s = Ok (s', evs)) by (destruct f; exact H).
    clear H. unfold frameAcked in Ha.
    destruct (canceledWrite s).
    + apply Ok_inj in Ha. injection Ha as <- _.
      split; [exact Hwf | split; [reflexivity |]]. unfold len. simpl. lia.
    + cbn [numOutstandingFrames set_numOutstandingFrames] in Ha.
      destruct (Z.ltb_spec (sub64 (numOutstandingFrames s) 1) 0) as [| Hge];
        [discriminate |].
      rewrite sub64_small in Hge by lia.
      destruct (isNewlyCompleted_state
                  (set_numOutstandingFrames (sub64 (numOutstandingFrames s) 1) s))
        as [Es | Es];
        destruct (isNewlyCompleted
                    (set_numOutstandingFrames (sub64 (numOutstandingFrames s) 1) s))
          as [newly s1]; cbn [snd] in Es; subst s1;
        apply Ok_inj in Ha; injection Ha as <- _;
        (split; [same_as s | split; [reflexivity |]]);
        cbn [numOutstandingFrames set_numOutstandingFrames set_completed];
        rewrite sub64_small by lia; unfold len; simpl; lia.
  - assert (Hl : (exists g, queueRetransmission s g = Ok (s', evs)) \/
                 (exists g, prAckNotifyQueueRetransmission s g = Ok (s', evs))).
    { destruct f as [g | g]; [left; exists g; exact H |].
      unfold prQueueRetransmission in H.
      destruct (negb (pr_retran_enabled g rnd)); [left | right]; eexists; exact H. }
    clear H. destruct Hl as [[g H] | [g H]].
    + unfold queueRetransmission in H. destruct (canceledWrite s).
      * apply Ok_inj in H. injection H as <- _.
        split; [exact Hwf | split; [reflexivity |]]. unfold len. simpl. lia.
      * cbn [numOutstandingFrames set_numOutstandingFrames set_retransmissionQueue] in H.
        destruct (Z.ltb_spec (sub64 (numOutstandingFrames s) 1) 0) as [| Hge];
          [discriminate |].
        rewrite sub64_small in Hge by lia.
        apply Ok_inj in H. injection H as <- _.
        split; [same_as s | split; [reflexivity |]].
        cbn [numOutstandingFrames set_numOutstandingFrames].
        rewrite sub64_small by lia. unfold len. simpl. lia.
    + unfold prAckNotifyQueueRetransmission in H. destruct (canceledWrite s).
      * apply Ok_inj in H. injection H as <- _.
        split; [exact Hwf | split; [reflexivity |]]. unfold len. simpl. lia.
      * cbn [numOutstandingFrames set_numOutstandingFrames
             set_prAckNotifyRetransmissionQueue] in H.
        destruct (Z.ltb_spec (sub64 (numOutstandingFrames s) 1) 0) as [| Hge];
          [discriminate |].
        rewrite sub64_small in Hge by lia.
        apply Ok_inj in H. injection H as <- _.
        split; [same_as s | split; [reflexivity |]].
        cbn [numOutstandingFrames set_numOutstandingFrames].
        rewrite sub64_small by lia. unfold len. simpl. lia.
  - unfold Close in H. repeat split_cond H; apply Ok_inj in H; injection H as <- _;
      (split; [first [exact Hwf | same_as s] | split; [reflexivity |]]);
      cbn [numOutstandingFrames set_finishedWriting]; unfold len; simpl; lia.
  - apply Ok_inj in H. unfold CancelWrite, cancelWriteImpl in H.
    destruct (canceledWrite s).
    + injection H as <- _.
      split; [exact Hwf | split; [reflexivity |]]. unfold len. simpl. lia.
    + destruct (isNewlyCompleted_state
                  (set_retransmissionQueue []
                     (set_numOutstandingFrames 0
                        (set_canceled (ErrWriteCanceled (streamID s) c) s))))
        as [Es | Es];
        destruct (isNewlyCompleted
                    (set_retransmissionQueue []
                       (set_numOutstandingFrames 0
                          (set_canceled (ErrWriteCanceled (streamID s) c) s))))
          as [newly s1]; cbn [snd] in Es; subst s1;
        injection H as <- _;
        (split; [same_as s | split; [reflexivity |]]);
        cbn [numOutstandingFrames set_numOutstandingFrames set_completed
             set_retransmissionQueue]; unfold len; simpl; lia.
  - apply Ok_inj in H. unfold handleStopSendingFrame, cancelWriteImpl in H.
    destruct (canceledWrite s).
    + injection H as <- _.
      split; [exact Hwf | split; [reflexivity |]]. unfold len. simpl. lia.
    + destruct (isNewlyCompleted_state
                  (set_retransmissionQueue []
                     (set_numOutstandingFrames 0
                        (set_canceled (StreamError (streamID s) c) s))))
        as [Es | Es];
        destruct (isNewlyCompleted
                    (set_retransmissionQueue []
                       (set_numOutstandingFrames 0
                          (set_canceled (StreamError (streamID s) c) s))))
          as [newly s1]; cbn [snd] in Es; subst s1;
        injection H as <- _;
        (split; [same_as s | split; [reflexivity |]]);
        cbn [numOutstandingFrames set_numOutstandingFrames set_completed
             set_retransmissionQueue]; unfold len; simpl; lia.
  - apply Ok_inj in H. injection H as <- _.
    split; [same_as s | split; [reflexivity |]].
    cbn [numOutstandingFrames set_closedForShutdown]. unfold len. simpl. lia.
  - apply Ok_inj in H. injection H as <- _.
    split; [same_as s | split; [reflexivity |]].
    cbn [numOutstandingFrames set_flowController]. unfold len. simpl. lia.
  - apply Ok_inj in H. injection H as <- _.
    split; [same_as s | split; [reflexivity |]].
    cbn [numOutstandingFrames set_deadline]. unfold len. simpl. lia.
Qed.


Lemma pops_cons (o : op) (ops : list op) : pops (o :: ops) = pops [o] + pops ops.
Proof.
  unfold pops. cbn [filter].
  destruct o; cbn [filter]; unfold len; simpl length; lia.
Qed.

Lemma pops_bounds (ops : list op) : 0 <= pops ops <= len ops.
Proof.
  unfold pops, len. split; [lia |].
  apply inj_le. apply filter_length_le.
Qed.

Lemma run_invariant (cfg : PRConfig) (ops : list op) :
  forall (s0 s : sendStream) (evs : list event) (k : Z),
    well_formed s0 -> 0 <= numOutstandingFrames s0 <= k ->
    k + pops ops < 2 ^ 63 ->
    run cfg s0 ops = Ok (s, evs) ->
    well_formed s /\ streamID s = streamID s0 /\
    0 <= numOutstandingFrames s <= k + pops ops.
Proof.
  induction ops as [| o ops IH]; intros s0 s evs k Hwf Hn Hk H; cbn [run] in H.
  - apply Ok_inj in H. injection H as <- _.
    split; [exact Hwf | split; [reflexivity |]].
    unfold pops, len. simpl. lia.
  - rewrite pops_cons in *.
    pose proof (pops_bounds ops) as Hp. pose proof (pops_bounds [o]) as Hp1.
    change (len [o]) with 1 in Hp1.
    apply bind_Ok_inv in H. destruct H as ([s1 e1] & Hs & H).
    apply bind_Ok_inv in H. destruct H as ([s2 e2] & Hr & H).
    apply Ok_inj in H. injection H as <- _.
    destruct (step_invariant cfg s0 s1 o e1 k Hwf Hn ltac:(lia) Hs) as (W1 & I1 & N1).
    destruct (IH s1 s2 e2 (k + pops [o]) W1 N1 ltac:(lia) Hr) as (W2 & I2 & N2).
    split; [exact W2 | split; [congruence | lia]].
Qed.

Lemma newSendStream_well_formed (sid : Z) (fc : StreamFlowController) :
  well_formed (newSendStream sid fc).
Proof.
  unfold well_formed. cbn. repeat split; try lia; discriminate.
Qed.

(** X11.  Every state reached from a new stream is well formed: a frame
    buffered in [nextFrame] belongs to the stream and starts at
    [writeOffset], the pending data is never an empty non-nil slice, and once
    the FIN has been sent the stream is closed for writing with nothing
    pending or buffered.  (The bound is on the number of frames popped, for
    the frame counter not to wrap.) *)
Theorem reachable_well_formed
    (cfg : PRConfig) (sid : Z) (fc : StreamFlowController) (ops : list op)
    (s : sendStream) (evs : list event) :
  pops ops < 2 ^ 63 ->
  run cfg (newSendStream sid fc) ops = Ok (s, evs) ->
  well_formed s /\ streamID s = sid.
Proof.
  intros Hp H.
  destruct (run_invariant cfg ops (newSendStream sid fc) s evs 0
              (newSendStream_well_formed sid fc)) as (W & I & _);
    [cbn; lia | lia | exact H |].
  split; [exact W | exact I].
Qed.

Lemma reachable_well_formed_witness :
  well_formed examples.before_ack /\ streamID examples.before_ack = 4.
Proof.
  apply (reachable_well_formed examples.cfg128 4 (mkFC 0 1000 0) examples.scenario
           examples.before_ack examples.scenario_events).
  - vm_compute. reflexivity.
  - reflexivity.
Defined.

(** X12.  In every state reached from a new stream the number of frames in
    flight is between zero and the number of frames popped so far. *)
Theorem outstanding_frames_bounds
    (cfg : PRConfig) (sid : Z) (fc : StreamFlowController) (ops : list op)
    (s : sendStream) (evs : list event) :
  pops ops < 2 ^ 63 ->
  run cfg (newSendStream sid fc) ops = Ok (s, evs) ->
  0 <= numOutstandingFrames s <= pops ops.
Proof.
  intros Hp H.
  destruct (run_invariant cfg ops (newSendStream sid fc) s evs 0
              (newSendStream_well_formed sid fc)) as (_ & _ & N);
    [cbn; lia | lia | exact H |].
  lia.
Qed.

Lemma outstanding_frames_bounds_witness :
  0 <= numOutstandingFrames examples.before_ack <= pops examples.scenario.
Proof.
  apply (outstanding_frames_bounds examples.cfg128 4 (mkFC 0 1000 0) examples.scenario
           examples.before_ack examples.scenario_events).
  - vm_compute. reflexivity.
  - reflexivity.
Defined.

(** X13.  Offsets are contiguous: in a state reached from a new stream with
    nothing to retransmit, a frame handed out by [popStreamFrame] belongs to
    the stream, starts at [writeOffset], and moves [writeOffset] forward by
    the length of its data. *)
Theorem new_frame_offset
    (cfg : PRConfig) (sid : Z) (fc : StreamFlowController) (ops : list op)
    (s : sendStream) (evs : list event)
    (b : Z) (f : ackhandler_Frame) (more : bool) (s' : sendStream)
    (evs' : list event) :
  pops ops < 2 ^ 63 ->
  run cfg (newSendStream sid fc) ops = Ok (s, evs) ->
  retransmissionQueue s = [] ->
  popStreamFrame cfg s b = Ok (Some f, more, s', evs') ->
  sf_StreamID (as_stream f) = sid /\
  sf_Offset (as_stream f) = writeOffset s /\
  writeOffset s' = add64 (writeOffset s) (StreamFrame_DataLen (as_stream f)).
Proof.
  intros Hp Hr Hq H.
  destruct (run_invariant cfg ops (newSendStream sid fc) s evs 0
              (newSendStream_well_formed sid fc)) as (W & I & _);
    [cbn; lia | lia | exact Hr |].
  apply (popStreamFrame_spec _ _ _ _ _ _ _ W) in H.
  destruct H as (_ & _ & _ & _ & H).
  destruct (H Hq) as (_ & _ & Ho & Hi & Hw & _).
  cbn [streamID newSendStream] in I.
  split; [congruence | split; assumption].
Qed.


Lemma new_frame_offset_witness :
  sf_StreamID (as_stream (AHPRStream examples.lost_frame)) = 4 /\
  sf_Offset (as_stream (AHPRStream examples.lost_frame))
  = writeOffset examples.written /\
  writeOffset examples.one_in_flight
  = add64 (writeOffset examples.written)
      (StreamFrame_DataLen (as_stream (AHPRStream examples.lost_frame))).
Proof.
  apply (new_frame_offset examples.cfg10000 4 (mkFC 0 1000 0)
           [OpWrite examples.xxxxx 0 0] examples.written [onHasStreamData 4]
           1200 (AHPRStream examples.lost_frame) false examples.one_in_flight
           [signalWrite]).
  - vm_compute. reflexivity.
  - reflexivity.
  - reflexivity.
  - reflexivity.
Defined.

(** X14.  Flow control is respected: a frame of new data handed out by
    [popStreamFrame] carries no more bytes than the send window
    [SendWindowSize] allowed when it was framed. *)
Theorem new_frame_within_send_window
    (cfg : PRConfig) (sid : Z) (fc : StreamFlowController) (ops : list op)
    (s : sendStream) (evs : list event)
    (b : Z) (f : ackhandler_Frame) (more : bool) (s' : sendStream)
    (evs' : list event) :
  pops ops < 2 ^ 63 ->
  run cfg (newSendStream sid fc) ops = Ok (s, evs) ->
  retransmissionQueue s = [] ->
  popStreamFrame cfg s b = Ok (Some f, more, s', evs') ->
  StreamFrame_DataLen (as_stream f) <= SendWindowSize (flowController s).
Proof.
  intros Hp Hr Hq H.
  destruct (run_invariant cfg ops (newSendStream sid fc) s evs 0
              (newSendStream_well_formed sid fc)) as (W & I & _);
    [cbn; lia | lia | exact Hr |].
  apply (popStreamFrame_spec _ _ _ _ _ _ _ W) in H.
  destruct H as (_ & _ & _ & _ & H).
  destruct (H Hq) as (_ & _ & _ & _ & _ & Hl & _). exact Hl.
Qed.

Lemma new_frame_within_send_window_witness :
  StreamFrame_DataLen (as_stream (AHPRStream examples.lost_frame))
  <= SendWindowSize (flowController examples.written).
Proof.
  apply (new_frame_within_send_window examples.cfg10000 4 (mkFC 0 1000 0)
           [OpWrite examples.xxxxx 0 0] examples.written [onHasStreamData 4]
           1200 (AHPRStream examples.lost_frame) false examples.one_in_flight
           [signalWrite]).
  - vm_compute. reflexivity.
  - reflexivity.
  - reflexivity.
  - reflexivity.
Defined.

(** X15.  The FIN goes out once: in a state reached from a new stream, a
    frame of new data is handed out only while [finSent] is false, and
    [finSent] is set exactly when that frame carries the FIN; a frame taken
    from the retransmission queue changes neither [finSent] nor
    [writeOffset]. *)
Theorem fin_sent_once
    (cfg : PRConfig) (sid : Z) (fc : StreamFlowController) (ops : list op)
    (s : sendStream) (evs : list event)
    (b : Z) (f : ackhandler_Frame) (more : bool) (s' : sendStream)
    (evs' : list event) :
  pops ops < 2 ^ 63 ->
  run cfg (newSendStream sid fc) ops = Ok (s, evs) ->
  popStreamFrame cfg s b = Ok (Some f, more, s', evs') ->
  (retransmissionQueue s = [] ->
   finSent s = false /\ finSent s' = sf_Fin (as_stream f)) /\
  (retransmissionQueue s <> [] ->
   finSent s' = finSent s /\ writeOffset s' = writeOffset s).
Proof.
  intros Hp Hr H.
  destruct (run_invariant cfg ops (newSendStream sid fc) s evs 0
              (newSendStream_well_formed sid fc)) as (W & I & _);
    [cbn; lia | lia | exact Hr |].
  apply (popStreamFrame_spec _ _ _ _ _ _ _ W) in H.
  destruct H as (_ & _ & _ & Hne & He).
  split.
  - intros Hq. destruct (He Hq) as (_ & Hf & _ & _ & _ & _ & Hs). split; assumption.
  - intros Hq. destruct (Hne Hq) as [Hw Hf]. split; assumption.
Qed.

Lemma fin_sent_once_witness :
  (retransmissionQueue examples.written = [] ->
   finSent examples.written = false /\
   finSent examples.one_in_flight
   = sf_Fin (as_stream (AHPRStream examples.lost_frame))) /\
  (retransmissionQueue examples.written <> [] ->
   finSent examples.one_in_flight = finSent examples.written /\
   writeOffset examples.one_in_flight = writeOffset examples.written).
Proof.
  apply (fin_sent_once examples.cfg10000 4 (mkFC 0 1000 0)
           [OpWrite examples.xxxxx 0 0] examples.written [onHasStreamData 4]
           1200 (AHPRStream examples.lost_frame) false examples.one_in_flight
           [signalWrite]).
  - vm_compute. reflexivity.
  - reflexivity.
  - reflexivity.
Defined.


(** *** No byte is lost, repeated or reordered *)

Lemma popNewStreamFrame_bytes (s s' : sendStream) (m w : Z)
    (f : option StreamFrame) (more : bool) (evs : list event) :
  popNewStreamFrame s m w = Ok (f, more, s', evs) ->
  pending_bytes s = stream_data_of f ++ pending_bytes s'.
Proof.
  unfold popNewStreamFrame, pending_bytes. intros H.
  destruct (nextFrame s) as [nf |] eqn:En.
  - apply bind_Ok_inv in H. destruct H as (mdl & _ & H).
    repeat split_cond H; try discriminate; apply Ok_inj in H;
      injection H as <- _ <- _;
      cbn [stream_data_of sf_Data nextFrame dataForWriting set_nextFrame app].
    + rewrite app_assoc, take_drop. reflexivity.
    + reflexivity.
  - apply bind_Ok_inv in H. destruct H as ([[[more1 f1] s1] e1] & Hp & H).
    unfold popNewStreamFrameWithoutBuffer in Hp.
    apply bind_Ok_inv in Hp. destruct Hp as (maxDataLen & _ & Hp).
    destruct (maxDataLen =? 0).
    + apply Ok_inj in Hp. injection Hp as _ <- <- _.
      cbn [sf_Data sf_Fin len length Z.of_nat Z.eqb negb andb] in H.
      change (len (@nil byte) =? 0) with true in H. cbn [andb negb] in H.
      apply Ok_inj in H. injection H as <- _ <- _.
      rewrite En. reflexivity.
    + apply bind_Ok_inv in Hp. destruct Hp as ([[f2 s2] e2] & Hg & Hp).
      apply Ok_inj in Hp. injection Hp as _ <- <- _.
      apply getDataForWriting_spec in Hg.
      destruct Hg as (_ & Hnx & _ & _ & _ & _ & _ & Hb).
      split_cond H; apply Ok_inj in H; injection H as <- _ <- _;
        rewrite Hnx, En; cbn [app stream_data_of]; rewrite <- Hb; [| reflexivity].
      apply andb_true_iff in Heqb. destruct Heqb as [Hz _].
      apply Z.eqb_eq, len_zero_nil in Hz. rewrite Hz. reflexivity.
Qed.

Lemma popNewData_bytes (s s' : sendStream) (m : Z)
    (f : option StreamFrame) (more : bool) (evs : list event) :
  popNewData s m = Ok (f, more, s', evs) ->
  pending_bytes s = stream_data_of f ++ pending_bytes s'.
Proof.
  unfold popNewData. intros H.
  destruct ((dataForWriting_len s =? 0) && negb (isSome (nextFrame s))) eqn:Ec.
  - split_cond H; apply Ok_inj in H; injection H as <- _ <- _; reflexivity.
  - destruct (SendWindowSize (flowController s) =? 0).
    + destruct (IsNewlyBlocked (flowController s)) as [[isBlocked offset] fc].
      destruct isBlocked; apply Ok_inj in H; injection H as <- _ <- _; reflexivity.
    + apply bind_Ok_inv in H. destruct H as ([[[f1 more1] s1] e1] & Hp & H).
      apply popNewStreamFrame_bytes in Hp.
      destruct f1 as [fr |]; [| discriminate].
      apply Ok_inj in H. injection H as <- _ <- _.
      rewrite Hp. cbn [stream_data_of sf_Data]. f_equal.
      unfold pending_bytes.
      destruct (StreamFrame_DataLen fr >? 0);
        match goal with
        | |- context [if ?c then set_finSent true _ else _] => destruct c
        end; reflexivity.
Qed.

(** X16.  Framing takes the bytes in order: with nothing to retransmit, the
    bytes pending before [popStreamFrame] are the data of the frame handed
    out followed by the bytes pending afterwards; a retransmission leaves
    the pending bytes alone. *)
Theorem popStreamFrame_takes_prefix
    (cfg : PRConfig) (s s' : sendStream) (b : Z)
    (f : option ackhandler_Frame) (more : bool) (evs : list event) :
  popStreamFrame cfg s b = Ok (f, more, s', evs) ->
  (retransmissionQueue s = [] -> pending_bytes s = data_of f ++ pending_bytes s') /\
  (retransmissionQueue s <> [] -> pending_bytes s' = pending_bytes s).
Proof.
  unfold popStreamFrame. intros H.
  apply bind_Ok_inv in H. destruct H as ([[[f1 more1] s1] e1] & Hp & H).
  assert (Hs : pending_bytes s' = pending_bytes s1 /\ data_of f = stream_data_of f1).
  { destruct f1 as [fr |].
    - destruct (PR_ENABLED cfg); apply Ok_inj in H; injection H as <- _ <- _;
        split; reflexivity.
    - apply Ok_inj in H. injection H as <- _ <- _. split; reflexivity. }
  destruct Hs as [-> ->]. clear H.
  unfold popNewOrRetransmittedStreamFrame in Hp.
  destruct (canceledWrite s || isSome (closeForShutdownErr s)).
  - apply Ok_inj in Hp. injection Hp as <- _ <- _. split; reflexivity.
  - destruct (Z.gtb_spec (len (retransmissionQueue s)) 0) as [Hq | Hq].
    + assert (Hne : retransmissionQueue s <> []).
      { intros E. rewrite E in Hq. unfold len in Hq. simpl in Hq. lia. }
      apply bind_Ok_inv in Hp. destruct Hp as ([[f2 more2] s2] & Hm & Hp).
      apply maybeGetRetransmission_spec in Hm. destruct Hm as [Hs2 Hret].
      rewrite Hret in Hp.
      split; [intros E; contradiction | intros _].
      destruct f2; apply Ok_inj in Hp; injection Hp as _ _ <- _;
        rewrite Hs2; reflexivity.
    + assert (Hq0 : retransmissionQueue s = []).
      { apply len_zero_nil. pose proof (len_nonneg (retransmissionQueue s)). lia. }
      split; [intros _ | intros E; contradiction].
      exact (popNewData_bytes _ _ _ _ _ _ Hp).
Qed.

Lemma popStreamFrame_takes_prefix_witness :
  pending_bytes examples.written
  = data_of (Some (AHPRStream examples.lost_frame))
    ++ pending_bytes examples.one_in_flight.
Proof.
  apply (popStreamFrame_takes_prefix examples.cfg10000 examples.written
           examples.one_in_flight 1200 (Some (AHPRStream examples.lost_frame))
           false [signalWrite]); reflexivity.
Defined.

(** X17.  [Write] hands its bytes over in order: when no other write is
    pending and the call returns all bytes written or suspends, the input
    has been added at the end of the pending bytes; and when it returns all
    bytes written, they are all buffered in [nextFrame]. *)
Theorem Write_appends
    (s s' : sendStream) (p : list byte) (now now' : Z) (evs : list event)
    (out : WriteOutcome) :
  dataForWriting s = None ->
  Write s p now now' = (s', evs, out) ->
  (out = Returned (len p) None \/ exists n, out = Suspended n) ->
  pending_bytes s' = pending_bytes s ++ p /\
  (out = Returned (len p) None -> dataForWriting s' = None).
Proof.
  intros Hd H Ho. unfold Write in H.
  destruct (Write_entry s now) as [[n err] |] eqn:Ee.
  - injection H as <- _ <-.
    assert (He : n = len p /\ err = None).
    { destruct Ho as [E | [k E]]; [injection E as -> ->; split; reflexivity | discriminate]. }
    destruct He as [-> ->].
    unfold Write_entry in Ee.
    repeat split_cond Ee; try discriminate; injection Ee as E _;
      symmetry in E; apply len_zero_nil in E; subst p;
      (split; [rewrite app_nil_r; reflexivity | intros _; exact Hd]).
  - destruct (Z.eqb_spec (len p) 0) as [E0 | E0].
    + injection H as <- _ _. apply len_zero_nil in E0. subst p.
      split; [rewrite app_nil_r; reflexivity | intros _; exact Hd].
    + unfold Write_loop in H.
      cbn [dataForWriting set_dataForWriting nextFrame] in H.
      unfold pending_bytes. rewrite Hd.
      destruct (canBufferStreamFrame (set_dataForWriting (Some p) s)
                && (dataForWriting_len (set_dataForWriting (Some p) s) >? 0)).
      * injection H as <- _ _.
        cbn [nextFrame dataForWriting set_dataForWriting set_nextFrame].
        split; [| intros _; reflexivity].
        destruct (nextFrame s); cbn [sf_Data]; rewrite !app_nil_r; reflexivity.
      * assert (Hl : dataForWriting_len (set_dataForWriting (Some p) s) = len p)
          by reflexivity.
        rewrite Hl in H. rewrite Z.sub_diag in H.
        destruct (deadline_passed (set_dataForWriting (Some p) s) now').
        -- exfalso.
           assert (Eo : out = Returned 0 (Some ErrDeadline)) by congruence.
           destruct Ho as [E | [k E]]; rewrite Eo in E; discriminate.
        -- destruct (negb (isSome (Some p))
                     || canceledWrite (set_dataForWriting (Some p) s)
                     || closedForShutdown (set_dataForWriting (Some p) s)).
           ++ exfalso.
              destruct (Z.eqb_spec 0 (len p)) as [E | _]; [congruence |].
              destruct (isSome (closeForShutdownErr (set_dataForWriting (Some p) s))).
              ** assert (Eo : out = Returned 0 (closeForShutdownErr
                                                  (set_dataForWriting (Some p) s)))
                   by congruence.
                 destruct Ho as [E | [k E]]; rewrite Eo in E; [| discriminate].
                 inversion E. congruence.
              ** assert (Eo : out = Returned 0 (cancelWriteErr
                                                  (set_dataForWriting (Some p) s)))
                   by congruence.
                 destruct Ho as [E | [k E]]; rewrite Eo in E; [| discriminate].
                 inversion E. congruence.
           ++ assert (Es : s' = set_dataForWriting (Some p) s) by congruence.
              assert (Eo : out = Suspended 0) by congruence.
              subst s'.
              cbn [nextFrame dataForWriting set_dataForWriting].
              split; [rewrite app_nil_r; reflexivity |].
              intros E. rewrite Eo in E. discriminate.
Qed.

Lemma Write_appends_witness :
  pending_bytes examples.written = pending_bytes examples.fresh ++ examples.xxxxx /\
  (Returned (len examples.xxxxx) None = Returned (len examples.xxxxx) None ->
   dataForWriting examples.written = None).
Proof.
  apply (Write_appends examples.fresh examples.written examples.xxxxx 0 0
           [onHasStreamData 4] (Returned (len examples.xxxxx) None)).
  - reflexivity.
  - reflexivity.
  - left. reflexivity.
Defined.

End Framing.

(* ================================================================= *)
(** * The life cycle of the send stream *)

Section Lifecycle.

Import wire flowcontrol quic invariants.

Lemma step_canceled (cfg : PRConfig) (s : sendStream) (o : op) :
  canceledWrite s = true -> ignored_when_canceled o = true ->
  step cfg s o = Ok (s, []).
Proof.
  intros Hc Ho. destruct o as [p now now' | | b | f | f rnd | | c | c | | |];
    try discriminate; cbn [step].
  - unfold Write, Write_entry. rewrite Hc.
    destruct (finishedWriting s); reflexivity.
  - unfold popStreamFrame, popNewOrRetransmittedStreamFrame. rewrite Hc.
    reflexivity.
  - destruct f; unfold frameAcked, prStreamframeAcked; rewrite Hc; reflexivity.
  - destruct f as [f | f].
    + unfold queueRetransmission. rewrite Hc. reflexivity.
    + unfold prQueueRetransmission, queueRetransmission,
        prAckNotifyQueueRetransmission.
      rewrite Hc. destruct (negb (pr_retran_enabled f rnd)); reflexivity.
  - unfold Close. rewrite Hc. destruct (closedForShutdown s); reflexivity.
  - unfold CancelWrite, cancelWriteImpl. rewrite Hc. reflexivity.
  - unfold handleStopSendingFrame, cancelWriteImpl. rewrite Hc. reflexivity.
Qed.

(** X18.  After a cancel the calls that test [canceledWrite] do nothing:
    whatever new calls of [Write], calls of [popStreamFrame],
    acknowledgements, losses, [Close], [CancelWrite] and STOP_SENDING frames
    follow, in any order, the state of the stream stays as it is and the
    sender is not called.  A [Write] that was suspended before the cancel is
    the exception: its loop buffers before it looks at [canceledWrite], so
    when it is woken with pending bytes that fit the buffer of [nextFrame] it
    moves them there and returns all bytes written, without an error. *)
Theorem canceled_stream_is_inert
    (cfg : PRConfig) (s : sendStream) (ops : list op)
    (p d : list byte) (now' : Z) :
  canceledWrite s = true ->
  (forallb ignored_when_canceled ops = true -> run cfg s ops = Ok (s, [])) /\
  (dataForWriting s = Some d -> d <> [] -> canBufferStreamFrame s = true ->
   exists f,
     sf_Data f = pending_bytes s /\
     Write_loop s p now' true
     = (set_dataForWriting None (set_nextFrame (Some f) s), [],
        Returned (len p) None) /\
     step cfg s (OpWriteWake p now')
     = Ok (set_dataForWriting None (set_nextFrame (Some f) s), [])).
Proof.
  intros Hc. split.
  - induction ops as [| o ops IH]; intros Ho; cbn [run].
    + reflexivity.
    + cbn [forallb] in Ho. apply andb_true_iff in Ho. destruct Ho as [Ho Hops].
      rewrite (step_canceled cfg s o Hc Ho). cbn [bind].
      rewrite (IH Hops). reflexivity.
  - intros Hd Hne Hb.
    assert (Hl : (dataForWriting_len s >? 0) = true).
    { unfold dataForWriting_len. rewrite Hd. apply Z.gtb_lt.
      pose proof (len_nonneg d) as H0.
      destruct (Z.eq_dec (len d) 0) as [E | E]; [| lia].
      apply len_zero_nil in E. contradiction. }
    assert (Hw : exists f,
               sf_Data f = pending_bytes s /\
               Write_loop s p now' true
               = (set_dataForWriting None (set_nextFrame (Some f) s), [],
                  Returned (len p) None)).
    { unfold Write_loop, pending_bytes. rewrite Hb, Hl, Hd. cbn [andb].
      destruct (nextFrame s) as [f0 |]; eexists; (split; [| reflexivity]);
        reflexivity. }
    destruct Hw as (f & Hf & Hw). exists f.
    split; [exact Hf |]. split; [exact Hw |].
    cbn [step]. rewrite Hw. reflexivity.
Qed.

Lemma canceled_stream_is_inert_witness :
  run examples.cfg128 examples.wide examples.canceled_while_writing
  = Ok (examples.canceled_mid_write,
        [onHasStreamData 4; signalWrite; ctxCancel; signalWrite;
         queueControlFrame (ResetStreamFrame 4 1187 7); onStreamCompleted 4]) /\
  run examples.cfg128 examples.canceled_mid_write
    [OpPopStreamFrame 1200; OpLost (AHPRStream examples.frameX) 0;
     OpAcked (AHPRStream examples.frameX); OpWrite examples.xxxxx 0 0; OpClose;
     OpCancelWrite 9]
  = Ok (examples.canceled_mid_write, []) /\
  exists f,
    sf_Data f = pending_bytes examples.canceled_mid_write /\
    Write_loop examples.canceled_mid_write examples.long_input 0 true
    = (set_dataForWriting None
         (set_nextFrame (Some f) examples.canceled_mid_write), [],
       Returned (len examples.long_input) None) /\
    step examples.cfg128 examples.canceled_mid_write
      (OpWriteWake examples.long_input 0)
    = Ok (set_dataForWriting None
            (set_nextFrame (Some f) examples.canceled_mid_write), []).
Proof.
  split; [vm_compute; reflexivity |].
  destruct (canceled_stream_is_inert examples.cfg128 examples.canceled_mid_write
              [OpPopStreamFrame 1200; OpLost (AHPRStream examples.frameX) 0;
               OpAcked (AHPRStream examples.frameX); OpWrite examples.xxxxx 0 0;
               OpClose; OpCancelWrite 9]
              examples.long_input (repeat 65 313) 0 eq_refl) as [H1 H2].
  split.
  - apply H1. reflexivity.
  - apply H2.
    + reflexivity.
    + discriminate.
    + reflexivity.
Defined.

(** X19.  Canceling drops what is in flight and completes the stream at
    once: on a stream not yet canceled, [cancelWriteImpl] records the error,
    forgets the frames outstanding and those queued for retransmission, and
    leaves the stream completed; it queues a RESET_STREAM frame whose final
    size is the write offset, and calls [onStreamCompleted] unless the stream
    was completed before.  The bytes accepted and not yet framed stay
    where they are. *)
Theorem cancel_drops_frames_and_completes
    (s s' : sendStream) (c : Z) (e : error) (evs : list event) :
  canceledWrite s = false ->
  cancelWriteImpl s c e = (s', evs) ->
  canceledWrite s' = true /\ cancelWriteErr s' = Some e /\
  numOutstandingFrames s' = 0 /\ retransmissionQueue s' = [] /\
  completed s' = true /\
  pending_bytes s' = pending_bytes s /\
  evs = [ctxCancel; signalWrite;
         queueControlFrame (ResetStreamFrame (streamID s) (writeOffset s) c)]
        ++ (if completed s then [] else [onStreamCompleted (streamID s)]).
Proof.
  intros Hc H. unfold cancelWriteImpl in H. rewrite Hc in H.
  unfold isNewlyCompleted, completion_predicate in H.
  cbn [finSent canceledWrite numOutstandingFrames retransmissionQueue completed
       set_canceled set_numOutstandingFrames set_retransmissionQueue] in H.
  rewrite orb_true_r in H.
  change (len (@nil StreamFrame) =? 0) with true in H.
  change (0 =? 0) with true in H. cbn [andb] in H.
  destruct (completed s) eqn:Ed; cbn [negb] in H;
    injection H as <- <-; repeat split; try reflexivity; exact Ed.
Qed.

Lemma cancel_drops_frames_and_completes_witness :
  canceledWrite (fst (CancelWrite examples.before_ack 7)) = true /\
  numOutstandingFrames (fst (CancelWrite examples.before_ack 7)) = 0 /\
  completed (fst (CancelWrite examples.before_ack 7)) = true.
Proof.
  destruct (cancel_drops_frames_and_completes examples.before_ack
              (fst (CancelWrite examples.before_ack 7)) 7 (ErrWriteCanceled 4 7)
              (snd (CancelWrite examples.before_ack 7)))
    as (H1 & _ & H3 & _ & H5 & _).
  - reflexivity.
  - reflexivity.
  - split; [exact H1 | split; [exact H3 | exact H5]].
Defined.

(** X20.  A hook called for a frame that is not outstanding aborts: on a
    stream that is not canceled and has no frame in flight, the
    acknowledgement and the loss of a frame, be it a STREAM or a PR_STREAM
    frame, end in the panic "numOutStandingFrames negative". *)
Theorem hook_without_outstanding_frame_panics
    (cfg : PRConfig) (s : sendStream) (f : ackhandler_Frame) (rnd : Z) :
  canceledWrite s = false ->
  numOutstandingFrames s = 0 ->
  step cfg s (OpAcked f) = Panic NegativeOutstanding /\
  step cfg s (OpLost f rnd) = Panic NegativeOutstanding.
Proof.
  intros Hc Hn.
  assert (Hs : (sub64 0 1 <? 0) = true) by reflexivity.
  split; destruct f as [f | f]; cbn [step].
  - unfold frameAcked. rewrite Hc.
    cbn [numOutstandingFrames set_numOutstandingFrames]. rewrite Hn, Hs. reflexivity.
  - unfold prStreamframeAcked. rewrite Hc.
    cbn [numOutstandingFrames set_numOutstandingFrames]. rewrite Hn, Hs. reflexivity.
  - unfold queueRetransmission. rewrite Hc.
    cbn [numOutstandingFrames set_numOutstandingFrames set_retransmissionQueue].
    rewrite Hn, Hs. reflexivity.
  - unfold prQueueRetransmission, queueRetransmission, prAckNotifyQueueRetransmission.
    rewrite Hc.
    cbn [numOutstandingFrames set_numOutstandingFrames set_retransmissionQueue
         set_prAckNotifyRetransmissionQueue].
    rewrite Hn, Hs. destruct (negb (pr_retran_enabled f rnd)); reflexivity.
Qed.

Lemma hook_without_outstanding_frame_panics_witness :
  step examples.cfg128 examples.fresh (OpAcked (AHPRStream examples.frameX))
  = Panic NegativeOutstanding /\
  step examples.cfg128 examples.fresh (OpLost (AHPRStream examples.frameX) 0)
  = Panic NegativeOutstanding.
Proof.
  apply (hook_without_outstanding_frame_panics examples.cfg128 examples.fresh
           (AHPRStream examples.frameX) 0); reflexivity.
Defined.


(** *** Losses *)

Lemma live_hook_no_panic (n : Z) :
  0 < n < 2 ^ 63 -> (sub64 n 1 <? 0) = false.
Proof.
  intros H. rewrite sub64_small by lia. apply Z.ltb_ge. lia.
Qed.

(** X21.  A loss moves one frame from flight into exactly one queue: on a
    stream that is not canceled and has frames in flight,
    [prQueueRetransmission] succeeds, takes one off [numOutstandingFrames],
    and calls [onHasStreamData]; when the frame is to be retransmitted it
    adds the frame as a STREAM frame with its length at the end of the
    retransmission queue, otherwise it adds the notification with its length
    at the end of the notification queue; the other queue and the bytes
    pending stay as they are. *)
Theorem loss_queues_one_frame
    (s : sendStream) (frame : PRStreamFrame) (rnd : Z) :
  canceledWrite s = false ->
  0 < numOutstandingFrames s < 2 ^ 63 ->
  exists s',
    prQueueRetransmission s frame rnd = Ok (s', [onHasStreamData (streamID s)]) /\
    numOutstandingFrames s' = numOutstandingFrames s - 1 /\
    pending_bytes s' = pending_bytes s /\
    if pr_retran_enabled frame rnd
    then retransmissionQueue s' = retransmissionQueue s /\
         prAckNotifyRetransmissionQueue s'
         = prAckNotifyRetransmissionQueue s
           ++ [notify_with_length (notify_frame frame)]
    else retransmissionQueue s'
         = retransmissionQueue s ++ [with_length (retransmitted_frame frame)] /\
         prAckNotifyRetransmissionQueue s' = prAckNotifyRetransmissionQueue s.
Proof.
  intros Hc Hn. pose proof (live_hook_no_panic _ Hn) as Hp.
  unfold prQueueRetransmission, queueRetransmission, prAckNotifyQueueRetransmission.
  rewrite Hc.
  cbn [numOutstandingFrames set_numOutstandingFrames set_retransmissionQueue
       set_prAckNotifyRetransmissionQueue streamID].
  rewrite Hp.
  destruct (pr_retran_enabled frame rnd); cbn [negb];
    (eexists; split; [reflexivity |]);
    cbn [numOutstandingFrames retransmissionQueue prAckNotifyRetransmissionQueue
         set_numOutstandingFrames set_retransmissionQueue
         set_prAckNotifyRetransmissionQueue];
    (split; [apply sub64_small; lia |]);
    (split; [reflexivity |]); split; reflexivity.
Qed.

Lemma loss_queues_one_frame_witness :
  exists s',
    prQueueRetransmission examples.one_in_flight examples.lost_frame 0
    = Ok (s', [onHasStreamData (streamID examples.one_in_flight)]) /\
    numOutstandingFrames s' = numOutstandingFrames examples.one_in_flight - 1 /\
    pending_bytes s' = pending_bytes examples.one_in_flight /\
    if pr_retran_enabled examples.lost_frame 0
    then retransmissionQueue s' = retransmissionQueue examples.one_in_flight /\
         prAckNotifyRetransmissionQueue s'
         = prAckNotifyRetransmissionQueue examples.one_in_flight
           ++ [notify_with_length (notify_frame examples.lost_frame)]
    else retransmissionQueue s'
         = retransmissionQueue examples.one_in_flight
           ++ [with_length (retransmitted_frame examples.lost_frame)] /\
         prAckNotifyRetransmissionQueue s'
         = prAckNotifyRetransmissionQueue examples.one_in_flight.
Proof.
  apply (loss_queues_one_frame examples.one_in_flight examples.lost_frame 0).
  - reflexivity.
  - cbn. lia.
Defined.

(** X22.  A lost frame comes back as it was: on a stream that is neither
    canceled nor shut down and has nothing else to retransmit, when the
    frame [f] is lost and the packer then asks with a budget that holds it
    (less the 9 bytes kept back when PR is enabled), [popStreamFrame] hands
    out [f] again, now with its length, and the stream is in the state it
    was in before the loss.  The flag returned is [true]. *)
Theorem lost_frame_comes_back
    (cfg : PRConfig) (s : sendStream) (f : StreamFrame) (b l : Z) :
  canceledWrite s = false ->
  closeForShutdownErr s = None ->
  retransmissionQueue s = [] ->
  0 < numOutstandingFrames s < 2 ^ 63 ->
  StreamFrame_Length (with_length f) = Ok l ->
  l <= (if PR_ENABLED cfg then sub64 b (1 + 8) else b) ->
  exists s1,
    queueRetransmission s f = Ok (s1, [onHasStreamData (streamID s)]) /\
    popStreamFrame cfg s1 b
    = Ok (Some (examples.handed_out cfg (with_length f)), true, s, []).
Proof.
  intros Hc Hs Hq Hn HL Hb. pose proof (live_hook_no_panic _ Hn) as Hp.
  unfold queueRetransmission. rewrite Hc.
  cbn [numOutstandingFrames set_numOutstandingFrames set_retransmissionQueue
       streamID].
  rewrite Hp, Hq. cbn [app].
  eexists. split; [reflexivity |].
  unfold popStreamFrame, popNewOrRetransmittedStreamFrame, maybeGetRetransmission.
  cbn [canceledWrite closeForShutdownErr retransmissionQueue
       set_numOutstandingFrames set_retransmissionQueue].
  rewrite Hc, Hs. cbn [orb isSome].
  match goal with
  | |- context [len [?x] >? 0] => change (len [x] >? 0) with true
  end.
  cbv iota.
  unfold StreamFrame_MaybeSplitOffFrame.
  fold (with_length f). rewrite HL. cbn [bind].
  assert (Hge : ((if PR_ENABLED cfg then sub64 b (1 + 8) else b) >=? l) = true).
  { apply Z.geb_le. exact Hb. }
  rewrite Hge. cbn [bind isSome orb].
  assert (Est :
    set_numOutstandingFrames
      (add64 (sub64 (numOutstandingFrames s) 1) 1)
      (set_retransmissionQueue []
         (set_numOutstandingFrames (sub64 (numOutstandingFrames s) 1)
            (set_retransmissionQueue [with_length f] s))) = s).
  { rewrite sub64_small by lia. rewrite add64_small by lia.
    replace (numOutstandingFrames s - 1 + 1) with (numOutstandingFrames s) by lia.
    destruct s. cbn in Hq. subst. reflexivity. }
  unfold examples.handed_out.
  cbn [numOutstandingFrames set_numOutstandingFrames set_retransmissionQueue].
  destruct (PR_ENABLED cfg); rewrite Est; reflexivity.
Qed.

Lemma lost_frame_comes_back_witness :
  exists s1,
    queueRetransmission examples.one_in_flight
      (mkStreamFrame 4 0 examples.xxxxx false false true)
    = Ok (s1, [onHasStreamData (streamID examples.one_in_flight)]) /\
    popStreamFrame examples.cfg128 s1 1200
    = Ok (Some (examples.handed_out examples.cfg128
                  (with_length (mkStreamFrame 4 0 examples.xxxxx false false true))),
          true, examples.one_in_flight, []).
Proof.
  apply (lost_frame_comes_back examples.cfg128 examples.one_in_flight
           (mkStreamFrame 4 0 examples.xxxxx false false true) 1200 8).
  - reflexivity.
  - reflexivity.
  - reflexivity.
  - cbn. lia.
  - reflexivity.
  - vm_compute. discriminate.
Defined.


(** *** What is never taken back *)

Ltac grows :=
  unfold only_grows;
  split; [exists []; rewrite app_nil_r; reflexivity |];
  repeat apply conj; intros; try reflexivity; try assumption.

Lemma only_grows_refl (s : sendStream) : only_grows s s.
Proof. grows. Qed.

Lemma only_grows_trans (s1 s2 s3 : sendStream) :
  only_grows s1 s2 -> only_grows s2 s3 -> only_grows s1 s3.
Proof.
  intros ([l1 Q1] & I1 & C1 & D1 & W1 & F1 & K1)
         ([l2 Q2] & I2 & C2 & D2 & W2 & F2 & K2).
  unfold only_grows.
  split; [exists (l1 ++ l2); rewrite Q2, Q1, app_assoc; reflexivity |].
  split; [congruence |].
  repeat apply conj; intros; auto.
Qed.

Lemma getDataForWriting_grows (s s' : sendStream) (f f' : StreamFrame) (m : Z)
    (evs : list event) :
  getDataForWriting s f m = Ok (f', s', evs) -> only_grows s s'.
Proof.
  unfold getDataForWriting. intros H.
  repeat split_cond H; try discriminate; apply Ok_inj in H;
    injection H as _ <- _; grows.
Qed.

Lemma popNewStreamFrameWithoutBuffer_grows (s s' : sendStream) (f f' : StreamFrame)
    (m w : Z) (more : bool) (evs : list event) :
  popNewStreamFrameWithoutBuffer s f m w = Ok (more, f', s', evs) -> only_grows s s'.
Proof.
  unfold popNewStreamFrameWithoutBuffer. intros H.
  apply bind_Ok_inv in H. destruct H as (maxDataLen & _ & H).
  destruct (maxDataLen =? 0).
  - apply Ok_inj in H. injection H as _ _ <- _. apply only_grows_refl.
  - apply bind_Ok_inv in H. destruct H as ([[f1 s1] e1] & Hg & H).
    apply Ok_inj in H. injection H as _ _ <- _.
    exact (getDataForWriting_grows _ _ _ _ _ _ Hg).
Qed.

Lemma popNewStreamFrame_grows (s s' : sendStream) (m w : Z)
    (f : option StreamFrame) (more : bool) (evs : list event) :
  popNewStreamFrame s m w = Ok (f, more, s', evs) -> only_grows s s'.
Proof.
  unfold popNewStreamFrame. intros H.
  destruct (nextFrame s) as [nf |].
  - apply bind_Ok_inv in H. destruct H as (mdl & _ & H).
    repeat split_cond H; try discriminate; apply Ok_inj in H;
      injection H as _ _ <- _; grows.
  - apply bind_Ok_inv in H. destruct H as ([[[more1 f1] s1] e1] & Hp & H).
    apply popNewStreamFrameWithoutBuffer_grows in Hp.
    split_cond H; apply Ok_inj in H; injection H as _ _ <- _; exact Hp.
Qed.

Lemma maybeGetRetransmission_grows (s s' : sendStream) (m : Z)
    (f : option StreamFrame) (more : bool) :
  maybeGetRetransmission s m = Ok (f, more, s') -> only_grows s s'.
Proof.
  unfold maybeGetRetransmission. intros H.
  destruct (retransmissionQueue s) as [| f0 rest]; [discriminate |].
  apply bind_Ok_inv in H. destruct H as ([[nf ns] f1] & _ & H).
  destruct ns; apply Ok_inj in H; injection H as _ _ <-; grows.
Qed.

Lemma popNewData_grows (s s' : sendStream) (m : Z)
    (f : option StreamFrame) (more : bool) (evs : list event) :
  popNewData s m = Ok (f, more, s', evs) -> only_grows s s'.
Proof.
  unfold popNewData. intros H.
  destruct ((dataForWriting_len s =? 0) && negb (isSome (nextFrame s))).
  - split_cond H; apply Ok_inj in H; injection H as _ _ <- _; grows.
  - destruct (SendWindowSize (flowController s) =? 0).
    + destruct (IsNewlyBlocked (flowController s)) as [[isBlocked offset] fc].
      destruct isBlocked; apply Ok_inj in H; injection H as _ _ <- _; grows.
    + apply bind_Ok_inv in H. destruct H as ([[[f1 more1] s1] e1] & Hp & H).
      apply popNewStreamFrame_grows in Hp.
      destruct f1 as [f1 |]; [| discriminate].
      apply Ok_inj in H. injection H as _ _ <- _.
      apply (only_grows_trans _ _ _ Hp).
      destruct (StreamFrame_DataLen f1 >? 0);
        match goal with
        | |- only_grows _ (if ?c then _ else _) => destruct c; grows
        end.
Qed.

Lemma popNewOrRetransmittedStreamFrame_grows (s s' : sendStream) (m : Z)
    (f : option StreamFrame) (more : bool) (evs : list event) :
  popNewOrRetransmittedStreamFrame s m = Ok (f, more, s', evs) -> only_grows s s'.
Proof.
  unfold popNewOrRetransmittedStreamFrame. intros H.
  destruct (canceledWrite s || isSome (closeForShutdownErr s)).
  - apply Ok_inj in H. injection H as _ _ <- _. apply only_grows_refl.
  - destruct (len (retransmissionQueue s) >? 0).
    + apply bind_Ok_inv in H. destruct H as ([[f1 more1] s1] & Hm & H).
      apply maybeGetRetransmission_grows in Hm.
      destruct (isSome f1 || more1).
      * destruct f1; apply Ok_inj in H; injection H as _ _ <- _; exact Hm.
      * apply popNewData_grows in H. exact (only_grows_trans _ _ _ Hm H).
    + exact (popNewData_grows _ _ _ _ _ _ H).
Qed.

Lemma popStreamFrame_grows (cfg : PRConfig) (s s' : sendStream) (m : Z)
    (f : option ackhandler_Frame) (more : bool) (evs : list event) :
  popStreamFrame cfg s m = Ok (f, more, s', evs) -> only_grows s s'.
Proof.
  unfold popStreamFrame. intros H.
  apply bind_Ok_inv in H. destruct H as ([[[f1 more1] s1] e1] & Hp & H).
  apply popNewOrRetransmittedStreamFrame_grows in Hp.
  apply (only_grows_trans _ _ _ Hp).
  destruct f1 as [f1 |].
  - destruct (PR_ENABLED cfg); apply Ok_inj in H; injection H as _ _ <- _; grows.
  - apply Ok_inj in H. injection H as _ _ <- _. apply only_grows_refl.
Qed.

Lemma Write_loop_grows (s s' : sendStream) (p : list byte) (now' : Z)
    (notified : bool) (evs : list event) (out : WriteOutcome) :
  Write_loop s p now' notified = (s', evs, out) -> only_grows s s'.
Proof.
  unfold Write_loop. intros H.
  repeat split_cond H; injection H as <- _ _; grows.
Qed.

Lemma Write_grows (s s' : sendStream) (p : list byte) (now now' : Z)
    (evs : list event) (out : WriteOutcome) :
  Write s p now now' = (s', evs, out) -> only_grows s s'.
Proof.
  unfold Write. intros H.
  destruct (Write_entry s now) as [[n err] |].
  - injection H as <- _ _. apply only_grows_refl.
  - destruct (len p =? 0).
    + injection H as <- _ _. apply only_grows_refl.
    + apply Write_loop_grows in H.
      refine (only_grows_trans _ _ _ _ H). grows.
Qed.

Lemma acked_grows (s s' : sendStream) (evs : list event) :
  frameAcked s = Ok (s', evs) -> only_grows s s'.
Proof.
  unfold frameAcked, isNewlyCompleted. intros H.
  repeat split_cond H; try discriminate; apply Ok_inj in H;
    injection H as <- _; grows.
Qed.

Lemma queueRetransmission_grows (s s' : sendStream) (f : StreamFrame)
    (evs : list event) :
  queueRetransmission s f = Ok (s', evs) -> only_grows s s'.
Proof.
  unfold queueRetransmission. intros H.
  repeat split_cond H; try discriminate; apply Ok_inj in H;
    injection H as <- _; grows.
Qed.

Lemma prAckNotifyQueueRetransmission_grows (s s' : sendStream)
    (f : PRAckNotifyFrame) (evs : list event) :
  prAckNotifyQueueRetransmission s f = Ok (s', evs) -> only_grows s s'.
Proof.
  unfold prAckNotifyQueueRetransmission. intros H.
  repeat split_cond H; try discriminate; apply Ok_inj in H;
    injection H as <- _; [grows |].
  unfold only_grows.
  split; [eexists; reflexivity |].
  repeat apply conj; intros; try reflexivity; assumption.
Qed.

Lemma cancelWriteImpl_grows (s s' : sendStream) (c : Z) (e : error)
    (evs : list event) :
  cancelWriteImpl s c e = (s', evs) -> only_grows s s'.
Proof.
  unfold cancelWriteImpl, isNewlyCompleted. intros H.
  repeat split_cond H; injection H as <- _; grows.
Qed.

Lemma step_grows (cfg : PRConfig) (s s' : sendStream) (o : op) (evs : list event) :
  step cfg s o = Ok (s', evs) -> only_grows s s'.
Proof.
  destruct o as [p now now' | p now' | b | f | f rnd | | c | c | e | l | t];
    cbn [step]; intros H.
  - destruct (Write s p now now') as [[s1 e1] out] eqn:E.
    apply Ok_inj in H. injection H as <- _. exact (Write_grows _ _ _ _ _ _ _ E).
  - destruct (Write_loop s p now' true) as [[s1 e1] out] eqn:E.
    apply Ok_inj in H. injection H as <- _. exact (Write_loop_grows _ _ _ _ _ _ _ E).
  - apply bind_Ok_inv in H. destruct H as ([[[f1 more1] s1] e1] & Hp & H).
    apply Ok_inj in H. injection H as <- _.
    exact (popStreamFrame_grows _ _ _ _ _ _ _ Hp).
  - destruct f; exact (acked_grows _ _ _ H).
  - destruct f as [f | f].
    + exact (queueRetransmission_grows _ _ _ _ H).
    + unfold prQueueRetransmission in H.
      destruct (negb (pr_retran_enabled f rnd)).
      * exact (queueRetransmission_grows _ _ _ _ H).
      * exact (prAckNotifyQueueRetransmission_grows _ _ _ _ H).
  - unfold Close in H.
    repeat split_cond H; apply Ok_inj in H; injection H as <- _; grows.
  - apply Ok_inj in H. unfold CancelWrite in H.
    destruct (cancelWriteImpl s c (ErrWriteCanceled (streamID s) c)) as [s1 e1] eqn:E.
    injection H as <- _. exact (cancelWriteImpl_grows _ _ _ _ _ E).
  - apply Ok_inj in H. unfold handleStopSendingFrame in H.
    destruct (cancelWriteImpl s c (StreamError (streamID s) c)) as [s1 e1] eqn:E.
    injection H as <- _. exact (cancelWriteImpl_grows _ _ _ _ _ E).
  - apply Ok_inj in H. injection H as <- _. grows.
  - apply Ok_inj in H. injection H as <- _. grows.
  - apply Ok_inj in H. injection H as <- _. grows.
Qed.

(** X23.  Nothing is taken back: along any run of operations the stream
    keeps its id, a flag among [canceledWrite], [closedForShutdown],
    [finishedWriting], [finSent] and [completed] that is set stays set, and
    the queue of PR_ACK_NOTIFY frames is only ever added to at its end: no
    operation of the stream, [popStreamFrame] and [CancelWrite] included,
    takes a notification out of it. *)
Theorem nothing_is_taken_back
    (cfg : PRConfig) (ops : list op) (s s' : sendStream) (evs : list event) :
  run cfg s ops = Ok (s', evs) -> only_grows s s'.
Proof.
  revert s s' evs. induction ops as [| o ops IH]; intros s s' evs H; cbn [run] in H.
  - apply Ok_inj in H. injection H as <- _. apply only_grows_refl.
  - apply bind_Ok_inv in H. destruct H as ([s1 e1] & Hs & H).
    apply bind_Ok_inv in H. destruct H as ([s2 e2] & Hr & H).
    apply Ok_inj in H. injection H as <- _.
    exact (only_grows_trans _ _ _ (step_grows _ _ _ _ _ Hs) (IH _ _ _ Hr)).
Qed.

Lemma nothing_is_taken_back_witness :
  only_grows examples.fresh examples.before_ack.
Proof.
  apply (nothing_is_taken_back examples.cfg128 examples.scenario examples.fresh
           examples.before_ack examples.scenario_events).
  reflexivity.
Defined.


(** *** The FIN *)

Lemma popNewData_fin (s s' : sendStream) (m : Z) (fr : StreamFrame)
    (more : bool) (evs : list event) :
  well_formed s ->
  popNewData s m = Ok (Some fr, more, s', evs) ->
  sf_Fin fr = finishedWriting s && negb (isSome (dataForWriting s'))
              && negb (isSome (nextFrame s')).
Proof.
  intros Hwf H. pose proof Hwf as (Hw & Hk & Hn & Hj).
  unfold popNewData in H.
  destruct ((dataForWriting_len s =? 0) && negb (isSome (nextFrame s))) eqn:Ec.
  - apply andb_true_iff in Ec. destruct Ec as [Ed En].
    apply Z.eqb_eq in Ed. apply negb_true_iff, isSome_false in En.
    pose proof (pending_none s Hk Ed) as Ed'.
    destruct (finishedWriting s && negb (finSent s)) eqn:Ef.
    + apply andb_true_iff in Ef. destruct Ef as [Ef1 _].
      apply Ok_inj in H. injection H as <- _ <- _.
      cbn [sf_Fin dataForWriting nextFrame set_finSent].
      rewrite Ef1, Ed', En. reflexivity.
    + apply Ok_inj in H. discriminate.
  - destruct (SendWindowSize (flowController s) =? 0).
    + destruct (IsNewlyBlocked (flowController s)) as [[isBlocked offset] fc].
      destruct isBlocked; apply Ok_inj in H; discriminate.
    + assert (Hfs : finSent s = false).
      { destruct (finSent s) eqn:E; [| reflexivity].
        destruct (Hj eq_refl) as (_ & Hd0 & Hn0).
        unfold dataForWriting_len in Ec. rewrite Hd0, Hn0 in Ec. discriminate. }
      apply bind_Ok_inv in H. destruct H as ([[[f1 more1] s1] e1] & Hp & H).
      apply (popNewStreamFrame_spec _ _ _ _ _ _ _ Hwf) in Hp.
      destruct Hp as (Hsame & _ & _).
      apply same_but_pending_fields in Hsame.
      destruct Hsame as (Hctl & _ & Hfin & _).
      destruct Hctl as (_ & _ & _ & _ & _ & _ & _ & Hfw & _).
      destruct f1 as [f1 |]; [| discriminate].
      apply Ok_inj in H. injection H as <- _ <- _.
      cbn [sf_Fin].
      assert (E : forall t : sendStream,
                 (t = s1 \/
                  t = set_flowController
                        (AddBytesSent (flowController s1) (StreamFrame_DataLen f1))
                        (set_writeOffset
                           (add64 (writeOffset s1) (StreamFrame_DataLen f1)) s1)) ->
                 finishedWriting t && negb (isSome (dataForWriting t))
                 && negb (isSome (nextFrame t)) && negb (finSent t)
                 = finishedWriting s
                   && negb (isSome (dataForWriting
                        (if finishedWriting t && negb (isSome (dataForWriting t))
                            && negb (isSome (nextFrame t)) && negb (finSent t)
                         then set_finSent true t else t)))
                   && negb (isSome (nextFrame
                        (if finishedWriting t && negb (isSome (dataForWriting t))
                            && negb (isSome (nextFrame t)) && negb (finSent t)
                         then set_finSent true t else t)))).
      { intros t [-> | ->];
          cbn [finishedWriting dataForWriting nextFrame finSent
               set_flowController set_writeOffset];
          rewrite Hfw, Hfin, Hfs; cbn [negb]; rewrite andb_true_r;
          match goal with
          | |- context [if ?c then _ else _] => destruct c eqn:Ef
          end; cbn [dataForWriting nextFrame set_finSent]; symmetry; exact Ef. }
      destruct (StreamFrame_DataLen f1 >? 0); apply E; [right | left]; reflexivity.
Qed.

(** X24.  The FIN travels with the last bytes: in a state reached from a
    new stream with nothing to retransmit, the frame handed out by
    [popStreamFrame] carries the FIN exactly when the stream has been closed
    for writing and the call leaves no byte behind, neither in
    [dataForWriting] nor in [nextFrame]. *)
Theorem fin_with_last_bytes
    (cfg : PRConfig) (sid : Z) (fc : StreamFlowController) (ops : list op)
    (s : sendStream) (evs : list event)
    (b : Z) (f : ackhandler_Frame) (more : bool) (s' : sendStream)
    (evs' : list event) :
  pops ops < 2 ^ 63 ->
  run cfg (newSendStream sid fc) ops = Ok (s, evs) ->
  retransmissionQueue s = [] ->
  popStreamFrame cfg s b = Ok (Some f, more, s', evs') ->
  sf_Fin (as_stream f)
  = finishedWriting s && negb (isSome (dataForWriting s'))
    && negb (isSome (nextFrame s')).
Proof.
  intros Hp Hr Hq H.
  destruct (run_invariant cfg ops (newSendStream sid fc) s evs 0
              (newSendStream_well_formed sid fc)) as (W & _ & _);
    [cbn; lia | lia | exact Hr |].
  unfold popStreamFrame in H.
  apply bind_Ok_inv in H. destruct H as ([[[f1 more1] s1] e1] & Hn & H).
  unfold popNewOrRetransmittedStreamFrame in Hn.
  rewrite Hq in Hn. change (len (@nil StreamFrame) >? 0) with false in Hn.
  destruct (canceledWrite s || isSome (closeForShutdownErr s)).
  - apply Ok_inj in Hn. injection Hn as <- _ _ _. apply Ok_inj in H. discriminate.
  - destruct f1 as [fr |]; [| apply Ok_inj in H; discriminate].
    apply (popNewData_fin _ _ _ _ _ _ W) in Hn.
    destruct (PR_ENABLED cfg); apply Ok_inj in H; injection H as <- _ <- _;
      exact Hn.
Qed.

Lemma fin_with_last_bytes_witness :
  sf_Fin (as_stream (AHPRStream examples.frameFin))
  = finishedWriting (set_finishedWriting true examples.one_in_flight)
    && negb (isSome (dataForWriting
                       (set_numOutstandingFrames 2
                          (set_finSent true
                             (set_finishedWriting true examples.one_in_flight)))))
    && negb (isSome (nextFrame
                       (set_numOutstandingFrames 2
                          (set_finSent true
                             (set_finishedWriting true examples.one_in_flight))))).
Proof.
  apply (fin_with_last_bytes examples.cfg128 4 (mkFC 0 1000 0)
           [OpWrite examples.xxxxx 0 0; OpPopStreamFrame 1200; OpClose]
           (set_finishedWriting true examples.one_in_flight)
           [onHasStreamData 4; signalWrite; ctxCancel; onHasStreamData 4]
           1200 (AHPRStream examples.frameFin) false
           (set_numOutstandingFrames 2
              (set_finSent true (set_finishedWriting true examples.one_in_flight)))
           []).
  - vm_compute. reflexivity.
  - reflexivity.
  - reflexivity.
  - reflexivity.
Defined.


(** *** Shutdown *)

(** X25.  A shutdown with an error silences the stream: after
    [closeForShutdown] with a non-nil error, on any stream, [popStreamFrame]
    hands out nothing and reports no more data, whatever is pending, queued
    for retransmission or still to be closed with a FIN, and [Close] returns
    nil without closing the stream for writing; and if the stream was
    neither closed for writing nor canceled, [Write] returns the error of the
    shutdown with no byte written. *)
Theorem shutdown_with_error_silences_stream
    (cfg : PRConfig) (s : sendStream) (e : error) (b : Z) (p : list byte)
    (now now' : Z) :
  popStreamFrame cfg (fst (closeForShutdown s (Some e))) b
  = Ok (None, false, fst (closeForShutdown s (Some e)), []) /\
  Close (fst (closeForShutdown s (Some e)))
  = (fst (closeForShutdown s (Some e)), [], None) /\
  (finishedWriting s = false ->
   canceledWrite s = false ->
   Write (fst (closeForShutdown s (Some e))) p now now'
   = (fst (closeForShutdown s (Some e)), [], Returned 0 (Some e))).
Proof.
  cbn [closeForShutdown fst].
  split; [| split].
  - unfold popStreamFrame, popNewOrRetransmittedStreamFrame.
    cbn [canceledWrite closeForShutdownErr set_closedForShutdown isSome].
    rewrite orb_true_r. reflexivity.
  - reflexivity.
  - intros Hf Hc. unfold Write, Write_entry.
    cbn [finishedWriting canceledWrite closeForShutdownErr set_closedForShutdown
         isSome].
    rewrite Hf, Hc. reflexivity.
Qed.

Lemma shutdown_with_error_silences_stream_witness :
  popStreamFrame examples.cfg128
    (fst (closeForShutdown examples.written (Some (ErrOther 1)))) 1200
  = Ok (None, false, fst (closeForShutdown examples.written (Some (ErrOther 1))), []) /\
  Close (fst (closeForShutdown examples.written (Some (ErrOther 1))))
  = (fst (closeForShutdown examples.written (Some (ErrOther 1))), [], None) /\
  Write (fst (closeForShutdown examples.written (Some (ErrOther 1))))
    examples.xxxxx 0 0
  = (fst (closeForShutdown examples.written (Some (ErrOther 1))), [],
     Returned 0 (Some (ErrOther 1))).
Proof.
  destruct (shutdown_with_error_silences_stream examples.cfg128 examples.written
              (ErrOther 1) 1200 examples.xxxxx 0 0) as (H1 & H2 & H3).
  split; [exact H1 | split; [exact H2 |]].
  apply H3; reflexivity.
Defined.

End Lifecycle.

(* ================================================================= *)
(** * Frames from the pool *)

Section Pool.

Import wire flowcontrol quic invariants.

Ltac fields :=
  cbn [numOutstandingFrames retransmissionQueue prAckNotifyRetransmissionQueue
       streamID writeOffset cancelWriteErr closeForShutdownErr closedForShutdown
       finishedWriting canceledWrite finSent completed dataForWriting nextFrame
       deadline flowController
       set_numOutstandingFrames set_retransmissionQueue
       set_prAckNotifyRetransmissionQueue set_writeOffset set_canceled
       set_closedForShutdown set_finishedWriting set_finSent set_completed
       set_dataForWriting set_nextFrame set_deadline set_flowController
       sf_StreamID sf_Offset sf_Data sf_Fin sf_DataLenPresent sf_fromPool
       refin with_buffered_fin option_map isSome fst snd bind agree].

Lemma same_but_buffered_fin_refl (s : sendStream) : same_but_buffered_fin s s.
Proof. reflexivity. Qed.

Lemma same_but_buffered_fin_sym (s t : sendStream) :
  same_but_buffered_fin s t -> same_but_buffered_fin t s.
Proof. unfold same_but_buffered_fin. intros H. symmetry. exact H. Qed.

Lemma same_but_buffered_fin_trans (s t u : sendStream) :
  same_but_buffered_fin s t -> same_but_buffered_fin t u ->
  same_but_buffered_fin s u.
Proof. unfold same_but_buffered_fin. intros H1 H2. congruence. Qed.

Lemma with_buffered_fin_same (b : bool) (s : sendStream) :
  same_but_buffered_fin s (with_buffered_fin b s).
Proof.
  unfold same_but_buffered_fin. destruct s as [? ? ? ? ? ? ? ? ? ? ? ? ? nf ? ?].
  destruct nf as [f |]; reflexivity.
Qed.

Lemma same_but_buffered_fin_inv (s t : sendStream) :
  same_but_buffered_fin s t -> exists b, t = with_buffered_fin b s.
Proof.
  unfold same_but_buffered_fin.
  destruct s as [? ? ? ? ? ? ? ? ? ? ? ? ? nf ? ?].
  destruct t as [? ? ? ? ? ? ? ? ? ? ? ? ? nf' ? ?].
  unfold with_buffered_fin. fields. intros H.
  injection H as -> -> -> -> -> -> -> -> -> -> -> -> -> Hn -> ->.
  destruct nf as [f |], nf' as [g |]; cbn [option_map] in Hn; try discriminate.
  - exists (sf_Fin g). destruct f, g. unfold refin in *. cbn in *.
    injection Hn as -> -> -> -> ->. reflexivity.
  - exists false. reflexivity.
Qed.

Lemma agree_refl {A : Type} (R : A -> A -> Prop) (x : result A) :
  (forall a, R a a) -> agree R x x.
Proof. intros H. destruct x; cbn; [apply H | reflexivity | reflexivity]. Qed.


Lemma same_run_refl (x : sendStream * list event) : same_run x x.
Proof. split; reflexivity. Qed.

Lemma MaxDataLen_refin (b : bool) (f : StreamFrame) (m : Z) :
  StreamFrame_MaxDataLen (refin b f) m = StreamFrame_MaxDataLen f m.
Proof. reflexivity. Qed.

Lemma DataLen_refin (b : bool) (f : StreamFrame) :
  StreamFrame_DataLen (refin b f) = StreamFrame_DataLen f.
Proof. reflexivity. Qed.

Ltac cases :=
  repeat match goal with
         | |- context [if ?c then _ else _] => destruct c eqn:?
         | |- context [match ?x with (_, _) => _ end] => destruct x eqn:?
         | |- context [match ?x with Ok _ => _ | Err _ => _ | Panic _ => _ end] =>
           destruct x eqn:?
         | |- context [match ?x with Some _ => _ | None => _ end] =>
           destruct x eqn:?
         end.

Lemma Write_loop_buffered_fin (b : bool) (s : sendStream) (p : list byte)
    (now' : Z) (n : bool) :
  same_but_buffered_fin (fst (fst (Write_loop s p now' n)))
    (fst (fst (Write_loop (with_buffered_fin b s) p now' n))) /\
  snd (fst (Write_loop s p now' n))
  = snd (fst (Write_loop (with_buffered_fin b s) p now' n)) /\
  snd (Write_loop s p now' n) = snd (Write_loop (with_buffered_fin b s) p now' n).
Proof.
  destruct s as [? ? ? ? ? ? ? ? ? ? ? ? dw nf ? ?].
  destruct nf as [f |]; [| repeat split; reflexivity].
  unfold Write_loop, canBufferStreamFrame, dataForWriting_len, deadline_passed.
  fields. rewrite DataLen_refin.
  cases; fields; repeat split; reflexivity.
Qed.


Lemma Write_buffered_fin (b : bool) (s : sendStream) (p : list byte) (now now' : Z) :
  same_but_buffered_fin (fst (fst (Write s p now now')))
    (fst (fst (Write (with_buffered_fin b s) p now now'))) /\
  snd (fst (Write s p now now'))
  = snd (fst (Write (with_buffered_fin b s) p now now')) /\
  snd (Write s p now now') = snd (Write (with_buffered_fin b s) p now now').
Proof.
  unfold Write.
  change (Write_entry (with_buffered_fin b s) now) with (Write_entry s now).
  destruct (Write_entry s now) as [[n err] |].
  - repeat split; try reflexivity. apply with_buffered_fin_same.
  - destruct (len p =? 0).
    + repeat split; try reflexivity. apply with_buffered_fin_same.
    + exact (Write_loop_buffered_fin b (set_dataForWriting (Some p) s) p now' false).
Qed.

Lemma popNewData_buffered_fin (b : bool) (s : sendStream) (m : Z) :
  agree (fun x y => fst (fst (fst x)) = fst (fst (fst y)) /\
                    snd (fst (fst x)) = snd (fst (fst y)) /\
                    snd x = snd y /\
                    same_but_buffered_fin (snd (fst x)) (snd (fst y)))
    (popNewData s m) (popNewData (with_buffered_fin b s) m).
Proof.
  destruct s as [? ? ? ? ? ? ? ? ? ? ? ? dw nf ? fc].
  destruct nf as [f |];
    [| apply agree_refl; intros a; repeat split; reflexivity].
  unfold popNewData, popNewStreamFrame, dataForWriting_len.
  fields. rewrite MaxDataLen_refin, DataLen_refin.
  rewrite !andb_false_r.
  destruct (SendWindowSize fc =? 0).
  - destruct (IsNewlyBlocked fc) as [[isBlocked offset] fc'].
    destruct isBlocked; fields; repeat split; reflexivity.
  - destruct (StreamFrame_MaxDataLen f m) as [mdl | e | pn]; fields;
      [| reflexivity | reflexivity].
    cases; fields; repeat split; reflexivity.
Qed.


Lemma popStreamFrame_buffered_fin (cfg : PRConfig) (b : bool) (s : sendStream)
    (m : Z) :
  agree same_pop (popStreamFrame cfg s m)
    (popStreamFrame cfg (with_buffered_fin b s) m).
Proof.
  unfold popStreamFrame, popNewOrRetransmittedStreamFrame.
  set (m' := if PR_ENABLED cfg then sub64 m (1 + 8) else m).
  change (canceledWrite (with_buffered_fin b s)) with (canceledWrite s).
  change (closeForShutdownErr (with_buffered_fin b s)) with (closeForShutdownErr s).
  change (retransmissionQueue (with_buffered_fin b s)) with (retransmissionQueue s).
  destruct (canceledWrite s || isSome (closeForShutdownErr s)).
  - fields. unfold same_pop. fields.
    repeat split; try reflexivity. apply with_buffered_fin_same.
  - assert (Hnew : forall t : sendStream,
               agree same_pop
                 ('(f, hasMoreData, s0, evs) <- popNewData t m' ;;
                  match f with
                  | Some f0 =>
                    if PR_ENABLED cfg
                    then Ok (Some (AHPRStream (toPRStreamFrame cfg f0)), hasMoreData,
                             set_numOutstandingFrames
                               (add64 (numOutstandingFrames s0) 1) s0, evs)
                    else Ok (Some (AHStream f0), hasMoreData,
                             set_numOutstandingFrames
                               (add64 (numOutstandingFrames s0) 1) s0, evs)
                  | None => Ok (None, hasMoreData, s0, evs)
                  end)
                 ('(f, hasMoreData, s0, evs) <-
                    popNewData (with_buffered_fin b t) m' ;;
                  match f with
                  | Some f0 =>
                    if PR_ENABLED cfg
                    then Ok (Some (AHPRStream (toPRStreamFrame cfg f0)), hasMoreData,
                             set_numOutstandingFrames
                               (add64 (numOutstandingFrames s0) 1) s0, evs)
                    else Ok (Some (AHStream f0), hasMoreData,
                             set_numOutstandingFrames
                               (add64 (numOutstandingFrames s0) 1) s0, evs)
                  | None => Ok (None, hasMoreData, s0, evs)
                  end)).
    { intros t. pose proof (popNewData_buffered_fin b t m') as H.
      destruct (popNewData t m') as [[[[f1 more1] s1] e1] | |];
        destruct (popNewData (with_buffered_fin b t) m')
          as [[[[f2 more2] s2] e2] | |];
        cbn [agree bind fst snd] in *; try contradiction; try exact H.
      destruct H as (-> & -> & -> & Hs).
      apply same_but_buffered_fin_inv in Hs. destruct Hs as [b' ->].
      destruct f2 as [f2 |]; [destruct (PR_ENABLED cfg) |];
        unfold same_pop; fields; repeat split; try reflexivity;
        apply (with_buffered_fin_same b'). }
    destruct (len (retransmissionQueue s) >? 0).
    + unfold maybeGetRetransmission.
      change (retransmissionQueue (with_buffered_fin b s))
        with (retransmissionQueue s).
      destruct (retransmissionQueue s) as [| f0 rest];
        [cbn [bind agree]; reflexivity |].
      destruct (StreamFrame_MaybeSplitOffFrame f0 m') as [[[nf ns] f1] | e | pn];
        cbn [bind agree]; [| reflexivity | reflexivity].
      destruct ns; cbn [bind].
      * cbn [orb]. rewrite orb_true_r.
        destruct nf as [nf |]; [destruct (PR_ENABLED cfg) |];
          unfold same_pop; cbn [agree fst snd]; repeat split; try reflexivity;
          apply (with_buffered_fin_same b).
      * cbn [isSome orb].
        destruct (PR_ENABLED cfg);
          unfold same_pop; cbn [agree fst snd]; repeat split; try reflexivity;
          apply (with_buffered_fin_same b).
    + apply Hnew.
Qed.


Lemma step_buffered_fin (cfg : PRConfig) (b : bool) (s : sendStream) (o : op) :
  agree same_run (step cfg s o) (step cfg (with_buffered_fin b s) o).
Proof.
  destruct o as [p now now' | p now' | m | f | f rnd | | c | c | e | l | t];
    cbn [step].
  - pose proof (Write_buffered_fin b s p now now') as (Hs & He & _).
    destruct (Write s p now now') as [[s1 e1] o1].
    destruct (Write (with_buffered_fin b s) p now now') as [[s2 e2] o2].
    cbn [agree fst snd] in *. split; assumption.
  - pose proof (Write_loop_buffered_fin b s p now' true) as (Hs & He & _).
    destruct (Write_loop s p now' true) as [[s1 e1] o1].
    destruct (Write_loop (with_buffered_fin b s) p now' true) as [[s2 e2] o2].
    cbn [agree fst snd] in *. split; assumption.
  - pose proof (popStreamFrame_buffered_fin cfg b s m) as H.
    destruct (popStreamFrame cfg s m) as [[[[f1 more1] s1] e1] | |];
      destruct (popStreamFrame cfg (with_buffered_fin b s) m)
        as [[[[f2 more2] s2] e2] | |];
      cbn [agree bind] in *; try contradiction; try exact H.
    destruct H as (_ & _ & He & Hs). split; assumption.
  - destruct f; unfold frameAcked, prStreamframeAcked, isNewlyCompleted,
      completion_predicate;
      change (canceledWrite (with_buffered_fin b s)) with (canceledWrite s);
      fields; cases; fields; try reflexivity;
      (split; [reflexivity |]); apply (with_buffered_fin_same b).
  - destruct f; unfold prQueueRetransmission, queueRetransmission,
      prAckNotifyQueueRetransmission;
      change (canceledWrite (with_buffered_fin b s)) with (canceledWrite s);
      fields; cases; fields; try reflexivity;
      (split; [reflexivity |]); apply (with_buffered_fin_same b).
  - unfold Close.
    change (canceledWrite (with_buffered_fin b s)) with (canceledWrite s).
    change (closedForShutdown (with_buffered_fin b s)) with (closedForShutdown s).
    cases; fields; (split; [reflexivity |]); apply (with_buffered_fin_same b).
  - unfold CancelWrite, cancelWriteImpl, isNewlyCompleted, completion_predicate.
    change (canceledWrite (with_buffered_fin b s)) with (canceledWrite s).
    fields. cases; fields; (split; [reflexivity |]);
      apply (with_buffered_fin_same b).
  - unfold handleStopSendingFrame, cancelWriteImpl, isNewlyCompleted,
      completion_predicate.
    change (canceledWrite (with_buffered_fin b s)) with (canceledWrite s).
    fields. cases; fields; (split; [reflexivity |]);
      apply (with_buffered_fin_same b).
  - unfold closeForShutdown. fields. split; [reflexivity |].
    apply (with_buffered_fin_same b).
  - unfold updateSendWindow. fields.
    split; [| apply (with_buffered_fin_same b)].
    fields. destruct (nextFrame s); reflexivity.
  - unfold SetWriteDeadline. fields. split; [reflexivity |].
    apply (with_buffered_fin_same b).
Qed.

Lemma run_buffered_fin (cfg : PRConfig) (ops : list op) :
  forall s t : sendStream,
    same_but_buffered_fin s t -> agree same_run (run cfg s ops) (run cfg t ops).
Proof.
  induction ops as [| o ops IH]; intros s t H; cbn [run].
  - cbn [agree]. split; [reflexivity | exact H].
  - apply same_but_buffered_fin_inv in H. destruct H as [b ->].
    pose proof (step_buffered_fin cfg b s o) as Hs.
    destruct (step cfg s o) as [[s1 e1] | |];
      destruct (step cfg (with_buffered_fin b s) o) as [[s2 e2] | |];
      cbn [agree bind] in *; try contradiction; try exact Hs.
    destruct Hs as [He Hs]. cbn [fst snd] in He, Hs. subst e2.
    pose proof (IH s1 s2 Hs) as Hr.
    destruct (run cfg s1 ops) as [[s3 e3] | |];
      destruct (run cfg s2 ops) as [[s4 e4] | |];
      cbn [agree bind] in *; try contradiction; try exact Hr.
    destruct Hr as [He Hr]. cbn [fst snd] in He, Hr. subst e4.
    split; [reflexivity | exact Hr].
Qed.

Lemma run_recycling_buffered_fin (cfg : PRConfig) (ops : list (op * bool)) :
  forall s t : sendStream,
    same_but_buffered_fin s t ->
    agree same_run (run cfg s (map fst ops)) (run_recycling cfg t ops).
Proof.
  induction ops as [| [o b'] ops IH]; intros s t H; cbn [run run_recycling map fst].
  - cbn [agree]. split; [reflexivity | exact H].
  - apply same_but_buffered_fin_inv in H. destruct H as [b ->].
    pose proof (step_buffered_fin cfg b s o) as Hs.
    destruct (step cfg s o) as [[s1 e1] | |];
      destruct (step cfg (with_buffered_fin b s) o) as [[s2 e2] | |];
      cbn [agree bind] in *; try contradiction; try exact Hs.
    destruct Hs as [He Hs]. cbn [fst snd] in He, Hs. subst e2.
    pose proof (IH s1 (with_buffered_fin b' s2)
                  (same_but_buffered_fin_trans _ _ _ Hs
                     (with_buffered_fin_same b' s2))) as Hr.
    destruct (run cfg s1 (map fst ops)) as [[s3 e3] | |];
      destruct (run_recycling cfg (with_buffered_fin b' s2) ops)
        as [[s4 e4] | |];
      cbn [agree bind] in *; try contradiction; try exact Hr.
    destruct Hr as [He Hr]. cbn [fst snd] in He, Hr. subst e4.
    split; [reflexivity | exact Hr].
Qed.

(** X26.  The FIN flag stored in [nextFrame] is never looked at.  Two streams
    that differ at most in that flag behave alike: any run of operations ends
    for both in the same panic, or makes the same calls on the sender and
    leaves states that again differ at most in that flag; this is so even
    when the pool hands out, for the frame that buffers the tail of a write,
    frames that still have the FIN of an earlier use; [popStreamFrame] hands
    out the same frame with the same flag for both; and [Write] returns the
    same to both. *)
Theorem buffered_fin_is_dead
    (cfg : PRConfig) (s t : sendStream) (ops : list (op * bool)) (m : Z)
    (p : list byte) (now now' : Z) :
  same_but_buffered_fin s t ->
  agree same_run (run cfg s (map fst ops)) (run cfg t (map fst ops)) /\
  agree same_run (run cfg s (map fst ops)) (run_recycling cfg t ops) /\
  agree same_pop (popStreamFrame cfg s m) (popStreamFrame cfg t m) /\
  snd (Write s p now now') = snd (Write t p now now').
Proof.
  intros H. split; [exact (run_buffered_fin cfg (map fst ops) s t H) |].
  split; [exact (run_recycling_buffered_fin cfg ops s t H) |].
  apply same_but_buffered_fin_inv in H. destruct H as [b ->].
  split; [apply popStreamFrame_buffered_fin |].
  apply Write_buffered_fin.
Qed.

Lemma buffered_fin_is_dead_witness :
  agree same_run
    (run examples.cfg128 examples.fresh
       (map fst [(OpWrite examples.xxxxx 0 0, true); (OpClose, true);
                 (OpPopStreamFrame 1200, false)]))
    (run examples.cfg128 examples.fresh
       (map fst [(OpWrite examples.xxxxx 0 0, true); (OpClose, true);
                 (OpPopStreamFrame 1200, false)])) /\
  agree same_run
    (run examples.cfg128 examples.fresh
       (map fst [(OpWrite examples.xxxxx 0 0, true); (OpClose, true);
                 (OpPopStreamFrame 1200, false)]))
    (run_recycling examples.cfg128 examples.fresh
       [(OpWrite examples.xxxxx 0 0, true); (OpClose, true);
        (OpPopStreamFrame 1200, false)]) /\
  agree same_pop
    (popStreamFrame examples.cfg128 examples.fresh 1200)
    (popStreamFrame examples.cfg128 examples.fresh 1200) /\
  snd (Write examples.fresh examples.xxxxx 0 0)
  = snd (Write examples.fresh examples.xxxxx 0 0).
Proof.
  apply (buffered_fin_is_dead examples.cfg128 examples.fresh examples.fresh
           [(OpWrite examples.xxxxx 0 0, true); (OpClose, true);
            (OpPopStreamFrame 1200, false)] 1200 examples.xxxxx 0 0).
  reflexivity.
Defined.

End Pool.
